(** * Home_activity: the timing harness of [app.py] and the persistence
      call of [sqlachemy.py]

    A shallow embedding of the Python sources, in three parts: the
    programs, the lemmas about them, and the properties of the
    specification.  The programs:
    - [binary_search_work] (app.py, lines 67-77), its [while] loop given by
      well-founded recursion on [right - left];
    - [numpy.linspace(10, max_n, num_steps, dtype=int)] (app.py, line 34),
      over IEEE binary64 values;
    - [measure_times] (app.py, lines 28-65) and [analyze] (lines 80-135),
      with the clock, the random generator and the timed algorithms as an
      explicit world that is passed along;
    - [save_analysis_result] (sqlachemy.py, lines 79-131), with the
      [try]/[except]/[finally] structure written out. *)

From Equations Require Import Equations.
From Stdlib Require Import ZArith List Lia Bool.
From Stdlib Require Import Sorting.Sorted Sorting.Permutation.
From Stdlib Require Import QArith Qround Qabs Qpower Lqa.
From Stdlib Require Import SpecFloat.
From Stdlib Require Import Ascii.
From Stdlib Require String DecimalString.
Import String (string(..)).
Import String.StringSyntax.
Delimit Scope string_scope with string.
Import ListNotations.

Local Open Scope Z_scope.

(** * The programs *)

(** ** Python values shared by the two files *)

(** The exceptions the modelled code can meet. *)
Inductive exn : Type :=
| IndexError
| ValueError
| TypeError
| OverflowError
| DatabaseError.

(** The outcome of running a piece of Python: a value, or a raised
    exception that propagates to the caller. *)
Inductive py (A : Type) : Type :=
| Ok (a : A)
| Raise (e : exn).
Arguments Ok {A} a.
Arguments Raise {A} e.

(** [len(arr)] *)
Definition len {A : Type} (arr : list A) : Z := Z.of_nat (length arr).

(** [arr[i]] on a Python list: a negative index counts from the end, an
    index outside [-len, len) raises [IndexError]. *)
Definition py_index {A : Type} (arr : list A) (i : Z) : py A :=
  let j := if i <? 0 then i + len arr else i in
  if (0 <=? j) && (j <? len arr) then
    match nth_error arr (Z.to_nat j) with
    | Some x => Ok x
    | None => Raise IndexError
    end
  else Raise IndexError.

(** ** IEEE binary64 arithmetic

    Python's [float] and numpy's [float64] are IEEE binary64.  A finite
    binary64 value is modelled by the rational it denotes, and an
    operation by the exact rational result rounded to the nearest
    representable value, ties to even: 53 bits of precision, least
    exponent -1074.  Infinities and NaN are not modelled: no operand in
    these programs comes near [2^1024]. *)

Module Binary64.

Local Open Scope Q_scope.

Definition pow2 (k : Z) : Q := 2 ^ k.

(** [floor (log2 x)] of a positive rational. *)
Definition Qlog2 (x : Q) : Z :=
  let k := (Z.log2 (Qnum x) - Z.log2 (Zpos (Qden x)))%Z in
  if Qle_bool (pow2 k) x then k else (k - 1)%Z.

(** The exponent of the last place of the binade of [x]. *)
Definition fexp (x : Q) : Z := Z.max (Qlog2 x - 52) (-1074).

(** The integer nearest to [q], ties to the even one. *)
Definition round_half_even (q : Q) : Z :=
  let f := Qfloor q in
  match Qcompare (q - inject_Z f) (1 # 2) with
  | Lt => f
  | Gt => (f + 1)%Z
  | Eq => if Z.even f then f else (f + 1)%Z
  end.

Definition round_pos (x : Q) : Q :=
  let e := fexp x in
  inject_Z (round_half_even (x / pow2 e)) * pow2 e.

(** Rounding of an exact result to binary64. *)
Definition round (x : Q) : Q :=
  Qred match Qcompare x 0 with
       | Eq => 0
       | Gt => round_pos x
       | Lt => - round_pos (- x)
       end.

Definition fadd (x y : Q) : Q := round (x + y).
Definition fsub (x y : Q) : Q := round (x - y).
Definition fmul (x y : Q) : Q := round (x * y).
Definition fdiv (x y : Q) : Q := round (x / y).

(** [float(z)] of an integer. *)
Definition of_int (z : Z) : Q := round (inject_Z z).

End Binary64.

(** ** [numpy.linspace] with an integer [dtype] *)

Module Numpy.

Import Binary64.

(** [numpy.arange(0, num)]: the integers [0 .. num - 1]. *)
Definition arange (num : Z) : list Z :=
  map Z.of_nat (seq 0 (Z.to_nat num)).

(** [y[-1] = v] on a non-empty array. *)
Definition set_last (y : list Q) (v : Q) : list Q :=
  match y with
  | [] => []
  | _ => removelast y ++ [v]
  end.

(** [numpy.linspace(start, stop, num)] with [endpoint=True], before the
    conversion to the [dtype]: [step = (stop - start) / (num - 1)] is
    computed once, the array is [arange(0, num) * step + start], and its
    last entry is overwritten with [stop].  A negative [num] raises
    [ValueError]. *)
Definition linspace_float (start stop num : Z) : py (list Q) :=
  if (num <? 0)%Z then Raise ValueError
  else
    let div := (num - 1)%Z in
    let delta := fsub (of_int stop) (of_int start) in
    let y := map of_int (arange num) in
    let y :=
      if (0 <? div)%Z then
        let step := fdiv delta (of_int div) in
        if Qeq_bool step 0
        then map (fun v => fmul (fdiv v (of_int div)) delta) y
        else map (fun v => fmul v step) y
      else map (fun v => fmul v delta) y in
    let y := map (fun v => fadd v (of_int start)) y in
    Ok (if (1 <? num)%Z then set_last y (of_int stop) else y).

(** With [dtype=int] the entries are rounded down ([floor]) and
    converted, and [.tolist()] gives a list of Python integers. *)
Definition linspace_int (start stop num : Z) : py (list Z) :=
  match linspace_float start stop num with
  | Ok y => Ok (map Qfloor y)
  | Raise e => Raise e
  end.

(** [measure_times], line 34: the sizes at which the algorithm is timed. *)
Definition input_sizes (max_n num_steps : Z) : py (list Z) :=
  linspace_int 10 max_n num_steps.

(** The step of [linspace start stop num]. *)
Definition linspace_step (start stop num : Z) : Q :=
  fdiv (fsub (of_int stop) (of_int start)) (of_int (num - 1)).

(** The entry of index [i < num_steps - 1] of the array of line 34,
    before it is rounded down. *)
Definition sampler_entry (max_n num_steps i : Z) : Q :=
  fadd (fmul (of_int i) (linspace_step 10 max_n num_steps)) (of_int 10).

End Numpy.

(** ** The entries once more, over the standard library's IEEE 754

    [SpecFloat] specifies the operations of binary64 on mantissas and
    exponents.  The entries of the array of line 34 are written here with
    its operations, to compare [Binary64.round] with on given inputs. *)

Module Binary64Spec.

(** The rational a finite [spec_float] denotes. *)
Definition SF2Q (f : spec_float) : Q :=
  match f with
  | S754_finite s m e =>
      Qred ((if s then - inject_Z (Zpos m) else inject_Z (Zpos m))
            * Binary64.pow2 e)%Q
  | _ => 0%Q
  end.

Definition sf_of_int (z : Z) : spec_float := binary_normalize 53 1024 z 0 false.

Definition sf_entry (max_n num_steps i : Z) : spec_float :=
  SFadd 53 1024
    (SFmul 53 1024 (sf_of_int i)
       (SFdiv 53 1024
          (SFsub 53 1024 (sf_of_int max_n) (sf_of_int 10))
          (sf_of_int (num_steps - 1))))
    (sf_of_int 10).

(** Whether the two computations of the entries agree for [max_n] and
    [num_steps]. *)
Definition entries_agree (max_n num_steps : Z) : bool :=
  forallb (fun i => Qeq_bool (SF2Q (sf_entry max_n num_steps i))
                             (Numpy.sampler_entry max_n num_steps i))
          (Numpy.arange (num_steps - 1)).

End Binary64Spec.

(** ** [binary_search_work] *)

Module BinarySearch.

(** What one pass through the body of the [while] loop does: go round
    again with new bounds, leave by [return mid], or raise. *)
Inductive iter : Type :=
| Continue (left right : Z)
| Return (index : Z)
| Raised (e : exn).

(** [mid = left + (right - left) // 2]; Python's [//] on integers is floor
    division, which is [Z.div]. *)
Definition midpoint (left right : Z) : Z := left + (right - left) / 2.

(** The loop body, lines 70-76. *)
Definition loop_body (arr : list Z) (target left right : Z) : iter :=
  let mid := midpoint left right in
  match py_index arr mid with
  | Raise e => Raised e
  | Ok x =>
      if x =? target then Return mid
      else if x <? target then Continue (mid + 1) right
      else Continue left (mid - 1)
  end.

Definition inspect {A : Type} (a : A) : {b : A | a = b} :=
  exist _ a eq_refl.

(** The [while left <= right] loop, lines 69-77.  The recursion is on the
    width [right - left + 1] of the interval still to search, which a pass
    that goes round again makes smaller. *)
Equations? while_loop (arr : list Z) (target left_ right_ : Z) : py Z
  by wf (Z.to_nat (right_ - left_ + 1)) lt :=
while_loop arr target left_ right_ with inspect (left_ <=? right_) := {
  | exist _ false _ => Ok (-1)
  | exist _ true Hle with inspect (loop_body arr target left_ right_) := {
    | exist _ (Continue l' r') Hb => while_loop arr target l' r'
    | exist _ (Return index) _ => Ok index
    | exist _ (Raised e) _ => Raise e } }.
Proof.
  apply Z.leb_le in Hle. unfold loop_body in Hb.
  assert (Hm : left_ <= midpoint left_ right_ <= right_).
  { unfold midpoint.
    assert (0 <= (right_ - left_) / 2) by (apply Z.div_pos; lia).
    assert ((right_ - left_) / 2 <= right_ - left_)
      by (apply Z.div_le_upper_bound; lia).
    lia. }
  destruct (py_index arr (midpoint left_ right_)) as [x|e]; [|discriminate].
  destruct (x =? target); [discriminate|].
  destruct (x <? target); inversion Hb; subst; lia.
Qed.

(** Lines 67-77. *)
Definition binary_search_work (arr : list Z) (target : Z) : py Z :=
  while_loop arr target 0 (len arr - 1).

(** The loop states a call can reach: the initial bounds of line 68, and
    the bounds after each pass that goes round again. *)
Inductive reachable (arr : list Z) (target : Z) : Z -> Z -> Prop :=
| reach_init : reachable arr target 0 (len arr - 1)
| reach_next left right l' r' :
    reachable arr target left right ->
    left <= right ->
    loop_body arr target left right = Continue l' r' ->
    reachable arr target l' r'.

(** One pass of the loop as a transition between loop states. *)
Definition loop_step (arr : list Z) (target : Z) (s s' : Z * Z) : Prop :=
  fst s <= snd s /\
  loop_body arr target (fst s) (snd s) = Continue (fst s') (snd s').

(** [sorted(xs)] on a list of integers: the non-decreasing rearrangement of
    [xs], here computed by insertion. *)
Fixpoint insert_sorted (x : Z) (l : list Z) : list Z :=
  match l with
  | [] => [x]
  | y :: l' => if x <=? y then x :: l else y :: insert_sorted x l'
  end.

Definition sorted (xs : list Z) : list Z :=
  fold_right insert_sorted [] xs.

End BinarySearch.

(** ** Strings *)

Module Str.

Local Open Scope string_scope.

(** [s.isascii()]: every character of the string is below 128.  On
    these strings [lower] and [strip] below are Python's [str.lower] and
    [str.strip]; on others Python also lowers the cased letters and
    strips the white space of Unicode, which are not modelled, and what
    is proved of [normalize] is stated for the strings [isascii]
    accepts. *)
Fixpoint isascii (s : string) : bool :=
  match s with
  | EmptyString => true
  | String c s' => (nat_of_ascii c <? 128)%nat && isascii s'
  end.

(** [c.lower()] on an ASCII character. *)
Definition lower_ascii (c : ascii) : ascii :=
  let n := nat_of_ascii c in
  if ((65 <=? n) && (n <=? 90))%nat then ascii_of_nat (n + 32) else c.

(** [s.lower()] of an ASCII string. *)
Fixpoint lower (s : string) : string :=
  match s with
  | EmptyString => EmptyString
  | String c s' => String (lower_ascii c) (lower s')
  end.

(** The characters [str.strip()] removes from an ASCII string: space,
    tab, newline, vertical tab, form feed, carriage return and the
    separators 28-31. *)
Definition is_space (c : ascii) : bool :=
  let n := nat_of_ascii c in
  ((n =? 32) || ((9 <=? n) && (n <=? 13)) || ((28 <=? n) && (n <=? 31)))%nat.

Fixpoint lstrip (s : string) : string :=
  match s with
  | EmptyString => EmptyString
  | String c s' => if is_space c then lstrip s' else s
  end.

(** Removes the trailing white space: a character is kept when something
    kept follows it or it is not white space. *)
Fixpoint rstrip (s : string) : string :=
  match s with
  | EmptyString => EmptyString
  | String c s' =>
      match rstrip s' with
      | EmptyString => if is_space c then EmptyString else String c EmptyString
      | r => String c r
      end
  end.

(** [s.strip()] of an ASCII string. *)
Definition strip (s : string) : string := rstrip (lstrip s).

(** [sep.join(parts)] *)
Definition join (sep : string) (parts : list string) : string :=
  String.concat sep parts.


End Str.

(** ** The timing harness, [measure_times] *)

Module Harness.

Import Binary64 BinarySearch.

(** The functions of [factorial.py] that line 9 imports, and any other
    callable a caller may hand to [measure_times]. *)
Inductive algorithm : Type :=
| linear_search
| bubble_sort
| binary_search
| nested_loops
| other_callable (name : string).

(** [f == g] on function objects is identity. *)
Definition algorithm_eqb (f g : algorithm) : bool :=
  match f, g with
  | linear_search, linear_search => true
  | bubble_sort, bubble_sort => true
  | binary_search, binary_search => true
  | nested_loops, nested_loops => true
  | other_callable a, other_callable b => String.eqb a b
  | _, _ => false
  end.

(** What the harness does to its surroundings, in the order it does it. *)
Inductive event : Type :=
| ev_perf_counter (t : Q)
| ev_randint (low high size : Z)
| ev_call (f : algorithm) (n : Z)
| ev_binary_search_work (arr : list Z) (target : Z)
| ev_savefig (xs : list Z) (ys : list Q).

(** The surroundings: the successive readings of the clock and how many
    were taken, the stream the random generator draws from and how much
    of it was drawn, and the log of events so far. *)
Record World : Type := mkWorld {
  clock : nat -> Q;
  reads : nat;
  rng : nat -> Z;
  draws : nat;
  log : list event
}.

Definition emit (e : event) (w : World) : World :=
  mkWorld (clock w) (reads w) (rng w) (draws w) (log w ++ [e]).

(** A computation that reads and changes the world and may raise. *)
Definition M (A : Type) : Type := World -> py A * World.

Definition ret {A : Type} (a : A) : M A := fun w => (Ok a, w).

Definition bind {A B : Type} (m : M A) (k : A -> M B) : M B :=
  fun w =>
    match m w with
    | (Ok a, w') => k a w'
    | (Raise e, w') => (Raise e, w')
    end.

Definition lift {A : Type} (r : py A) : M A := fun w => (r, w).

Notation "x <- m ;; k" := (bind m (fun x => k))
  (at level 61, m at next level, right associativity).

(** [time.perf_counter()]: the next reading of the clock, as a binary64
    number of seconds. *)
Definition perf_counter : M Q :=
  fun w =>
    let t := round (clock w (reads w)) in
    (Ok t, emit (ev_perf_counter t)
             (mkWorld (clock w) (S (reads w)) (rng w) (draws w) (log w))).

(** [numpy.random.randint(low, high, size)]: [size] integers of
    [low .. high - 1]; [ValueError] for a negative size or an empty
    range. *)
Definition randint (low high size : Z) : M (list Z) :=
  fun w =>
    if (size <? 0) || (high <=? low) then (Raise ValueError, w)
    else
      let k := Z.to_nat size in
      let xs := map (fun j => low + rng w (draws w + j)%nat mod (high - low))
                    (seq 0 k) in
      (Ok xs, emit (ev_randint low high size)
                (mkWorld (clock w) (reads w) (rng w) (draws w + k) (log w))).

(** A call [f(n)] of one of the imported algorithms.  Their bodies are
    in [factorial.py]; a call is taken to return. *)
Definition call (f : algorithm) (n : Z) : M unit :=
  fun w => (Ok tt, emit (ev_call f n) w).

(** The call [binary_search_work(arr, target)] of line 44. *)
Definition call_binary_search_work (arr : list Z) (target : Z) : M unit :=
  fun w =>
    match binary_search_work arr target with
    | Ok _ => (Ok tt, emit (ev_binary_search_work arr target) w)
    | Raise e => (Raise e, emit (ev_binary_search_work arr target) w)
    end.

(** Lines 39-56: the data is prepared and [timed_func] is defined. *)
Definition prepare (algorithm_func : algorithm) (n : Z) : M (M unit) :=
  if algorithm_eqb algorithm_func binary_search then
    raw <- randint 0 100000 n ;;
    let arr := sorted raw in
    target <- lift (py_index arr (-1)) ;;
    ret (call_binary_search_work arr target)
  else if algorithm_eqb algorithm_func bubble_sort then
    ret (call bubble_sort n)
  else if algorithm_eqb algorithm_func linear_search then
    ret (call linear_search n)
  else if algorithm_eqb algorithm_func nested_loops then
    ret (call nested_loops n)
  else
    ret (call algorithm_func n).

(** Lines 39-63: one pass of the [for] loop; the value is what line 63
    appends to [times]. *)
Definition measure_one (algorithm_func : algorithm) (n : Z) : M Q :=
  timed_func <- prepare algorithm_func n ;;
  start <- perf_counter ;;
  _ <- timed_func ;;
  end_ <- perf_counter ;;
  ret (fsub end_ start).

(** Lines 38-63: the [for] loop over [input_sizes], with [times] as it
    grows. *)
Fixpoint for_sizes (algorithm_func : algorithm) (sizes : list Z)
  (times : list Q) : M (list Q) :=
  match sizes with
  | [] => ret times
  | n :: rest =>
      t <- measure_one algorithm_func n ;;
      for_sizes algorithm_func rest (times ++ [t])
  end.

(** Lines 28-65. *)
Definition measure_times (algorithm_func : algorithm) (max_n num_steps : Z)
  : M (list Z * list Q) :=
  input_sizes <- lift (Numpy.input_sizes max_n num_steps) ;;
  times <- for_sizes algorithm_func input_sizes [] ;;
  ret (input_sizes, times).

(** *** One measurement *)

(** What one pass of the loop leaves in the log: the preparation, a
    reading of the clock, the timed call, a reading of the clock. *)
Record measurement : Type := mkMeasurement {
  m_size : Z;
  m_setup : list event;
  m_start : Q;
  m_run : event;
  m_end : Q
}.

Definition m_events (m : measurement) : list event :=
  m_setup m ++ [ev_perf_counter (m_start m); m_run m; ev_perf_counter (m_end m)].

Definition m_duration (m : measurement) : Q := fsub (m_end m) (m_start m).

(** The timed event is one invocation of the algorithm on the size. *)
Definition runs_algorithm (f : algorithm) (m : measurement) : Prop :=
  match f with
  | binary_search =>
      exists arr target,
        m_run m = ev_binary_search_work arr target /\
        len arr = m_size m /\
        py_index arr (-1) = Ok target
  | _ => m_run m = ev_call f (m_size m)
  end.

(** The preparation reads no clock and invokes no algorithm. *)
Definition is_setup_event (e : event) : Prop :=
  match e with
  | ev_randint _ _ _ => True
  | _ => False
  end.

End Harness.

(** ** The request handler, [analyze] *)

Module Handler.

Import Binary64 Harness.

Local Open Scope string_scope.

(** Lines 14-25.  A [dict] keeps its keys in insertion order, which is
    the order [keys()] lists them in. *)
Definition ALGORITHMS : list (string * algorithm) :=
  [ ("linear", linear_search);
    ("linearsearch", linear_search);
    ("bubble", bubble_sort);
    ("bubblesort", bubble_sort);
    ("bubble_sort", bubble_sort);
    ("binary", binary_search);
    ("binarysearch", binary_search);
    ("nested", nested_loops);
    ("nestedloops", nested_loops);
    ("exponential", nested_loops) ].

(** [d.keys()] *)
Definition keys {V : Type} (d : list (string * V)) : list string :=
  map fst d.

(** [d[k]] when [k in d] *)
Fixpoint lookup {V : Type} (d : list (string * V)) (k : string) : option V :=
  match d with
  | [] => None
  | (k', v) :: d' => if String.eqb k k' then Some v else lookup d' k
  end.

(** The query string as [request.args.get(name, default, type)] reads
    it: a parameter is [None] when it is absent or its text does not
    convert to the type, and the default is used then. *)
Record request : Type := mkRequest {
  arg_algo : option string;
  arg_n : option Z;
  arg_steps : option Z
}.

Definition get {A : Type} (arg : option A) (default : A) : A :=
  match arg with
  | Some v => v
  | None => default
  end.

(** The plot handed back: the algorithm its title names and what was
    drawn; its encoding as a PNG in base64 is not modelled. *)
Record graph : Type := mkGraph {
  g_title : string;
  g_xs : list Z;
  g_ys : list Q
}.

(** The [context] object of the response. *)
Record context : Type := mkContext {
  ctx_algorithm : string;
  ctx_max_n : Z;
  ctx_steps : Z;
  ctx_execution_time_seconds : Q
}.

(** What [analyze] returns: the JSON body and the HTTP status. *)
Inductive response : Type :=
| http_error (status : Z) (message : string)
| http_success (ctx : context) (input_sizes : list Z)
    (times_seconds : list Q) (graph_base64 : graph).

(** [round(x, ndigits)] on a float: the decimal with [ndigits] places
    nearest to [x], ties to even, as a float. *)
Definition py_round (x : Q) (ndigits : Z) : Q :=
  let scale := inject_Z (10 ^ ndigits) in
  round (inject_Z (round_half_even (x * scale)) / scale)%Q.

(** Line 85: [.lower().strip()], of an ASCII string. *)
Definition normalize (algo : string) : string := Str.strip (Str.lower algo).

(** Line 90 *)
Definition clamp_n (n : Z) : Z := Z.max 100 (Z.min n 20000).

(** Line 91 *)
Definition clamp_steps (steps : Z) : Z := Z.max 4 (Z.min steps 30).

(** Lines 96: the text of the rejection. *)
Definition unknown_algorithm_message : string :=
  String.append "Unknown algorithm. Supported: "
                (Str.join ", " (keys ALGORITHMS)).

(** Lines 105-118: the plot is drawn and encoded. *)
Definition savefig (algo : string) (xs : list Z) (ys : list Q) : M graph :=
  fun w => (Ok (mkGraph algo xs ys), emit (ev_savefig xs ys) w).

(** Lines 81-135. *)
Definition analyze (req : request) : M response :=
  start_total <- perf_counter ;;
  let algo := normalize (get (arg_algo req) "linear") in
  let n := get (arg_n req) 1000 in
  let steps := get (arg_steps req) 10 in
  let n := clamp_n n in
  let steps := clamp_steps steps in
  match lookup ALGORITHMS algo with
  | None => ret (http_error 400 unknown_algorithm_message)
  | Some func =>
      r <- measure_times func n steps ;;
      let input_sizes := fst r in
      let run_times := snd r in
      img_base64 <- savefig algo input_sizes run_times ;;
      end_total <- perf_counter ;;
      let total_time := fsub end_total start_total in
      ret (http_success
             (mkContext algo n steps (py_round total_time 5))
             input_sizes
             (map (fun t => py_round t 6) run_times)
             img_base64)
  end.

End Handler.

(** ** The persistence call, [save_analysis_result] *)

Module Persistence.

Local Open Scope string_scope.

(** The values a caller may put in the record: [None], an integer, a
    float, which is finite, an infinity or a NaN, or a string. *)
Inductive pyval : Type :=
| PyNone
| PyInt (z : Z)
| PyFloat (q : Q)
| PyInf (negative : bool)
| PyNaN
| PyStr (s : string).

Definition dict : Type := list (string * pyval).

(** [d.get(key, default)] *)
Definition dict_get (d : dict) (key : string) (default : pyval) : pyval :=
  match Handler.lookup d key with
  | Some v => v
  | None => default
  end.

(** The arguments of the constructor [AlgorithmAnalysis(...)], lines
    96-105: the integer columns hold converted integers, the others
    whatever the record holds. *)
Record analysis : Type := mkAnalysis {
  algo : pyval;
  items : Z;
  steps : Z;
  start_time : Z;
  end_time : Z;
  total_time_ms : Z;
  time_complexity : pyval;
  path_to_graph : pyval
}.

(** The attributes of a saved row as the database gives them back,
    lines 50-61; [created_at] is filled in when the row is inserted. *)
Record saved_row : Type := mkSavedRow {
  row_values : analysis;
  row_created_at : pyval
}.

(** The dictionary [save_analysis_result] returns: ['status': 'success']
    with the identifier, or ['status': 'error']. *)
Inductive result : Type :=
| success (status_code : Z) (id : Z) (message : string) (data : dict)
| error (status_code : Z) (message : string).

(** [str(z)] of an integer. *)
Definition str_of_int (z : Z) : string :=
  DecimalString.NilZero.string_of_int (Z.to_int z).

Section Database.

(** The database server and the text conversions of Python are outside
    the program: an [INSERT] returns the new primary key or fails, the
    [SELECT] that reloads a row after the commit returns it or fails, a
    rollback puts the database back. *)
Variable Database : Type.
Variable db_insert : Database -> analysis -> py (Z * Database).
Variable db_select : Database -> Z -> py saved_row.
Variable db_rollback : Database -> Database.

(** [int(s)] of a string, [None] where Python raises [ValueError]. *)
Variable int_of_str : string -> option Z.

(** [str(e)] of an exception. *)
Variable str_of_exn : exn -> string.

(** A [Session]: the object added and not yet flushed, and the primary
    key of the object once it is. *)
Record session : Type := mkSession {
  pending : option analysis;
  identity : option Z;
  is_open : bool
}.

(** The state the call runs in: the database, the session of line 93,
    and the record [data]: the caller passes a reference to its own
    dictionary. *)
Record State : Type := mkState {
  database : Database;
  sess : session;
  data_obj : dict
}.

Definition S (A : Type) : Type := State -> py A * State.

Definition ret {A : Type} (a : A) : S A := fun s => (Ok a, s).

Definition bind {A B : Type} (m : S A) (k : A -> S B) : S B :=
  fun s =>
    match m s with
    | (Ok a, s') => k a s'
    | (Raise e, s') => (Raise e, s')
    end.

Definition lift {A : Type} (r : py A) : S A := fun s => (r, s).

Notation "x <- m ;; k" := (bind m (fun x => k))
  (at level 61, m at next level, right associativity).

(** [try: body except Exception as e: handler(e)] *)
Definition try_except {A : Type} (body : S A) (handler : exn -> S A) : S A :=
  fun s =>
    match body s with
    | (Ok a, s') => (Ok a, s')
    | (Raise e, s') => handler e s'
    end.

(** [try: body finally: final]: [final] runs on every way out of
    [body]; an exception of [final] replaces the outcome. *)
Definition try_finally {A : Type} (body : S A) (final : S unit) : S A :=
  fun s =>
    match body s with
    | (r, s') =>
        match final s' with
        | (Ok _, s'') => (r, s'')
        | (Raise e, s'') => (Raise e, s'')
        end
    end.

(** [int(v)]: a finite float is cut off towards zero, an infinity
    raises [OverflowError], a NaN and a text that is no number raise
    [ValueError], and [None] raises [TypeError]. *)
Definition py_int (v : pyval) : py Z :=
  match v with
  | PyInt z => Ok z
  | PyFloat q => Ok (Z.quot (Qnum q) (Zpos (Qden q)))
  | PyInf _ => Raise OverflowError
  | PyNaN => Raise ValueError
  | PyStr s =>
      match int_of_str s with
      | Some z => Ok z
      | None => Raise ValueError
      end
  | PyNone => Raise TypeError
  end.

(** [data.get(key, default)] on the caller's record. *)
Definition data_get (key : string) (default : pyval) : S pyval :=
  fun s => (Ok (dict_get (data_obj s) key default), s).

(** [Session()], line 93: a new session; nothing is sent to the
    database. *)
Definition new_session : S unit :=
  fun s => (Ok tt, mkState (database s) (mkSession None None true) (data_obj s)).

(** [session.add(analysis)] *)
Definition session_add (a : analysis) : S unit :=
  fun s =>
    (Ok tt, mkState (database s)
              (mkSession (Some a) (identity (sess s)) (is_open (sess s)))
              (data_obj s)).

(** [session.commit()]: the pending object is inserted. *)
Definition session_commit : S unit :=
  fun s =>
    match pending (sess s) with
    | None => (Ok tt, s)
    | Some a =>
        match db_insert (database s) a with
        | Ok (id, db') =>
            (Ok tt, mkState db' (mkSession None (Some id) (is_open (sess s)))
                      (data_obj s))
        | Raise e => (Raise e, s)
        end
    end.

(** The first read of an attribute after the commit, [analysis.id] on
    line 112: the row is loaded again by its primary key. *)
Definition analysis_id : S (Z * saved_row) :=
  fun s =>
    match identity (sess s) with
    | None => (Raise DatabaseError, s)
    | Some id =>
        match db_select (database s) id with
        | Ok row => (Ok (id, row), s)
        | Raise e => (Raise e, s)
        end
    end.

(** [session.rollback()]: what the session holds is dropped and the
    database is put back; it is taken not to raise. *)
Definition session_rollback : S unit :=
  fun s =>
    (Ok tt, mkState (db_rollback (database s))
              (mkSession None (identity (sess s)) (is_open (sess s)))
              (data_obj s)).

(** [session.close()]: the session lets go of its connection; it is
    taken not to raise. *)
Definition session_close : S unit :=
  fun s =>
    (Ok tt, mkState (database s) (mkSession None None false) (data_obj s)).

(** [to_dict], lines 48-61. *)
Definition to_dict (id : Z) (row : saved_row) : dict :=
  let a := row_values row in
  [ ("id", PyInt id);
    ("algo", algo a);
    ("items", PyInt (items a));
    ("steps", PyInt (steps a));
    ("start_time", PyInt (start_time a));
    ("end_time", PyInt (end_time a));
    ("total_time_ms", PyInt (total_time_ms a));
    ("time_complexity", time_complexity a);
    ("path_to_graph", path_to_graph a);
    ("created_at", row_created_at row) ].

(** Lines 96-105. *)
Definition new_analysis : S analysis :=
  v_algo <- data_get "algo" PyNone ;;
  v_items <- data_get "items" (PyInt 0) ;;
  i_items <- lift (py_int v_items) ;;
  v_steps <- data_get "steps" (PyInt 0) ;;
  i_steps <- lift (py_int v_steps) ;;
  v_start <- data_get "start_time" (PyInt 0) ;;
  i_start <- lift (py_int v_start) ;;
  v_end <- data_get "end_time" (PyInt 0) ;;
  i_end <- lift (py_int v_end) ;;
  v_total <- data_get "total_time_ms" (PyInt 0) ;;
  i_total <- lift (py_int v_total) ;;
  v_complexity <- data_get "time_complexity" (PyStr "") ;;
  v_path <- data_get "path_to_graph" (PyStr "") ;;
  ret (mkAnalysis v_algo i_items i_steps i_start i_end i_total
         v_complexity v_path).

(** Lines 79-131. *)
Definition save_analysis_result : S result :=
  _ <- new_session ;;
  try_finally
    (try_except
       (a <- new_analysis ;;
        _ <- session_add a ;;
        _ <- session_commit ;;
        saved <- analysis_id ;;
        let saved_id := fst saved in
        ret (success 201 saved_id
               (String.append
                  "Algorithm analysis saved successfully with ID: "
                  (str_of_int saved_id))
               (to_dict saved_id (snd saved))))
       (fun e =>
          _ <- session_rollback ;;
          ret (error 500
                 (String.append "Failed to save analysis: " (str_of_exn e)))))
    session_close.

End Database.

Arguments database {Database} s.
Arguments sess {Database} s.
Arguments data_obj {Database} s.
Arguments mkState {Database} database sess data_obj.
Arguments new_analysis {Database} int_of_str s.
Arguments save_analysis_result {Database} db_insert db_select db_rollback
  int_of_str str_of_exn s.

End Persistence.

(** ** The wording of C2, and inputs to run the programs on *)

(** The interpolation of C2 as the claim words it: the exact value
    [10 + i * (max_n - 10) / (steps - 1)] rounded to the nearest
    integer. *)
Definition nearest_interpolation (max_n steps i : Z) : Z :=
  Binary64.round_half_even
    (10 + inject_Z i * (inject_Z (max_n - 10) / inject_Z (steps - 1)))%Q.

(** A world to run the harness in: the clock advances by a quarter of a
    second from one reading to the next. *)
Definition sample_world : Harness.World :=
  Harness.mkWorld (fun k => inject_Z (Z.of_nat k) / 4)%Q 0
          (fun k => Z.of_nat (7 * k + 3)) 0 [].

(** A database in memory, for running the call: the rows with their
    keys, numbered from 1; [offline] is a server that refuses every
    statement. *)
Definition memory_db : Type := list (Z * Persistence.analysis).

Definition memory_insert (db : memory_db) (a : Persistence.analysis)
  : py (Z * memory_db) :=
  let id := Z.of_nat (length db) + 1 in
  Ok (id, (id, a) :: db).

Definition memory_select (db : memory_db) (id : Z) : py Persistence.saved_row :=
  match find (fun row => fst row =? id) db with
  | Some row =>
      Ok (Persistence.mkSavedRow (snd row)
            (Persistence.PyStr "2024-02-04T12:34:56"%string))
  | None => Raise DatabaseError
  end.

Definition offline_insert (db : memory_db) (a : Persistence.analysis)
  : py (Z * memory_db) :=
  Raise DatabaseError.

Definition exn_name (e : exn) : string :=
  match e with
  | IndexError => "IndexError"
  | ValueError => "ValueError"
  | TypeError => "TypeError"
  | OverflowError => "OverflowError"
  | DatabaseError => "DatabaseError"
  end%string.

(** The record of lines 223-232. *)
Definition sample_data : Persistence.dict :=
  [ ("algo", Persistence.PyStr "Bubble Sort");
    ("items", Persistence.PyInt 1000);
    ("steps", Persistence.PyInt 10);
    ("start_time", Persistence.PyInt 36458241);
    ("end_time", Persistence.PyInt 239759234);
    ("total_time_ms", Persistence.PyInt 3);
    ("time_complexity", Persistence.PyStr "O(n^2)");
    ("path_to_graph",
      Persistence.PyStr "/graphs/bubble_sort_20240204_123456_abc123.png")
  ]%string.

Definition sample_state : Persistence.State memory_db :=
  Persistence.mkState [] (Persistence.mkSession None None false) sample_data.

(** ** The passes of the loop of [binary_search_work], counted *)

Module BinarySearchPasses.

Import BinarySearch.

(** The loop states a call reaches, with the number of passes of the
    body made before: none for the bounds of line 68, one more after each
    pass that goes round again. *)
Inductive reachable_after (arr : list Z) (target : Z) : nat -> Z -> Z -> Prop :=
| after_init : reachable_after arr target 0 0 (len arr - 1)
| after_next k left right l' r' :
    reachable_after arr target k left right ->
    left <= right ->
    loop_body arr target left right = Continue l' r' ->
    reachable_after arr target (S k) l' r'.

End BinarySearchPasses.

(** ** The queries, [get_analysis_by_id] and [get_all_analyses] *)

Module Queries.

Import Persistence.

Local Open Scope string_scope.

(** The dictionaries the two queries return: one row, all the rows with
    their count, or ['status': 'error']. *)
Inductive query_result : Type :=
| found (status_code : Z) (data : dict)
| listed (status_code : Z) (count : Z) (data : list dict)
| query_error (status_code : Z) (message : string).

Section Database.

(** The database answers a query for the first row with a given [id]
    with the row and its key, with nothing, or fails; it answers a query
    for all the rows with the rows and their keys, or fails. *)
Variable Database : Type.
Variable db_first : Database -> Z -> py (option (Z * saved_row)).
Variable db_all : Database -> py (list (Z * saved_row)).

(** [str(e)] of an exception. *)
Variable str_of_exn : exn -> string.

Notation "x <- m ;; k" := (bind Database m (fun x => k))
  (at level 61, m at next level, right associativity).

(** [session.query(AlgorithmAnalysis).filter_by(id=analysis_id).first()] *)
Definition query_first (analysis_id : Z) : S Database (option (Z * saved_row)) :=
  fun s =>
    match db_first (database s) analysis_id with
    | Ok r => (Ok r, s)
    | Raise e => (Raise e, s)
    end.

(** [session.query(AlgorithmAnalysis).all()] *)
Definition query_all : S Database (list (Z * saved_row)) :=
  fun s =>
    match db_all (database s) with
    | Ok rows => (Ok rows, s)
    | Raise e => (Raise e, s)
    end.

(** Lines 134-166. *)
Definition get_analysis_by_id (analysis_id : Z) : S Database query_result :=
  _ <- new_session Database ;;
  try_finally Database
    (try_except Database
       (analysis <- query_first analysis_id ;;
        match analysis with
        | Some (id, row) => ret Database (found 200 (to_dict id row))
        | None =>
            ret Database
              (query_error 404
                 (String.append "Analysis with ID "
                    (String.append (str_of_int analysis_id) " not found")))
        end)
       (fun e =>
          ret Database
            (query_error 500
               (String.append "Error retrieving analysis: " (str_of_exn e)))))
    (session_close Database).

(** Lines 169-192. *)
Definition get_all_analyses : S Database query_result :=
  _ <- new_session Database ;;
  try_finally Database
    (try_except Database
       (analyses <- query_all ;;
        ret Database
          (listed 200 (len analyses)
             (map (fun r => to_dict (fst r) (snd r)) analyses)))
       (fun e =>
          ret Database
            (query_error 500
               (String.append "Error retrieving analyses: " (str_of_exn e)))))
    (session_close Database).

End Database.

Arguments get_analysis_by_id {Database} db_first str_of_exn analysis_id s.
Arguments get_all_analyses {Database} db_all str_of_exn s.

End Queries.

(** ** What a pass of the loop of [measure_times] draws *)

Module Effects.

Import Harness.

(** The random numbers one pass draws on line 41: as many as the size
    for the binary search, none for the others. *)
Definition drawn (f : algorithm) (n : Z) : nat :=
  if algorithm_eqb f binary_search then Z.to_nat n else O.

End Effects.

(** ** The shape of a stripped string *)

Module StrShape.

Import Str.

(** What [lstrip] leaves does not begin with white space. *)
Definition begins_unspaced (s : string) : Prop :=
  match s with
  | EmptyString => True
  | String c _ => is_space c = false
  end.

End StrShape.

(** ** More inputs to run the programs on *)

(** The queries on the database in memory. *)
Definition memory_first (db : memory_db) (id : Z)
  : py (option (Z * Persistence.saved_row)) :=
  match find (fun row => fst row =? id) db with
  | Some row =>
      Ok (Some (fst row,
                Persistence.mkSavedRow (snd row)
                  (Persistence.PyStr "2024-02-04T12:34:56"%string)))
  | None => Ok None
  end.

Definition memory_all (db : memory_db)
  : py (list (Z * Persistence.saved_row)) :=
  Ok (map (fun row =>
             (fst row,
              Persistence.mkSavedRow (snd row)
                (Persistence.PyStr "2024-02-04T12:34:56"%string)))
          (rev db)).

(** A clock that advances by an eighth of a second from one reading to
    the next for a thousand readings, and stands still from then on. *)
Definition steady_world : Harness.World :=
  Harness.mkWorld (fun k => inject_Z (Z.of_nat (Nat.min k 1000)) / 8)%Q 0
    (fun k => Z.of_nat (11 * k + 5)) 0 [].

(** * Lemmas *)

(** ** Rounding to binary64 *)

Module Binary64Facts.

Import Binary64.

Local Open Scope Q_scope.

(** *** Powers of two *)

Lemma pow2_pos (k : Z) : 0 < pow2 k.
Proof. apply Qpower_0_lt. reflexivity. Qed.

Lemma pow2_add (a b : Z) : pow2 (a + b) == pow2 a * pow2 b.
Proof. apply Qpower_plus. discriminate. Qed.

Lemma pow2_le (a b : Z) : (a <= b)%Z -> pow2 a <= pow2 b.
Proof. intros H. apply Qpower_le_compat_l; [exact H|discriminate]. Qed.

Lemma pow2_lt (a b : Z) : (a < b)%Z -> pow2 a < pow2 b.
Proof. intros H. apply Qpower_lt_compat_l; [exact H|reflexivity]. Qed.

Lemma pow2_lt_inv (a b : Z) : pow2 a < pow2 b -> (a < b)%Z.
Proof. intros H. apply (Qpower_lt_compat_l_inv 2); [exact H|reflexivity]. Qed.

Lemma pow2_inject (k : Z) : (0 <= k)%Z -> pow2 k == inject_Z (2 ^ k).
Proof. intros H. unfold pow2. rewrite Zpower_Qpower by exact H. reflexivity. Qed.

Lemma pow2_succ (k : Z) : pow2 (k + 1) == 2 * pow2 k.
Proof. rewrite pow2_add. unfold pow2 at 2. simpl. ring. Qed.

Lemma pow2_div (x : Q) (e : Z) : x / pow2 e == x * pow2 (- e).
Proof.
  unfold pow2. rewrite Qpower_opp. reflexivity.
Qed.

(** *** The binade of a positive rational *)

Lemma Qlog2_spec (x : Q) :
  0 < x -> pow2 (Qlog2 x) <= x /\ x < pow2 (Qlog2 x + 1).
Proof.
  intros Hx. destruct x as [n d]. unfold Qlog2. cbn [Qnum Qden].
  assert (Hn : (0 < n)%Z).
  { unfold Qlt in Hx. simpl in Hx. lia. }
  destruct (Z.log2_spec n Hn) as [Hn1 Hn2].
  destruct (Z.log2_spec (Zpos d) ltac:(lia)) as [Hd1 Hd2].
  set (a := Z.log2 n) in *. set (b := Z.log2 (Zpos d)) in *.
  assert (Ha : (0 <= a)%Z) by apply Z.log2_nonneg.
  assert (Hb : (0 <= b)%Z) by apply Z.log2_nonneg.
  assert (Hlow : pow2 (a - b - 1) <= n # d).
  { apply Qmult_lt_0_le_reg_r with (z := pow2 (b + 1)); [apply pow2_pos|].
    rewrite <- pow2_add. replace (a - b - 1 + (b + 1))%Z with a by ring.
    rewrite !pow2_inject by lia.
    unfold Qle, Qmult, inject_Z. simpl.
    nia. }
  assert (Hhigh : n # d < pow2 (a - b + 1)).
  { apply Qmult_lt_r with (z := pow2 b); [apply pow2_pos|].
    rewrite <- pow2_add. replace (a - b + 1 + b)%Z with (a + 1)%Z by ring.
    rewrite !pow2_inject by lia.
    unfold Qlt, Qmult, inject_Z. simpl.
    rewrite Pos.mul_1_r, Z.mul_1_r.
    change (Z.succ a) with (a + 1)%Z in Hn2.
    assert (0 < 2 ^ b)%Z by (apply Z.pow_pos_nonneg; lia).
    assert (0 < 2 ^ (a + 1))%Z by (apply Z.pow_pos_nonneg; lia).
    nia. }
  destruct (Qle_bool (pow2 (a - b)) (n # d)) eqn:E.
  - apply Qle_bool_iff in E. split; assumption.
  - replace (a - b - 1 + 1)%Z with (a - b)%Z by ring.
    split; [exact Hlow|].
    apply Qnot_le_lt. intros H. apply Qle_bool_iff in H. congruence.
Qed.

Lemma Qlog2_unique (x : Q) (k : Z) :
  pow2 k <= x -> x < pow2 (k + 1) -> Qlog2 x = k.
Proof.
  intros H1 H2.
  assert (Hx : 0 < x) by (eapply Qlt_le_trans; [apply pow2_pos|exact H1]).
  destruct (Qlog2_spec x Hx) as [H3 H4].
  assert (Qlog2 x < k + 1)%Z
    by (apply pow2_lt_inv; eapply Qle_lt_trans; eassumption).
  assert (k < Qlog2 x + 1)%Z
    by (apply pow2_lt_inv; eapply Qle_lt_trans; eassumption).
  lia.
Qed.

Lemma Qlog2_mono (x y : Q) : 0 < x -> x <= y -> (Qlog2 x <= Qlog2 y)%Z.
Proof.
  intros Hx Hxy.
  assert (Hy : 0 < y) by (eapply Qlt_le_trans; eassumption).
  destruct (Qlog2_spec x Hx) as [H1 _].
  destruct (Qlog2_spec y Hy) as [_ H2].
  assert (Qlog2 x < Qlog2 y + 1)%Z; [|lia].
  apply pow2_lt_inv.
  eapply Qle_lt_trans; [exact H1|].
  eapply Qle_lt_trans; eassumption.
Qed.

(** *** Rounding to the nearest integer *)

#[export] Instance round_half_even_comp : Proper (Qeq ==> eq) round_half_even.
Proof.
  intros x y H. unfold round_half_even.
  rewrite (Qfloor_comp x y H).
  assert (E : Qcompare (x - inject_Z (Qfloor y)) (1 # 2)
              = Qcompare (y - inject_Z (Qfloor y)) (1 # 2))
    by (rewrite H; reflexivity).
  rewrite E. reflexivity.
Qed.

Lemma round_half_even_Z (n : Z) : round_half_even (inject_Z n) = n.
Proof.
  unfold round_half_even. rewrite Qfloor_Z.
  destruct (Qcompare_spec (inject_Z n - inject_Z n) (1 # 2));
    [exfalso; lra|reflexivity|exfalso; lra].
Qed.

Lemma round_half_even_err (q : Q) :
  Qabs (inject_Z (round_half_even q) - q) <= 1 # 2.
Proof.
  unfold round_half_even.
  pose proof (Qfloor_le q) as H1. pose proof (Qlt_floor q) as H2.
  rewrite inject_Z_plus in H2.
  apply Qabs_Qle_condition.
  destruct (Qcompare_spec (q - inject_Z (Qfloor q)) (1 # 2)) as [E|E|E];
    [destruct (Z.even (Qfloor q))|..];
    rewrite ?inject_Z_plus; change (inject_Z 1) with 1 in *; lra.
Qed.

Lemma round_half_even_mono (p q : Q) :
  p <= q -> (round_half_even p <= round_half_even q)%Z.
Proof.
  intros Hpq.
  pose proof (Qfloor_resp_le p q Hpq) as Hf.
  pose proof (Qfloor_le p) as Hp1. pose proof (Qlt_floor p) as Hp2.
  pose proof (Qfloor_le q) as Hq1. pose proof (Qlt_floor q) as Hq2.
  rewrite inject_Z_plus in Hp2, Hq2. change (inject_Z 1) with 1 in *.
  unfold round_half_even.
  destruct (Z.eq_dec (Qfloor p) (Qfloor q)) as [E|E].
  - rewrite <- E in *.
    destruct (Qcompare_spec (p - inject_Z (Qfloor p)) (1 # 2));
      destruct (Qcompare_spec (q - inject_Z (Qfloor p)) (1 # 2));
      try destruct (Z.even (Qfloor p)); try lia; exfalso; lra.
  - destruct (Qcompare (p - inject_Z (Qfloor p)) (1 # 2));
      destruct (Qcompare (q - inject_Z (Qfloor q)) (1 # 2));
      try destruct (Z.even (Qfloor p)); try destruct (Z.even (Qfloor q)); lia.
Qed.

(** *** Rounding a positive rational *)

Lemma fexp_mono (x y : Q) : 0 < x -> x <= y -> (fexp x <= fexp y)%Z.
Proof.
  intros Hx Hxy. unfold fexp.
  pose proof (Qlog2_mono x y Hx Hxy). lia.
Qed.

Lemma fexp_upper (x : Q) (k : Z) :
  0 < x -> x < pow2 (k + 1) -> (-1022 <= k)%Z -> (fexp x <= k - 52)%Z.
Proof.
  intros Hx Hk Hmin. unfold fexp.
  destruct (Qlog2_spec x Hx) as [H1 _].
  assert (Qlog2 x < k + 1)%Z
    by (apply pow2_lt_inv; eapply Qle_lt_trans; eassumption).
  lia.
Qed.

Lemma scale_pow2 (x : Q) (e : Z) : x / pow2 e * pow2 e == x.
Proof.
  field. intros H. pose proof (pow2_pos e) as Hp. rewrite H in Hp.
  discriminate Hp.
Qed.

(** A multiple of the last place that bounds [x] bounds its rounding. *)
Lemma round_pos_grid_le (x : Q) (m : Z) :
  x <= inject_Z m * pow2 (fexp x) ->
  round_pos x <= inject_Z m * pow2 (fexp x).
Proof.
  intros H. unfold round_pos.
  apply Qmult_le_compat_r; [|apply Qlt_le_weak, pow2_pos].
  rewrite <- Zle_Qle. rewrite <- (round_half_even_Z m).
  apply round_half_even_mono.
  apply Qle_shift_div_r; [apply pow2_pos|exact H].
Qed.

Lemma round_pos_grid_ge (x : Q) (m : Z) :
  inject_Z m * pow2 (fexp x) <= x ->
  inject_Z m * pow2 (fexp x) <= round_pos x.
Proof.
  intros H. unfold round_pos.
  apply Qmult_le_compat_r; [|apply Qlt_le_weak, pow2_pos].
  rewrite <- Zle_Qle. rewrite <- (round_half_even_Z m) at 1.
  apply round_half_even_mono.
  apply Qle_shift_div_l; [apply pow2_pos|exact H].
Qed.

Lemma round_pos_mono (x y : Q) :
  0 < x -> x <= y -> round_pos x <= round_pos y.
Proof.
  intros Hx Hxy.
  assert (Hy : 0 < y) by (eapply Qlt_le_trans; eassumption).
  pose proof (fexp_mono x y Hx Hxy) as He.
  destruct (Z.eq_dec (fexp x) (fexp y)) as [E|E].
  - unfold round_pos. rewrite E.
    apply Qmult_le_compat_r; [|apply Qlt_le_weak, pow2_pos].
    rewrite <- Zle_Qle. apply round_half_even_mono.
    apply Qmult_le_compat_r; [exact Hxy|].
    apply Qlt_le_weak, Qinv_lt_0_compat, pow2_pos.
  - apply Qle_trans with (pow2 (53 + fexp x)).
    + rewrite pow2_add, pow2_inject by lia.
      apply round_pos_grid_le.
      rewrite <- pow2_inject, <- pow2_add by lia.
      destruct (Qlog2_spec x Hx) as [_ H2].
      apply Qlt_le_weak. eapply Qlt_le_trans; [exact H2|].
      apply pow2_le. unfold fexp. lia.
    + apply Qle_trans with (pow2 (52 + fexp y)); [apply pow2_le; lia|].
      rewrite pow2_add, pow2_inject by lia.
      apply round_pos_grid_ge.
      rewrite <- pow2_inject, <- pow2_add by lia.
      destruct (Qlog2_spec y Hy) as [H1 _].
      eapply Qle_trans; [|exact H1].
      apply pow2_le. unfold fexp in *. lia.
Qed.

Lemma round_pos_exact (x : Q) (m : Z) :
  x == inject_Z m * pow2 (fexp x) -> round_pos x == x.
Proof.
  intros H. apply Qle_antisym.
  - rewrite H at 2. apply round_pos_grid_le. rewrite <- H. apply Qle_refl.
  - rewrite H at 1. apply round_pos_grid_ge. rewrite <- H. apply Qle_refl.
Qed.

Lemma round_pos_err (x : Q) :
  Qabs (round_pos x - x) <= pow2 (fexp x) * (1 # 2).
Proof.
  unfold round_pos.
  set (e := fexp x). set (q := x / pow2 e).
  assert (Hx : x == q * pow2 e) by (unfold q; rewrite scale_pow2; reflexivity).
  rewrite Hx at 1.
  setoid_replace (inject_Z (round_half_even q) * pow2 e - q * pow2 e)
    with ((inject_Z (round_half_even q) - q) * pow2 e) by ring.
  rewrite Qabs_Qmult.
  rewrite (Qabs_pos (pow2 e)) by (apply Qlt_le_weak, pow2_pos).
  rewrite (Qmult_comm (pow2 e)).
  apply Qmult_le_compat_r; [apply round_half_even_err|].
  apply Qlt_le_weak, pow2_pos.
Qed.

Lemma round_pos_nonneg (x : Q) : 0 < x -> 0 <= round_pos x.
Proof.
  intros Hx.
  setoid_replace 0 with (inject_Z 0 * pow2 (fexp x)) by ring.
  apply round_pos_grid_ge. ring_simplify. apply Qlt_le_weak, Hx.
Qed.

(** *** Rounding *)

Lemma round_pos_eq (x : Q) : 0 < x -> round x == round_pos x.
Proof.
  intros Hx. unfold round. rewrite Qred_correct.
  destruct (Qcompare_spec x 0); [exfalso; lra|exfalso; lra|reflexivity].
Qed.

Lemma round_neg_eq (x : Q) : x < 0 -> round x == - round_pos (- x).
Proof.
  intros Hx. unfold round. rewrite Qred_correct.
  destruct (Qcompare_spec x 0); [exfalso; lra|reflexivity|exfalso; lra].
Qed.

Lemma round_zero (x : Q) : x == 0 -> round x == 0.
Proof.
  intros Hx. unfold round. rewrite Qred_correct.
  destruct (Qcompare_spec x 0); [reflexivity|exfalso; lra|exfalso; lra].
Qed.

Lemma round_nonneg (x : Q) : 0 <= x -> 0 <= round x.
Proof.
  intros Hx. destruct (Qlt_le_dec 0 x) as [H|H].
  - rewrite round_pos_eq by exact H. apply round_pos_nonneg, H.
  - rewrite round_zero; [apply Qle_refl|]. apply Qle_antisym; assumption.
Qed.

Lemma round_nonpos (x : Q) : x <= 0 -> round x <= 0.
Proof.
  intros Hx. destruct (Qlt_le_dec x 0) as [H|H].
  - rewrite round_neg_eq by exact H.
    assert (0 <= round_pos (- x)) by (apply round_pos_nonneg; lra). lra.
  - rewrite round_zero; [apply Qle_refl|]. apply Qle_antisym; assumption.
Qed.

Lemma round_pos_comp (x y : Q) : 0 < x -> x == y -> round_pos x == round_pos y.
Proof.
  intros Hx H. apply Qle_antisym; apply round_pos_mono; rewrite ?H; try lra.
Qed.

Lemma round_mono (x y : Q) : x <= y -> round x <= round y.
Proof.
  intros Hxy.
  destruct (Qlt_le_dec 0 x) as [Hx|Hx].
  - rewrite (round_pos_eq x), (round_pos_eq y) by lra.
    apply round_pos_mono; assumption.
  - destruct (Qlt_le_dec y 0) as [Hy|Hy].
    + rewrite (round_neg_eq x), (round_neg_eq y) by lra.
      apply Qopp_le_compat. apply round_pos_mono; lra.
    + apply Qle_trans with 0; [apply round_nonpos|apply round_nonneg];
        assumption.
Qed.

#[export] Instance round_comp : Proper (Qeq ==> Qeq) round.
Proof.
  intros x y H. apply Qle_antisym; apply round_mono; rewrite H; apply Qle_refl.
Qed.

(** Integers below [2^53] are representable. *)
Lemma round_int (z : Z) :
  (0 <= z < 2 ^ 53)%Z -> round (inject_Z z) == inject_Z z.
Proof.
  intros [H0 H53].
  destruct (Z.eq_dec z 0) as [->|Hz]; [apply round_zero; reflexivity|].
  assert (Hx : 0 < inject_Z z) by (rewrite <- (Zlt_Qlt 0); lia).
  rewrite round_pos_eq by exact Hx.
  assert (He : (fexp (inject_Z z) <= 0)%Z).
  { replace 0%Z with (52 - 52)%Z by reflexivity.
    apply fexp_upper; [exact Hx| |lia].
    rewrite pow2_inject by lia. rewrite <- Zlt_Qlt. exact H53. }
  apply round_pos_exact with (m := (z * 2 ^ (- fexp (inject_Z z)))%Z).
  rewrite inject_Z_mult, <- pow2_inject by lia.
  rewrite <- Qmult_assoc, <- pow2_add.
  replace (- fexp (inject_Z z) + fexp (inject_Z z))%Z with 0%Z by ring.
  change (pow2 0) with 1. ring.
Qed.

(** The rounding error below [2^(k+1)] is at most half a unit in the last
    place of that binade. *)
Lemma round_err (x : Q) (k : Z) :
  0 < x -> x < pow2 (k + 1) -> (-1022 <= k)%Z ->
  Qabs (round x - x) <= pow2 (k - 53).
Proof.
  intros Hx Hk Hmin.
  rewrite round_pos_eq by exact Hx.
  eapply Qle_trans; [apply round_pos_err|].
  pose proof (fexp_upper x k Hx Hk Hmin) as He.
  apply Qle_trans with (pow2 (k - 52) * (1 # 2)).
  - apply Qmult_le_compat_r; [apply pow2_le; exact He|discriminate].
  - replace (k - 52)%Z with (k - 53 + 1)%Z by ring.
    rewrite pow2_succ. apply Qle_lteq. right. field.
Qed.

End Binary64Facts.

(** ** The array of [numpy.linspace] *)

Module NumpyFacts.

Import Binary64 Binary64Facts Numpy.

(** *** The shape of the array *)

Lemma arange_length (num : Z) : length (arange num) = Z.to_nat num.
Proof. unfold arange. rewrite length_map, length_seq. reflexivity. Qed.

Lemma arange_nth (num : Z) (i : nat) :
  (i < Z.to_nat num)%nat -> nth_error (arange num) i = Some (Z.of_nat i).
Proof.
  intros H. unfold arange.
  rewrite nth_error_map, nth_error_seq.
  destruct (Nat.ltb_spec i (Z.to_nat num)); [reflexivity|lia].
Qed.

Lemma arange_snoc (num : Z) :
  (1 <= num)%Z -> arange num = arange (num - 1) ++ [(num - 1)%Z].
Proof.
  intros H. unfold arange.
  replace (Z.to_nat num) with (S (Z.to_nat (num - 1))) by lia.
  rewrite seq_S, map_app. simpl. repeat f_equal. lia.
Qed.

Lemma set_last_snoc (l : list Q) (b v : Q) :
  set_last (l ++ [b]) v = l ++ [v].
Proof.
  unfold set_last. destruct (l ++ [b]) eqn:E.
  - destruct l; discriminate.
  - rewrite <- E, removelast_last. reflexivity.
Qed.

(** For at least two points and a step that is not zero, the array is
    [i * step + start] for [i < num - 1], followed by [stop]. *)
Lemma linspace_float_entries (start stop num : Z) :
  (2 <= num)%Z ->
  ~ linspace_step start stop num == 0 ->
  linspace_float start stop num =
  Ok (map (fun i => fadd (fmul (of_int i) (linspace_step start stop num))
                         (of_int start))
          (arange (num - 1))
      ++ [of_int stop]).
Proof.
  intros Hnum Hstep. unfold linspace_float.
  fold (linspace_step start stop num).
  destruct (Z.ltb_spec num 0); [lia|].
  destruct (Z.ltb_spec 0 (num - 1)); [|lia].
  destruct (Z.ltb_spec 1 num); [|lia].
  destruct (Qeq_bool (linspace_step start stop num) 0) eqn:E.
  { apply Qeq_bool_iff in E. contradiction. }
  rewrite (arange_snoc num) by lia.
  rewrite !map_app. cbn [map]. rewrite set_last_snoc.
  rewrite !map_map. reflexivity.
Qed.

(** *** The sizes of [measure_times]

    [max_n] and [num_steps] are what [analyze] passes on: at most 20000
    and 30, at least 100 and 4. *)

Section Sampler.

Variables max_n steps : Z.
Hypothesis Hmax : (100 <= max_n <= 20000)%Z.
Hypothesis Hsteps : (4 <= steps <= 30)%Z.

Local Open Scope Q_scope.

Let D : Q := inject_Z (max_n - 10).
Let d : Q := inject_Z (steps - 1).
Let step : Q := linspace_step 10 max_n steps.

(** The bound on one rounding error below [2^15]. *)
Let eta : Q := pow2 (-39).

Lemma sampler_D_bounds : 90 <= D /\ D <= 19990.
Proof.
  unfold D. split.
  - change 90 with (inject_Z 90). rewrite <- Zle_Qle. lia.
  - change 19990 with (inject_Z 19990). rewrite <- Zle_Qle. lia.
Qed.

Lemma sampler_d_bounds : 3 <= d /\ d <= 29.
Proof.
  unfold d. split.
  - change 3 with (inject_Z 3). rewrite <- Zle_Qle. lia.
  - change 29 with (inject_Z 29). rewrite <- Zle_Qle. lia.
Qed.

Lemma sampler_quotient_bounds : 1 <= D / d /\ D / d < pow2 13.
Proof.
  destruct sampler_D_bounds, sampler_d_bounds.
  split.
  - apply Qle_shift_div_l; lra.
  - apply Qlt_shift_div_r; [lra|]. change (pow2 13) with 8192. lra.
Qed.

Lemma of_int_small (z : Z) :
  (0 <= z <= 20000)%Z -> of_int z == inject_Z z.
Proof. intros H. apply round_int. lia. Qed.

Lemma sampler_step_eq : step == round (D / d).
Proof.
  unfold step, linspace_step, fdiv, fsub.
  rewrite (of_int_small max_n), (of_int_small 10), (of_int_small (steps - 1))
    by lia.
  setoid_replace (inject_Z max_n - inject_Z 10) with (inject_Z (max_n - 10))
    by (unfold Z.sub; rewrite inject_Z_plus, inject_Z_opp; reflexivity).
  rewrite round_int by lia. reflexivity.
Qed.

Lemma sampler_step_err : Qabs (step - D / d) <= eta.
Proof.
  destruct sampler_quotient_bounds as [H1 H2].
  rewrite sampler_step_eq.
  apply (round_err (D / d) 14); [lra| |lia].
  eapply Qlt_trans; [exact H2|]. apply pow2_lt. lia.
Qed.

Lemma sampler_step_ge_1 : 1 <= step.
Proof.
  destruct sampler_quotient_bounds as [H1 _].
  rewrite sampler_step_eq.
  rewrite <- (round_int 1) by lia.
  apply round_mono. exact H1.
Qed.

Lemma sampler_step_nonzero : ~ step == 0.
Proof. pose proof sampler_step_ge_1. intros E. rewrite E in H. lra. Qed.

Lemma sampler_eta : eta == 1 # 549755813888.
Proof. reflexivity. Qed.

Lemma sampler_index_bounds (i : Z) :
  (0 <= i <= steps - 2)%Z -> 0 <= inject_Z i /\ inject_Z i <= d - 1.
Proof.
  intros Hi. unfold d. split.
  - change 0 with (inject_Z 0). rewrite <- Zle_Qle. lia.
  - change 1 with (inject_Z 1).
    setoid_replace (inject_Z (steps - 1) - inject_Z 1)
      with (inject_Z (steps - 2))
      by (unfold Z.sub; rewrite !inject_Z_plus, !inject_Z_opp; simpl; ring).
    rewrite <- Zle_Qle. lia.
Qed.

Lemma sampler_entry_eq (i : Z) :
  (0 <= i <= steps - 2)%Z ->
  sampler_entry max_n steps i == round (round (inject_Z i * step) + 10).
Proof.
  intros Hi. unfold sampler_entry, fadd, fmul. fold step.
  rewrite (of_int_small i), (of_int_small 10) by lia. reflexivity.
Qed.

Lemma sampler_entry_0 : sampler_entry max_n steps 0 == 10.
Proof.
  rewrite sampler_entry_eq by lia.
  rewrite (round_zero (inject_Z 0 * step)) by ring.
  vm_compute. reflexivity.
Qed.

Lemma sampler_entry_mono (i j : Z) :
  (0 <= i <= j)%Z -> (j <= steps - 2)%Z ->
  sampler_entry max_n steps i <= sampler_entry max_n steps j.
Proof.
  intros Hij Hj. rewrite !sampler_entry_eq by lia.
  apply round_mono. apply Qplus_le_compat; [|apply Qle_refl].
  apply round_mono. apply Qmult_le_compat_r.
  - rewrite <- Zle_Qle. lia.
  - pose proof sampler_step_ge_1. lra.
Qed.

(** The product [i * step] stays near the exact [i * D / d]. *)
Lemma sampler_product_bounds (i : Z) :
  (0 <= i <= steps - 2)%Z ->
  Qabs (inject_Z i * step - inject_Z i * (D / d)) <= 28 * eta /\
  inject_Z i * (D / d) <= D - D / d.
Proof.
  intros Hi.
  destruct (sampler_index_bounds i Hi) as [Hi0 Hi1].
  destruct sampler_d_bounds as [Hd0 Hd1].
  destruct sampler_quotient_bounds as [Hx0 _].
  pose proof sampler_step_err as He.
  apply Qabs_Qle_condition in He.
  pose proof sampler_eta as Heta.
  assert (Hdx : d * (D / d) == D) by (field; lra).
  set (x := D / d) in *. set (I := inject_Z i) in *.
  split.
  - apply Qabs_Qle_condition. split; nra.
  - nra.
Qed.

Lemma sampler_entry_le_stop (i : Z) :
  (0 <= i <= steps - 2)%Z ->
  sampler_entry max_n steps i <= inject_Z max_n.
Proof.
  intros Hi. rewrite sampler_entry_eq by lia.
  rewrite <- (round_int max_n) by lia.
  apply round_mono.
  setoid_replace (inject_Z max_n) with (D + 10)
    by (unfold D, Z.sub; rewrite inject_Z_plus, inject_Z_opp; simpl; ring).
  apply Qplus_le_compat; [|apply Qle_refl].
  unfold D at 1. rewrite <- (round_int (max_n - 10)) by lia. fold D.
  apply round_mono.
  destruct (sampler_product_bounds i Hi) as [H1 H2].
  apply Qabs_Qle_condition in H1.
  destruct sampler_quotient_bounds as [Hx0 _].
  pose proof sampler_eta as Heta.
  lra.
Qed.

(** Each entry is within [30 * 2^-39] of the exact interpolation. *)
Lemma sampler_entry_err (i : Z) :
  (1 <= i <= steps - 2)%Z ->
  Qabs (sampler_entry max_n steps i - (10 + inject_Z i * (D / d)))
  <= 30 * eta.
Proof.
  intros Hi. rewrite sampler_entry_eq by lia.
  destruct (sampler_product_bounds i ltac:(lia)) as [H1 H2].
  apply Qabs_Qle_condition in H1.
  destruct sampler_D_bounds as [HD0 HD1].
  destruct sampler_quotient_bounds as [Hx0 _].
  pose proof sampler_step_ge_1 as Hs1.
  pose proof sampler_eta as Heta.
  assert (HI : 1 <= inject_Z i)
    by (change 1 with (inject_Z 1); rewrite <- Zle_Qle; lia).
  set (x := D / d) in *. set (I := inject_Z i) in *.
  assert (Ha0 : 0 < I * step) by nra.
  assert (Ha1 : I * step < pow2 (14 + 1))
    by (change (pow2 (14 + 1)) with 32768; lra).
  pose proof (round_err (I * step) 14 Ha0 Ha1 ltac:(lia)) as Hp.
  change (pow2 (14 - 53)) with eta in Hp.
  apply Qabs_Qle_condition in Hp.
  set (p := round (I * step)) in *.
  assert (Hs0 : 0 < p + 10) by lra.
  assert (Hs2 : p + 10 < pow2 (14 + 1))
    by (change (pow2 (14 + 1)) with 32768; lra).
  pose proof (round_err (p + 10) 14 Hs0 Hs2 ltac:(lia)) as Hy.
  change (pow2 (14 - 53)) with eta in Hy.
  apply Qabs_Qle_condition in Hy.
  apply Qabs_Qle_condition. lra.
Qed.

(** *** The sizes as integers *)

Lemma sampler_sizes_eq :
  input_sizes max_n steps =
  Ok (map (fun i => Qfloor (sampler_entry max_n steps i)) (arange (steps - 1))
      ++ [max_n]).
Proof.
  unfold input_sizes, linspace_int.
  rewrite linspace_float_entries; [|lia|apply sampler_step_nonzero].
  rewrite map_app, map_map. cbn [map].
  rewrite (Qfloor_comp _ _ (of_int_small max_n ltac:(lia))), Qfloor_Z.
  reflexivity.
Qed.

Lemma sampler_size_0 : Qfloor (sampler_entry max_n steps 0) = 10%Z.
Proof. rewrite (Qfloor_comp _ _ sampler_entry_0). reflexivity. Qed.

Lemma sampler_size_mono (i j : Z) :
  (0 <= i <= j)%Z -> (j <= steps - 2)%Z ->
  (Qfloor (sampler_entry max_n steps i)
   <= Qfloor (sampler_entry max_n steps j))%Z.
Proof.
  intros Hij Hj. apply Qfloor_resp_le, sampler_entry_mono; assumption.
Qed.

Lemma sampler_size_le_stop (i : Z) :
  (0 <= i <= steps - 2)%Z ->
  (Qfloor (sampler_entry max_n steps i) <= max_n)%Z.
Proof.
  intros Hi.
  apply Z.le_trans with (Qfloor (inject_Z max_n)).
  - apply Qfloor_resp_le, sampler_entry_le_stop, Hi.
  - rewrite Qfloor_Z. lia.
Qed.

(** An entry rounds down to the floor of the exact interpolation, or to
    one less where the exact interpolation is an integer. *)
Lemma sampler_size_interp (i : Z) :
  (0 <= i <= steps - 2)%Z ->
  let exact := (10 + i * (max_n - 10) / (steps - 1))%Z in
  let v := Qfloor (sampler_entry max_n steps i) in
  v = exact \/
  (v = (exact - 1)%Z /\ ((i * (max_n - 10)) mod (steps - 1) = 0)%Z).
Proof.
  intros Hi exact v.
  destruct (Z.eq_dec i 0) as [->|Hi0].
  { left. subst v exact. rewrite sampler_size_0. reflexivity. }
  pose proof (sampler_entry_err i ltac:(lia)) as Herr.
  apply Qabs_Qle_condition in Herr.
  pose proof sampler_eta as Heta.
  destruct sampler_d_bounds as [Hd0 Hd1].
  set (n := (i * (max_n - 10))%Z) in *.
  set (dz := (steps - 1)%Z) in *.
  pose proof (Z.div_mod n dz ltac:(lia)) as Hdm.
  pose proof (Z.mod_pos_bound n dz ltac:(lia)) as Hr.
  set (q := (n / dz)%Z) in *. set (r := (n mod dz)%Z) in *.
  assert (Hx : inject_Z i * (D / d) == inject_Z q + inject_Z r / d).
  { unfold D. fold d.
    setoid_replace (inject_Z i * (inject_Z (max_n - 10) / d))
      with (inject_Z n / d)
      by (unfold n; rewrite inject_Z_mult; field; lra).
    rewrite Hdm, inject_Z_plus, inject_Z_mult. fold d. field. lra. }
  rewrite Hx in Herr. clear Hx.
  assert (HR : 0 <= inject_Z r / d /\ inject_Z r / d <= 1 - (1 # 29)).
  { assert (0 <= inject_Z r)
      by (change 0 with (inject_Z 0); rewrite <- Zle_Qle; lia).
    assert (inject_Z r <= d - 1).
    { unfold d. change 1 with (inject_Z 1).
      setoid_replace (inject_Z dz - inject_Z 1) with (inject_Z (dz - 1))
        by (unfold Z.sub; rewrite !inject_Z_plus, !inject_Z_opp; simpl; ring).
      rewrite <- Zle_Qle. lia. }
    split.
    - apply Qle_shift_div_l; lra.
    - apply Qle_shift_div_r; [lra|]. nra. }
  set (R := inject_Z r / d) in *.
  set (y := sampler_entry max_n steps i) in *.
  pose proof (Qfloor_le y) as Hf1. pose proof (Qlt_floor y) as Hf2.
  fold v in Hf1, Hf2.
  assert (Hup : (v < 10 + q + 1)%Z).
  { rewrite Zlt_Qlt, !inject_Z_plus.
    change (inject_Z 10) with 10. change (inject_Z 1) with 1. lra. }
  assert (Hlow : (10 + q - 1 < v + 1)%Z).
  { rewrite Zlt_Qlt. rewrite inject_Z_plus in Hf2.
    unfold Z.sub. rewrite !inject_Z_plus, inject_Z_opp.
    change (inject_Z 10) with 10. change (inject_Z 1) with 1 in *. lra. }
  destruct (Z.eq_dec r 0) as [Hr0|Hr0].
  - subst exact. fold n dz q. lia.
  - left. subst exact. fold n dz q.
    assert (HR1 : (1 # 29) <= R).
    { unfold R. apply Qle_shift_div_l; [lra|].
      assert (1 <= inject_Z r)
        by (change 1 with (inject_Z 1); rewrite <- Zle_Qle; lia).
      nra. }
    assert (Hge : (10 + q <= v)%Z).
    { apply Z.le_trans with (Qfloor (inject_Z (10 + q))).
      - rewrite Qfloor_Z. lia.
      - apply Qfloor_resp_le. rewrite inject_Z_plus.
        change (inject_Z 10) with 10. lra. }
    lia.
Qed.

End Sampler.

(** *** The list of sizes *)

Lemma StronglySorted_of_nth (l : list Z) :
  (forall (i j : nat) (x y : Z),
      (i <= j)%nat ->
      nth_error l i = Some x -> nth_error l j = Some y -> (x <= y)%Z) ->
  StronglySorted Z.le l.
Proof.
  induction l as [|a l IH]; intros H; constructor.
  - apply IH. intros i j x y Hij Hi Hj.
    apply (H (S i) (S j) x y); [lia|exact Hi|exact Hj].
  - apply Forall_forall. intros y Hy.
    destruct (In_nth_error _ _ Hy) as [j Hj].
    apply (H O (S j) a y); [lia|reflexivity|exact Hj].
Qed.

(** The entries of the list that [measure_times] iterates over. *)
Lemma sampler_sizes_spec (max_n steps : Z) :
  (100 <= max_n <= 20000)%Z -> (4 <= steps <= 30)%Z ->
  exists sizes,
    input_sizes max_n steps = Ok sizes /\
    length sizes = Z.to_nat steps /\
    (forall i, (0 <= i < steps - 1)%Z ->
       nth_error sizes (Z.to_nat i)
       = Some (Qfloor (sampler_entry max_n steps i))) /\
    nth_error sizes (Z.to_nat (steps - 1)) = Some max_n.
Proof.
  intros Hmax Hsteps.
  eexists. split; [apply sampler_sizes_eq; assumption|].
  set (f := fun i => Qfloor (sampler_entry max_n steps i)).
  assert (Hlen : length (map f (arange (steps - 1))) = Z.to_nat (steps - 1))
    by (rewrite length_map; apply arange_length).
  split; [|split].
  - rewrite length_app, Hlen. simpl. lia.
  - intros i Hi.
    rewrite nth_error_app1 by lia.
    rewrite nth_error_map, arange_nth by lia.
    simpl. rewrite Z2Nat.id by lia. reflexivity.
  - rewrite nth_error_app2 by lia.
    rewrite Hlen, Nat.sub_diag. reflexivity.
Qed.

(** Any entry of the list, by its index. *)
Lemma sampler_sizes_nth (max_n steps : Z) (sizes : list Z) (i : nat) (x : Z) :
  (100 <= max_n <= 20000)%Z -> (4 <= steps <= 30)%Z ->
  input_sizes max_n steps = Ok sizes ->
  nth_error sizes i = Some x ->
  (Z.of_nat i < steps)%Z /\
  ((Z.of_nat i < steps - 1)%Z /\
     x = Qfloor (sampler_entry max_n steps (Z.of_nat i)) \/
   Z.of_nat i = (steps - 1)%Z /\ x = max_n).
Proof.
  intros Hmax Hsteps Hs Hx.
  destruct (sampler_sizes_spec max_n steps Hmax Hsteps)
    as [sizes' [Hs' [Hlen [Hnth Hlast]]]].
  rewrite Hs in Hs'. inversion Hs'; subst sizes'. clear Hs'.
  assert (Hi : (i < length sizes)%nat)
    by (apply nth_error_Some; congruence).
  split; [lia|].
  destruct (Z.eq_dec (Z.of_nat i) (steps - 1)) as [E|E].
  - right. split; [exact E|].
    rewrite <- E, Nat2Z.id in Hlast. congruence.
  - left. split; [lia|].
    specialize (Hnth (Z.of_nat i) ltac:(lia)).
    rewrite Nat2Z.id in Hnth. congruence.
Qed.

Lemma sampler_sizes_sorted (max_n steps : Z) (sizes : list Z) :
  (100 <= max_n <= 20000)%Z -> (4 <= steps <= 30)%Z ->
  input_sizes max_n steps = Ok sizes ->
  StronglySorted Z.le sizes.
Proof.
  intros Hmax Hsteps Hs.
  apply StronglySorted_of_nth. intros i j x y Hij Hx Hy.
  destruct (sampler_sizes_nth max_n steps sizes i x Hmax Hsteps Hs Hx)
    as [Hi [[Hi' ->]|[Hi' ->]]];
  destruct (sampler_sizes_nth max_n steps sizes j y Hmax Hsteps Hs Hy)
    as [Hj [[Hj' ->]|[Hj' ->]]].
  - apply sampler_size_mono; lia.
  - apply sampler_size_le_stop; lia.
  - lia.
  - lia.
Qed.

Lemma sampler_sizes_ge_10 (max_n steps : Z) (sizes : list Z) :
  (100 <= max_n <= 20000)%Z -> (4 <= steps <= 30)%Z ->
  input_sizes max_n steps = Ok sizes ->
  Forall (fun n => 10 <= n)%Z sizes.
Proof.
  intros Hmax Hsteps Hs.
  apply Forall_forall. intros x Hx.
  destruct (In_nth_error _ _ Hx) as [i Hi].
  destruct (sampler_sizes_nth max_n steps sizes i x Hmax Hsteps Hs Hi)
    as [_ [[Hi' ->]|[_ ->]]]; [|lia].
  rewrite <- (sampler_size_0 max_n steps Hsteps).
  apply sampler_size_mono; lia.
Qed.

End NumpyFacts.

(** ** The loop of [binary_search_work] *)

Module BinarySearchFacts.

Import BinarySearch.

Lemma midpoint_between (left right : Z) :
  left <= right -> left <= midpoint left right <= right.
Proof.
  intros H. unfold midpoint.
  assert (0 <= (right - left) / 2) by (apply Z.div_pos; lia).
  assert ((right - left) / 2 <= right - left)
    by (apply Z.div_le_upper_bound; lia).
  lia.
Qed.

Lemma loop_body_continue (arr : list Z) (target left right l' r' : Z) :
  loop_body arr target left right = Continue l' r' ->
  (l' = midpoint left right + 1 /\ r' = right) \/
  (l' = left /\ r' = midpoint left right - 1).
Proof.
  unfold loop_body.
  destruct (py_index arr (midpoint left right)) as [x|e]; [|discriminate].
  destruct (x =? target); [discriminate|].
  destruct (x <? target); intros H; inversion H; auto.
Qed.

Lemma loop_body_decreases (arr : list Z) (target left right l' r' : Z) :
  left <= right ->
  loop_body arr target left right = Continue l' r' ->
  -1 <= r' - l' < right - left.
Proof.
  intros Hle Hb.
  pose proof (midpoint_between _ _ Hle).
  destruct (loop_body_continue _ _ _ _ _ _ Hb) as [[-> ->]|[-> ->]]; lia.
Qed.

(** *** Indexing *)

Lemma py_index_in_bounds {A : Type} (arr : list A) (i : Z) :
  0 <= i < len arr ->
  exists x, py_index arr i = Ok x /\ nth_error arr (Z.to_nat i) = Some x.
Proof.
  intros Hi. unfold py_index.
  destruct (Z.ltb_spec i 0); [lia|].
  destruct (Z.leb_spec 0 i); [|lia].
  destruct (Z.ltb_spec i (len arr)); [|lia].
  simpl.
  destruct (nth_error arr (Z.to_nat i)) as [x|] eqn:E; [eauto|].
  apply nth_error_None in E. unfold len in *. lia.
Qed.

Lemma py_index_last {A : Type} (arr : list A) (d : A) :
  arr <> [] -> py_index arr (-1) = Ok (last arr d).
Proof.
  intros Hne.
  destruct (exists_last Hne) as [l [x ->]].
  rewrite last_last. unfold py_index, len.
  rewrite length_app. simpl length.
  replace (-1 <? 0) with true by reflexivity.
  destruct (Z.leb_spec 0 (-1 + Z.of_nat (length l + 1))); [|lia].
  destruct (Z.ltb_spec (-1 + Z.of_nat (length l + 1))
              (Z.of_nat (length l + 1))); [|lia].
  cbn [andb].
  replace (Z.to_nat (-1 + Z.of_nat (length l + 1))) with (length l) by lia.
  rewrite nth_error_app2 by lia.
  rewrite Nat.sub_diag. reflexivity.
Qed.

Lemma py_index_nth {A : Type} (arr : list A) (j : Z) (x : A) :
  0 <= j < len arr ->
  nth_error arr (Z.to_nat j) = Some x ->
  py_index arr j = Ok x /\ py_index arr (j - len arr) = Ok x.
Proof.
  intros Hj Hx. unfold py_index.
  destruct (Z.ltb_spec j 0); [lia|].
  destruct (Z.ltb_spec (j - len arr) 0); [|lia].
  replace (j - len arr + len arr) with j by ring.
  destruct (Z.leb_spec 0 j); [|lia].
  destruct (Z.ltb_spec j (len arr)); [|lia].
  cbn [andb]. rewrite Hx. split; reflexivity.
Qed.

(** *** The loop never indexes outside the list *)

Lemma reachable_bounds (arr : list Z) (target left right : Z) :
  reachable arr target left right -> 0 <= left /\ right <= len arr - 1.
Proof.
  induction 1 as [|left right l' r' _ IH Hle Hb]; [lia|].
  pose proof (midpoint_between _ _ Hle).
  destruct (loop_body_continue _ _ _ _ _ _ Hb) as [[-> ->]|[-> ->]]; lia.
Qed.

Lemma while_loop_eq (arr : list Z) (target left right : Z) :
  while_loop arr target left right =
  if left <=? right then
    match loop_body arr target left right with
    | Continue l' r' => while_loop arr target l' r'
    | Return index => Ok index
    | Raised e => Raise e
    end
  else Ok (-1).
Proof.
  funelim (while_loop arr target left right);
    repeat match goal with
      | E : (_ <=? _) = _ |- context [_ <=? _] => rewrite E
      | E : loop_body _ _ _ _ = _ |- context [loop_body _ _ _ _] => rewrite E
      end; reflexivity.
Qed.

(** Induction on the width of the interval, the measure of the loop. *)
Lemma width_ind (P : Z -> Z -> Prop) :
  (forall left right,
      (forall l' r', -1 <= r' - l' < right - left -> P l' r') -> P left right) ->
  forall left right, P left right.
Proof.
  intros IH left right.
  remember (Z.to_nat (right - left + 1)) as w eqn:Hw.
  revert left right Hw.
  induction w as [w IHw] using lt_wf_ind.
  intros left right ->. apply IH.
  intros l' r' Hd. apply (IHw (Z.to_nat (r' - l' + 1))); [lia|reflexivity].
Qed.

(** Inside the bounds the body reads [arr[mid]] and branches on it. *)
Lemma loop_body_in_bounds (arr : list Z) (target left right : Z) :
  0 <= left -> left <= right -> right <= len arr - 1 ->
  exists x,
    nth_error arr (Z.to_nat (midpoint left right)) = Some x /\
    loop_body arr target left right =
      if x =? target then Return (midpoint left right)
      else if x <? target then Continue (midpoint left right + 1) right
      else Continue left (midpoint left right - 1).
Proof.
  intros Hl Hle Hr.
  pose proof (midpoint_between _ _ Hle) as Hm.
  destruct (@py_index_in_bounds Z arr (midpoint left right)) as [x [Hx Hn]];
    [lia|].
  exists x. split; [exact Hn|].
  unfold loop_body. rewrite Hx. reflexivity.
Qed.

Lemma while_loop_total (arr : list Z) (target left right : Z) :
  0 <= left -> right <= len arr - 1 ->
  exists i, while_loop arr target left right = Ok i.
Proof.
  revert left right.
  apply (width_ind (fun left right =>
    0 <= left -> right <= len arr - 1 ->
    exists i, while_loop arr target left right = Ok i)).
  intros left right IH Hl Hr.
  rewrite while_loop_eq.
  destruct (Z.leb_spec left right) as [Hle|Hgt]; [|eauto].
  pose proof (midpoint_between _ _ Hle) as Hm.
  destruct (loop_body_in_bounds arr target _ _ Hl Hle Hr) as [x [_ ->]].
  destruct (x =? target); [eauto|].
  destruct (x <? target); apply IH; lia.
Qed.

(** *** What the loop returns *)

Lemma while_loop_sound (arr : list Z) (target left right i : Z) :
  0 <= left -> right <= len arr - 1 ->
  while_loop arr target left right = Ok i ->
  i = -1 \/
  (left <= i <= right /\ nth_error arr (Z.to_nat i) = Some target).
Proof.
  revert left right.
  apply (width_ind (fun left right =>
    0 <= left -> right <= len arr - 1 ->
    while_loop arr target left right = Ok i ->
    i = -1 \/
    (left <= i <= right /\ nth_error arr (Z.to_nat i) = Some target))).
  intros left right IH Hl Hr.
  rewrite while_loop_eq.
  destruct (Z.leb_spec left right) as [Hle|Hgt].
  2:{ intros H; inversion H; auto. }
  pose proof (midpoint_between _ _ Hle) as Hm.
  destruct (loop_body_in_bounds arr target _ _ Hl Hle Hr) as [x [Hx ->]].
  destruct (Z.eqb_spec x target) as [->|Hne].
  { intros H; inversion H; subst i. right. split; [lia|exact Hx]. }
  destruct (x <? target); intros H; apply IH in H; try lia;
    (destruct H as [H|[H1 H2]]; [left; exact H|right; split; [lia|exact H2]]).
Qed.

Lemma StronglySorted_nth (arr : list Z) :
  StronglySorted Z.le arr ->
  forall (i j : nat) (x y : Z),
    (i <= j)%nat ->
    nth_error arr i = Some x -> nth_error arr j = Some y -> x <= y.
Proof.
  induction 1 as [|a l Hs IH Ha]; intros i j x y Hij Hi Hj.
  - destruct i; discriminate.
  - destruct i as [|i]; destruct j as [|j]; simpl in Hi, Hj.
    + inversion Hi; inversion Hj; lia.
    + inversion Hi; subst a.
      rewrite Forall_forall in Ha. apply Ha.
      eapply nth_error_In; eauto.
    + lia.
    + eapply IH; [|eauto|eauto]. lia.
Qed.

Lemma while_loop_complete (arr : list Z) (target : Z) :
  StronglySorted Z.le arr ->
  forall left right,
    0 <= left -> right <= len arr - 1 ->
    (forall j x, 0 <= j < left ->
                 nth_error arr (Z.to_nat j) = Some x -> x < target) ->
    (forall j x, right < j ->
                 nth_error arr (Z.to_nat j) = Some x -> target < x) ->
    while_loop arr target left right = Ok (-1) ->
    ~ In target arr.
Proof.
  intros Hs.
  apply (width_ind (fun left right =>
    0 <= left -> right <= len arr - 1 ->
    (forall j x, 0 <= j < left ->
                 nth_error arr (Z.to_nat j) = Some x -> x < target) ->
    (forall j x, right < j ->
                 nth_error arr (Z.to_nat j) = Some x -> target < x) ->
    while_loop arr target left right = Ok (-1) ->
    ~ In target arr)).
  intros left right IH Hl Hr Hlow Hhigh.
  rewrite while_loop_eq.
  destruct (Z.leb_spec left right) as [Hle|Hgt].
  2:{ intros _ Hin.
      destruct (In_nth_error _ _ Hin) as [n Hn].
      destruct (Z_lt_le_dec (Z.of_nat n) left) as [Hlt|Hge].
      - specialize (Hlow (Z.of_nat n) target).
        rewrite Nat2Z.id in Hlow. specialize (Hlow ltac:(lia) Hn). lia.
      - specialize (Hhigh (Z.of_nat n) target).
        rewrite Nat2Z.id in Hhigh. specialize (Hhigh ltac:(lia) Hn). lia. }
  pose proof (midpoint_between _ _ Hle) as Hm.
  destruct (loop_body_in_bounds arr target _ _ Hl Hle Hr) as [x [Hx ->]].
  destruct (Z.eqb_spec x target) as [->|Hne].
  { intros H; inversion H; lia. }
  destruct (Z.ltb_spec x target) as [Hlt|Hge]; apply IH; try lia.
  - intros j y Hj Hy.
    assert (y <= x); [|lia].
    eapply (StronglySorted_nth _ Hs); [|exact Hy|exact Hx]. lia.
  - exact Hhigh.
  - exact Hlow.
  - intros j y Hj Hy.
    assert (x <= y); [|lia].
    eapply (StronglySorted_nth _ Hs); [|exact Hx|exact Hy]. lia.
Qed.

(** *** [sorted] sorts *)

Lemma insert_sorted_perm (x : Z) (l : list Z) :
  Permutation (x :: l) (insert_sorted x l).
Proof.
  induction l as [|y l IH]; simpl; [reflexivity|].
  destruct (x <=? y); [reflexivity|].
  rewrite perm_swap. constructor. exact IH.
Qed.

Lemma sorted_perm (xs : list Z) : Permutation xs (sorted xs).
Proof.
  induction xs as [|x xs IH]; simpl; [constructor|].
  rewrite <- insert_sorted_perm. constructor. exact IH.
Qed.

Lemma insert_sorted_sorted (x : Z) (l : list Z) :
  StronglySorted Z.le l -> StronglySorted Z.le (insert_sorted x l).
Proof.
  induction 1 as [|y l Hs IH Hy]; simpl.
  - repeat constructor.
  - destruct (Z.leb_spec x y) as [Hxy|Hxy].
    + constructor; [constructor; assumption|].
      constructor; [exact Hxy|].
      eapply Forall_impl; [|exact Hy]. intros z Hz. simpl in Hz. lia.
    + constructor; [exact IH|].
      eapply Permutation_Forall; [apply insert_sorted_perm|].
      constructor; [lia|exact Hy].
Qed.

Lemma sorted_sorted (xs : list Z) : StronglySorted Z.le (sorted xs).
Proof.
  induction xs as [|x xs IH]; simpl; [constructor|].
  apply insert_sorted_sorted. exact IH.
Qed.

(** The search returns, whatever the list. *)
Lemma binary_search_work_returns (arr : list Z) (target : Z) :
  exists i, binary_search_work arr target = Ok i.
Proof. apply while_loop_total; lia. Qed.

End BinarySearchFacts.

(** ** The passes of the loop of [measure_times] *)

Module HarnessFacts.

Import Binary64 Binary64Facts BinarySearch BinarySearchFacts Harness.

Lemma randint_returns (low high size : Z) (w : World) :
  0 <= size -> low < high ->
  exists xs,
    randint low high size w =
      (Ok xs, emit (ev_randint low high size)
                (mkWorld (clock w) (reads w) (rng w)
                         (draws w + Z.to_nat size) (log w))) /\
    length xs = Z.to_nat size /\
    Forall (fun x => low <= x < high) xs.
Proof.
  intros Hs Hr. unfold randint.
  destruct (Z.ltb_spec size 0); [lia|].
  destruct (Z.leb_spec high low); [lia|].
  cbn [orb]. eexists. split; [reflexivity|]. split.
  - rewrite length_map, length_seq. reflexivity.
  - apply Forall_forall. intros x Hx. apply in_map_iff in Hx.
    destruct Hx as [j [<- _]].
    pose proof (Z.mod_pos_bound (rng w (draws w + j)%nat) (high - low)). lia.
Qed.

Lemma prepare_plain (f : algorithm) (n : Z) :
  f <> binary_search -> prepare f n = ret (call f n).
Proof.
  intros Hf. unfold prepare.
  destruct f; try congruence; reflexivity.
Qed.

Lemma measure_one_spec (f : algorithm) (n : Z) (w : World) :
  1 <= n ->
  exists m w',
    measure_one f n w = (Ok (m_duration m), w') /\
    m_size m = n /\
    m_start m = round (clock w (reads w)) /\
    m_end m = round (clock w (S (reads w))) /\
    runs_algorithm f m /\
    Forall is_setup_event (m_setup m) /\
    log w' = log w ++ m_events m /\
    clock w' = clock w /\
    reads w' = S (S (reads w)).
Proof.
  intros Hn.
  destruct (algorithm_eqb f binary_search) eqn:Ef.
  - assert (f = binary_search) as -> by (destruct f; try discriminate; reflexivity).
    destruct (randint_returns 0 100000 n w ltac:(lia) ltac:(lia))
      as [raw [Hraw [Hlen _]]].
    set (arr := sorted raw).
    assert (Harr : length arr = Z.to_nat n).
    { unfold arr. rewrite <- (Permutation_length (sorted_perm raw)). exact Hlen. }
    assert (Hne : arr <> []) by (intros E; rewrite E in Harr; simpl in Harr; lia).
    pose proof (py_index_last arr 0 Hne) as Hlast.
    destruct (binary_search_work_returns arr (last arr 0)) as [i Hi].
    exists (mkMeasurement n [ev_randint 0 100000 n]
              (round (clock w (reads w)))
              (ev_binary_search_work arr (last arr 0))
              (round (clock w (S (reads w))))).
    eexists. split.
    { unfold measure_one, prepare, bind. cbn [algorithm_eqb].
      rewrite Hraw. fold arr. unfold lift. rewrite Hlast.
      unfold ret, perf_counter, call_binary_search_work. cbn [clock reads emit].
      rewrite Hi. reflexivity. }
    cbn. repeat split; try reflexivity.
    + exists arr, (last arr 0). repeat split; [|exact Hlast].
      unfold len. lia.
    + repeat constructor.
    + rewrite <- !app_assoc. reflexivity.
  - assert (Hf : f <> binary_search) by (intros ->; discriminate).
    exists (mkMeasurement n []
              (round (clock w (reads w)))
              (ev_call f n)
              (round (clock w (S (reads w))))).
    eexists. split.
    { unfold measure_one. rewrite (prepare_plain f n Hf). reflexivity. }
    cbn. repeat split; try reflexivity.
    + destruct f; try reflexivity. congruence.
    + constructor.
    + rewrite <- !app_assoc. reflexivity.
Qed.

Lemma for_sizes_spec (f : algorithm) (sizes : list Z) :
  Forall (fun n => 1 <= n) sizes ->
  forall (times : list Q) (w : World),
  exists ms w',
    for_sizes f sizes times w = (Ok (times ++ map m_duration ms), w') /\
    map m_size ms = sizes /\
    Forall (runs_algorithm f) ms /\
    Forall (fun m => Forall is_setup_event (m_setup m)) ms /\
    log w' = log w ++ flat_map m_events ms /\
    clock w' = clock w /\
    reads w' = (reads w + 2 * length sizes)%nat /\
    (forall k m, nth_error ms k = Some m ->
       m_start m = round (clock w (reads w + 2 * k)%nat) /\
       m_end m = round (clock w (reads w + 2 * k + 1)%nat)).
Proof.
  induction 1 as [|n sizes Hn Hsizes IH]; intros times w.
  - exists [], w. cbn. rewrite !app_nil_r, Nat.add_0_r.
    repeat (split; [first [reflexivity|constructor]|]).
    intros k m Hk. destruct k; discriminate.
  - destruct (measure_one_spec f n w Hn)
      as [m [w1 [Hm [Hsz [Hst [Hen [Hrun [Hset [Hlog [Hclk Hrd]]]]]]]]]].
    destruct (IH (times ++ [m_duration m]) w1)
      as [ms [w' [Hfs [Hmap [Hruns [Hsets [Hlog' [Hclk' [Hrd' Hnth]]]]]]]]].
    exists (m :: ms), w'. split.
    { cbn [for_sizes]. unfold bind at 1. rewrite Hm, Hfs.
      rewrite <- app_assoc. reflexivity. }
    split; [cbn; congruence|].
    split; [constructor; assumption|].
    split; [constructor; assumption|].
    split; [rewrite Hlog', Hlog, <- app_assoc; reflexivity|].
    split; [congruence|].
    split; [rewrite Hrd', Hrd; cbn [length]; lia|].
    intros k m' Hk. destruct k as [|k].
    + inversion Hk; subst m'.
      rewrite Nat.mul_0_r, !Nat.add_0_r, Nat.add_1_r. split; assumption.
    + destruct (Hnth k m' Hk) as [H1 H2].
      rewrite Hclk, Hrd in H1, H2.
      replace (reads w + 2 * S k)%nat with (S (S (reads w)) + 2 * k)%nat by lia.
      split; assumption.
Qed.

(** The whole of [measure_times], for the arguments [analyze] passes. *)
Lemma measure_times_spec (f : algorithm) (max_n steps : Z) (w : World) :
  100 <= max_n <= 20000 -> 4 <= steps <= 30 ->
  exists ms w',
    measure_times f max_n steps w
      = (Ok (map m_size ms, map m_duration ms), w') /\
    Numpy.input_sizes max_n steps = Ok (map m_size ms) /\
    Forall (runs_algorithm f) ms /\
    Forall (fun m => Forall is_setup_event (m_setup m)) ms /\
    log w' = log w ++ flat_map m_events ms /\
    clock w' = clock w /\
    reads w' = (reads w + 2 * length ms)%nat /\
    (forall k m, nth_error ms k = Some m ->
       m_start m = round (clock w (reads w + 2 * k)%nat) /\
       m_end m = round (clock w (reads w + 2 * k + 1)%nat)).
Proof.
  intros Hmax Hsteps.
  destruct (NumpyFacts.sampler_sizes_spec max_n steps Hmax Hsteps)
    as [sizes [Hs _]].
  pose proof (NumpyFacts.sampler_sizes_ge_10 max_n steps sizes Hmax Hsteps Hs) as Hge.
  assert (Hpos : Forall (fun n => 1 <= n) sizes)
    by (eapply Forall_impl; [|exact Hge]; cbv beta; intros; lia).
  destruct (for_sizes_spec f sizes Hpos [] w)
    as [ms [w' [Hfs [Hmap [Hruns [Hsets [Hlog [Hclk [Hrd Hnth]]]]]]]]].
  exists ms, w'. split.
  { unfold measure_times, bind, lift. rewrite Hs, Hfs, Hmap. reflexivity. }
  split; [rewrite Hmap; exact Hs|].
  repeat (split; [assumption|]).
  split; [|exact Hnth].
  rewrite Hrd, <- Hmap, length_map. reflexivity.
Qed.

End HarnessFacts.

(** ** The two ways out of [analyze] *)

Module HandlerFacts.

Import Binary64 Harness HarnessFacts Handler.

Local Open Scope string_scope.

Lemma clamp_n_range (n : Z) : 100 <= clamp_n n <= 20000.
Proof. unfold clamp_n. lia. Qed.

Lemma clamp_steps_range (steps : Z) : 4 <= clamp_steps steps <= 30.
Proof. unfold clamp_steps. lia. Qed.

Lemma analyze_unknown (req : request) (w : World) :
  lookup ALGORITHMS (normalize (get (arg_algo req) "linear")) = None ->
  analyze req w =
    (Ok (http_error 400 unknown_algorithm_message),
     emit (ev_perf_counter (round (clock w (reads w))))
       (mkWorld (clock w) (S (reads w)) (rng w) (draws w) (log w))).
Proof.
  intros H. unfold analyze, bind, perf_counter. rewrite H. reflexivity.
Qed.

Lemma analyze_known (req : request) (w : World) (func : algorithm) :
  lookup ALGORITHMS (normalize (get (arg_algo req) "linear")) = Some func ->
  exists input_sizes run_times total w',
    analyze req w =
      (Ok (http_success
             (mkContext (normalize (get (arg_algo req) "linear"))
                        (clamp_n (get (arg_n req) 1000))
                        (clamp_steps (get (arg_steps req) 10))
                        total)
             input_sizes
             (map (fun t => py_round t 6) run_times)
             (mkGraph (normalize (get (arg_algo req) "linear"))
                      input_sizes run_times)),
       w') /\
    Numpy.input_sizes (clamp_n (get (arg_n req) 1000))
                      (clamp_steps (get (arg_steps req) 10))
      = Ok input_sizes /\
    length run_times = length input_sizes.
Proof.
  intros H.
  set (w1 := emit (ev_perf_counter (round (clock w (reads w))))
               (mkWorld (clock w) (S (reads w)) (rng w) (draws w) (log w))).
  destruct (measure_times_spec func
              (clamp_n (get (arg_n req) 1000))
              (clamp_steps (get (arg_steps req) 10)) w1
              (clamp_n_range _) (clamp_steps_range _))
    as [ms [w2 [Hm [Hs _]]]].
  eexists (map m_size ms), (map m_duration ms), _, _.
  split; [|split; [exact Hs|rewrite !length_map; reflexivity]].
  unfold analyze, bind at 1, perf_counter. fold w1.
  rewrite H. unfold bind at 1. rewrite Hm.
  reflexivity.
Qed.

End HandlerFacts.

(** ** The ways out of [save_analysis_result] *)

Module PersistenceFacts.

Import Persistence.

Local Open Scope string_scope.

Section Database.

Variable Database : Type.
Variable db_insert : Database -> analysis -> py (Z * Database).
Variable db_select : Database -> Z -> py saved_row.
Variable db_rollback : Database -> Database.
Variable int_of_str : string -> option Z.
Variable str_of_exn : exn -> string.

(** Building the object only reads the record. *)
Lemma new_analysis_state (s s' : State Database) (r : py analysis) :
  new_analysis int_of_str s = (r, s') -> s' = s.
Proof.
  unfold new_analysis, bind, data_get, lift, ret.
  repeat match goal with
         | |- context [py_int ?v] => destruct (py_int v)
         end;
    intros H; inversion H; reflexivity.
Qed.

(** What the caller gets back, by the outcome of the three steps that
    can fail: the conversions, the insertion, the reload. *)
Lemma save_analysis_result_cases (s : State Database) :
  let s0 := mkState (database s) (mkSession None None true) (data_obj s) in
  match new_analysis int_of_str s0 with
  | (Raise e, _) =>
      save_analysis_result db_insert db_select db_rollback
        int_of_str str_of_exn s =
        (Ok (error 500 (String.append "Failed to save analysis: "
                          (str_of_exn e))),
         mkState (db_rollback (database s)) (mkSession None None false)
                 (data_obj s))
  | (Ok a, _) =>
      match db_insert (database s) a with
      | Raise e =>
          save_analysis_result db_insert db_select db_rollback
        int_of_str str_of_exn s =
            (Ok (error 500 (String.append "Failed to save analysis: "
                              (str_of_exn e))),
             mkState (db_rollback (database s)) (mkSession None None false)
                     (data_obj s))
      | Ok (id, db') =>
          match db_select db' id with
          | Raise e =>
              save_analysis_result db_insert db_select db_rollback
        int_of_str str_of_exn s =
                (Ok (error 500 (String.append "Failed to save analysis: "
                                  (str_of_exn e))),
                 mkState (db_rollback db') (mkSession None None false)
                         (data_obj s))
          | Ok row =>
              save_analysis_result db_insert db_select db_rollback
        int_of_str str_of_exn s =
                (Ok (success 201 id
                       (String.append
                          "Algorithm analysis saved successfully with ID: "
                          (str_of_int id))
                       (to_dict id row)),
                 mkState db' (mkSession None None false) (data_obj s))
          end
      end
  end.
Proof.
  intros s0.
  destruct (new_analysis int_of_str s0) as [[a|e] s1] eqn:Ha;
    pose proof (new_analysis_state _ _ _ Ha) as ->.
  - destruct (db_insert (database s) a) as [[id db']|e] eqn:Hi;
      [destruct (db_select db' id) as [row|e] eqn:Hsel|];
      unfold save_analysis_result;
      unfold bind at 1, new_session; fold s0;
      unfold try_finally, try_except;
      unfold bind at 1; rewrite Ha;
      unfold bind at 1, session_add;
      unfold bind at 1, session_commit;
      cbn [database sess data_obj pending identity is_open]; subst s0;
      cbn [database sess data_obj pending identity is_open]; rewrite Hi;
      try (unfold bind at 1, analysis_id;
           cbn [database sess data_obj pending identity is_open];
           rewrite Hsel);
      reflexivity.
  - unfold save_analysis_result.
    unfold bind at 1, new_session. fold s0.
    unfold try_finally, try_except.
    unfold bind at 1. rewrite Ha. reflexivity.
Qed.

End Database.

End PersistenceFacts.

(** ** The passes of [binary_search_work], counted *)

Module BinarySearchPassesFacts.

Import BinarySearch BinarySearchFacts BinarySearchPasses.

(** A pass that goes round again leaves at most half of the interval. *)
Lemma loop_body_halves (arr : list Z) (target left right l' r' : Z) :
  left <= right ->
  loop_body arr target left right = Continue l' r' ->
  2 * (r' - l' + 1) <= right - left + 1.
Proof.
  intros Hle Hb.
  destruct (loop_body_continue _ _ _ _ _ _ Hb) as [[-> ->]|[-> ->]];
    unfold midpoint;
    pose proof (Z.div_mod (right - left) 2 ltac:(lia));
    pose proof (Z.mod_pos_bound (right - left) 2 ltac:(lia)); lia.
Qed.

(** After [k] passes the interval holds at most [len arr / 2^k]
    indices. *)
Lemma reachable_after_width (arr : list Z) (target : Z) (k : nat)
  (left right : Z) :
  reachable_after arr target k left right ->
  (right - left + 1) * 2 ^ Z.of_nat k <= len arr.
Proof.
  induction 1 as [|k left right l' r' _ IH Hle Hb].
  - simpl. lia.
  - pose proof (loop_body_halves _ _ _ _ _ _ Hle Hb) as Hh.
    rewrite Nat2Z.inj_succ, Z.pow_succ_r by lia.
    assert (0 < 2 ^ Z.of_nat k) by (apply Z.pow_pos_nonneg; lia).
    nia.
Qed.

Lemma reachable_after_reachable (arr : list Z) (target : Z) (k : nat)
  (left right : Z) :
  reachable_after arr target k left right -> reachable arr target left right.
Proof.
  induction 1; [constructor|econstructor; eassumption].
Qed.

(** On a sorted list the search finds a target that is there. *)
Lemma binary_search_work_finds (arr : list Z) (target : Z) :
  StronglySorted Z.le arr -> In target arr ->
  exists i,
    binary_search_work arr target = Ok i /\
    0 <= i < len arr /\
    nth_error arr (Z.to_nat i) = Some target.
Proof.
  intros Hs Hin.
  destruct (binary_search_work_returns arr target) as [i Hi].
  exists i. split; [exact Hi|].
  unfold binary_search_work in Hi.
  destruct (while_loop_sound arr target 0 (len arr - 1) i
              ltac:(lia) ltac:(lia) Hi) as [->|[Hb Hn]].
  - exfalso. revert Hin.
    apply (while_loop_complete arr target Hs 0 (len arr - 1));
      try lia; [|exact Hi].
    intros j x Hj Hx.
    assert (nth_error arr (Z.to_nat j) = None)
      by (apply nth_error_None; unfold len in *; lia).
    congruence.
  - split; [lia|exact Hn].
Qed.

End BinarySearchPassesFacts.

(** ** The distance between the sizes *)

Module NumpyGaps.

Import Binary64 Binary64Facts Numpy NumpyFacts.

Section Gaps.

Variables max_n steps : Z.
Hypothesis Hmax : (100 <= max_n <= 20000)%Z.
Hypothesis Hsteps : (4 <= steps <= 30)%Z.

Local Open Scope Q_scope.

(** The exact step is above 3: at least [90 / 29]. *)
Lemma exact_step_ge :
  90 # 29 <= inject_Z (max_n - 10) / inject_Z (steps - 1).
Proof.
  destruct (sampler_D_bounds max_n Hmax) as [HD _].
  destruct (sampler_d_bounds steps Hsteps) as [Hd0 Hd1].
  apply Qle_shift_div_l; [lra|].
  set (d := inject_Z (steps - 1)) in *. lra.
Qed.

(** Every entry before the last is near the exact interpolation. *)
Lemma entry_near (i : Z) :
  (0 <= i <= steps - 2)%Z ->
  Qabs (sampler_entry max_n steps i
        - (10 + inject_Z i * (inject_Z (max_n - 10) / inject_Z (steps - 1))))
  <= 30 * pow2 (-39).
Proof.
  intros Hi. destruct (Z.eq_dec i 0) as [->|Hne].
  - rewrite (sampler_entry_0 max_n steps Hsteps).
    setoid_replace (10 - (10 + inject_Z 0 * (inject_Z (max_n - 10) / inject_Z (steps - 1))))
      with 0 by ring.
    vm_compute. discriminate.
  - apply (sampler_entry_err max_n steps Hmax Hsteps). lia.
Qed.

Lemma inject_Z_succ (i : Z) : inject_Z (i + 1) == inject_Z i + 1.
Proof. rewrite inject_Z_plus. reflexivity. Qed.

(** Two entries that follow each other are more than 3 apart. *)
Lemma entry_gap (i : Z) :
  (0 <= i)%Z -> (i + 1 <= steps - 2)%Z ->
  sampler_entry max_n steps i + 3 <= sampler_entry max_n steps (i + 1).
Proof.
  intros Hi0 Hi1.
  pose proof (entry_near i ltac:(lia)) as H1.
  pose proof (entry_near (i + 1) ltac:(lia)) as H2.
  apply Qabs_Qle_condition in H1. apply Qabs_Qle_condition in H2.
  rewrite inject_Z_succ in H2.
  pose proof exact_step_ge as Hx.
  pose proof (sampler_eta) as Heta.
  set (x := inject_Z (max_n - 10) / inject_Z (steps - 1)) in *.
  set (I := inject_Z i) in *.
  lra.
Qed.

(** The last entry, [max_n], is more than 3 above the one before. *)
Lemma entry_gap_last :
  sampler_entry max_n steps (steps - 2) + 3 <= inject_Z max_n.
Proof.
  pose proof (entry_near (steps - 2) ltac:(lia)) as H1.
  apply Qabs_Qle_condition in H1.
  pose proof exact_step_ge as Hx.
  pose proof (sampler_eta) as Heta.
  destruct (sampler_d_bounds steps Hsteps) as [Hd0 Hd1].
  assert (Hd : inject_Z (steps - 2) == inject_Z (steps - 1) - 1).
  { replace (steps - 2)%Z with (steps - 1 + -1)%Z by ring.
    rewrite inject_Z_plus. reflexivity. }
  assert (Hm : inject_Z max_n ==
               10 + inject_Z (steps - 1)
                    * (inject_Z (max_n - 10) / inject_Z (steps - 1))).
  { setoid_replace (inject_Z (steps - 1)
                    * (inject_Z (max_n - 10) / inject_Z (steps - 1)))
      with (inject_Z (max_n - 10)) by (field; lra).
    replace max_n with (10 + (max_n - 10))%Z at 1 by ring.
    rewrite inject_Z_plus. reflexivity. }
  rewrite Hd in H1. rewrite Hm.
  set (x := inject_Z (max_n - 10) / inject_Z (steps - 1)) in *.
  set (d := inject_Z (steps - 1)) in *.
  nra.
Qed.

(** Rounding down keeps a distance of 3. *)
Lemma Qfloor_gap (a b : Q) : a + 3 <= b -> (Qfloor a + 3 <= Qfloor b)%Z.
Proof.
  intros H.
  apply Z.le_trans with (Qfloor (inject_Z (Qfloor a + 3))).
  - rewrite Qfloor_Z. lia.
  - apply Qfloor_resp_le. rewrite inject_Z_plus.
    pose proof (Qfloor_le a). change (inject_Z 3) with 3. lra.
Qed.

Lemma size_gap (i : Z) :
  (0 <= i)%Z -> (i + 1 <= steps - 2)%Z ->
  (Qfloor (sampler_entry max_n steps i) + 3
   <= Qfloor (sampler_entry max_n steps (i + 1)))%Z.
Proof. intros H0 H1. apply Qfloor_gap, entry_gap; assumption. Qed.

Lemma size_gap_last :
  (Qfloor (sampler_entry max_n steps (steps - 2)) + 3 <= max_n)%Z.
Proof.
  rewrite <- (Qfloor_Z max_n) at 2. apply Qfloor_gap, entry_gap_last.
Qed.

End Gaps.

(** Two sizes of the list, the second later than the first, are at least
    3 apart. *)
Lemma sampler_sizes_gap (max_n steps : Z) (sizes : list Z) (i j : nat)
  (x y : Z) :
  (100 <= max_n <= 20000)%Z -> (4 <= steps <= 30)%Z ->
  input_sizes max_n steps = Ok sizes ->
  (i < j)%nat ->
  nth_error sizes i = Some x -> nth_error sizes j = Some y ->
  (x + 3 <= y)%Z.
Proof.
  intros Hmax Hsteps Hs Hij Hx Hy.
  pose proof (sampler_sizes_sorted max_n steps sizes Hmax Hsteps Hs) as Hsorted.
  destruct (nth_error sizes (S i)) as [z|] eqn:Hz.
  2:{ apply nth_error_None in Hz.
      assert (j < length sizes)%nat by (apply nth_error_Some; congruence). lia. }
  assert (Hzy : (z <= y)%Z).
  { apply (BinarySearchFacts.StronglySorted_nth sizes Hsorted (S i) j);
      [lia|exact Hz|exact Hy]. }
  assert (x + 3 <= z)%Z; [|lia].
  destruct (sampler_sizes_nth max_n steps sizes i x Hmax Hsteps Hs Hx)
    as [_ [[Hi ->]|[Hi ->]]];
  destruct (sampler_sizes_nth max_n steps sizes (S i) z Hmax Hsteps Hs Hz)
    as [_ [[Hj ->]|[Hj ->]]]; try lia.
  - rewrite Nat2Z.inj_succ. unfold Z.succ.
    apply (size_gap max_n steps Hmax Hsteps); lia.
  - replace (Z.of_nat i) with (steps - 2)%Z by lia.
    apply (size_gap_last max_n steps Hmax Hsteps).
Qed.

(** No size is above [max_n]. *)
Lemma sampler_sizes_le_max (max_n steps : Z) (sizes : list Z) :
  (100 <= max_n <= 20000)%Z -> (4 <= steps <= 30)%Z ->
  input_sizes max_n steps = Ok sizes ->
  Forall (fun n => n <= max_n)%Z sizes.
Proof.
  intros Hmax Hsteps Hs.
  apply Forall_forall. intros x Hx.
  destruct (In_nth_error _ _ Hx) as [i Hi].
  destruct (sampler_sizes_nth max_n steps sizes i x Hmax Hsteps Hs Hi)
    as [_ [[Hi' ->]|[_ ->]]]; [|lia].
  apply (sampler_size_le_stop max_n steps Hmax Hsteps). lia.
Qed.

End NumpyGaps.

(** ** What [measure_times] does to the clock and the random stream *)

Module HarnessEffects.

Import Binary64 Binary64Facts BinarySearch BinarySearchFacts Harness HarnessFacts.
Import Effects.

Lemma measure_one_effects (f : algorithm) (n : Z) (w : World) :
  1 <= n ->
  exists t w',
    measure_one f n w = (Ok t, w') /\
    clock w' = clock w /\
    reads w' = S (S (reads w)) /\
    rng w' = rng w /\
    draws w' = (draws w + drawn f n)%nat.
Proof.
  intros Hn. unfold drawn.
  destruct (algorithm_eqb f binary_search) eqn:Ef.
  - assert (f = binary_search) as ->
      by (destruct f; try discriminate; reflexivity).
    destruct (randint_returns 0 100000 n w ltac:(lia) ltac:(lia))
      as [raw [Hraw [Hlen _]]].
    set (arr := sorted raw).
    assert (Harr : length arr = Z.to_nat n).
    { unfold arr. rewrite <- (Permutation_length (sorted_perm raw)). exact Hlen. }
    assert (Hne : arr <> [])
      by (intros E; rewrite E in Harr; simpl in Harr; lia).
    pose proof (py_index_last arr 0 Hne) as Hlast.
    destruct (binary_search_work_returns arr (last arr 0)) as [i Hi].
    eexists _, _. split.
    { unfold measure_one, prepare, bind. cbn [algorithm_eqb].
      rewrite Hraw. fold arr. unfold lift. rewrite Hlast.
      unfold ret, perf_counter, call_binary_search_work. cbn [clock reads emit].
      rewrite Hi. reflexivity. }
    cbn. repeat split; reflexivity.
  - assert (Hf : f <> binary_search) by (intros ->; discriminate).
    eexists _, _. split.
    { unfold measure_one. rewrite (prepare_plain f n Hf). reflexivity. }
    cbn. repeat split; try reflexivity. lia.
Qed.

Lemma for_sizes_effects (f : algorithm) (sizes : list Z) :
  Forall (fun n => 1 <= n) sizes ->
  forall (times : list Q) (w : World),
  exists times' w',
    for_sizes f sizes times w = (Ok times', w') /\
    clock w' = clock w /\
    reads w' = (reads w + 2 * length sizes)%nat /\
    rng w' = rng w /\
    draws w' = (draws w + list_sum (map (drawn f) sizes))%nat.
Proof.
  induction 1 as [|n sizes Hn _ IH]; intros times w.
  - exists times, w. cbn. repeat split; lia.
  - destruct (measure_one_effects f n w Hn)
      as [t [w1 [Hm [Hc [Hr [Hg Hd]]]]]].
    destruct (IH (times ++ [t]) w1) as [times' [w' [Hf [Hc' [Hr' [Hg' Hd']]]]]].
    exists times', w'. split.
    { cbn [for_sizes]. unfold bind at 1. rewrite Hm. exact Hf. }
    unfold list_sum in *. cbn [length map fold_right].
    repeat split; try congruence; lia.
Qed.

End HarnessEffects.

(** ** A successful run of [analyze], from the first reading of the clock
    to the last *)

Module HandlerTrace.

Import Binary64 Binary64Facts Harness HarnessFacts Effects HarnessEffects.
Import Handler HandlerFacts.

Local Open Scope string_scope.

Lemma analyze_trace (req : request) (w : World) (func : algorithm) :
  lookup ALGORITHMS (normalize (get (arg_algo req) "linear")) = Some func ->
  exists ms w',
    analyze req w =
      (Ok (http_success
             (mkContext (normalize (get (arg_algo req) "linear"))
                (clamp_n (get (arg_n req) 1000))
                (clamp_steps (get (arg_steps req) 10))
                (py_round
                   (fsub (round (clock w (reads w + 2 * length ms + 1)%nat))
                         (round (clock w (reads w))))
                   5))
             (map m_size ms)
             (map (fun t => py_round t 6) (map m_duration ms))
             (mkGraph (normalize (get (arg_algo req) "linear"))
                (map m_size ms) (map m_duration ms))),
       w') /\
    Numpy.input_sizes (clamp_n (get (arg_n req) 1000))
                      (clamp_steps (get (arg_steps req) 10))
      = Ok (map m_size ms) /\
    Forall (runs_algorithm func) ms /\
    Forall (fun m => Forall is_setup_event (m_setup m)) ms /\
    log w' =
      log w ++ [ev_perf_counter (round (clock w (reads w)))]
            ++ flat_map m_events ms
            ++ [ev_savefig (map m_size ms) (map m_duration ms);
                ev_perf_counter
                  (round (clock w (reads w + 2 * length ms + 1)%nat))] /\
    clock w' = clock w /\
    reads w' = (reads w + 2 * length ms + 2)%nat /\
    rng w' = rng w /\
    draws w' = (draws w + list_sum (map (drawn func) (map m_size ms)))%nat /\
    (forall k m, nth_error ms k = Some m ->
       m_start m = round (clock w (reads w + 2 * k + 1)%nat) /\
       m_end m = round (clock w (reads w + 2 * k + 2)%nat)).
Proof.
  intros H.
  set (w1 := emit (ev_perf_counter (round (clock w (reads w))))
               (mkWorld (clock w) (S (reads w)) (rng w) (draws w) (log w))).
  destruct (measure_times_spec func
              (clamp_n (get (arg_n req) 1000))
              (clamp_steps (get (arg_steps req) 10)) w1
              (clamp_n_range _) (clamp_steps_range _))
    as [ms [w2 [Hm [Hs [Hruns [Hsets [Hlog [Hclk [Hrd Hnth]]]]]]]]].
  assert (Hpos : Forall (fun n => 1 <= n) (map m_size ms)).
  { eapply Forall_impl;
      [|exact (NumpyFacts.sampler_sizes_ge_10 _ _ _
                 (clamp_n_range _) (clamp_steps_range _) Hs)].
    cbv beta. intros; lia. }
  destruct (for_sizes_effects func (map m_size ms) Hpos [] w1)
    as [times' [w2' [Hf [_ [_ [Hrng Hdraws]]]]]].
  assert (Hw2 : w2' = w2).
  { unfold measure_times, bind, lift in Hm. rewrite Hs, Hf in Hm.
    inversion Hm. reflexivity. }
  subst w2'.
  cbn [clock reads rng draws log emit w1] in Hlog, Hclk, Hrd, Hrng, Hdraws, Hnth.
  exists ms. eexists. split.
  { unfold analyze, bind at 1, perf_counter. fold w1.
    rewrite H. unfold bind at 1. rewrite Hm.
    cbn [fst snd]. unfold bind, savefig, perf_counter, ret.
    cbn [clock reads rng draws log emit].
    rewrite Hclk, Hrd.
    replace (S (reads w) + 2 * length ms)%nat
      with (reads w + 2 * length ms + 1)%nat by lia.
    reflexivity. }
  cbn [clock reads rng draws log emit].
  split; [exact Hs|]. split; [exact Hruns|]. split; [exact Hsets|].
  split; [rewrite Hlog, <- !app_assoc; reflexivity|].
  split; [reflexivity|]. split; [lia|].
  split; [exact Hrng|]. split; [exact Hdraws|].
  intros k m Hk. destruct (Hnth k m Hk) as [H1 H2].
  replace (reads w + 2 * k + 1)%nat with (S (reads w) + 2 * k)%nat by lia.
  replace (reads w + 2 * k + 2)%nat with (S (reads w) + 2 * k + 1)%nat by lia.
  split; assumption.
Qed.

End HandlerTrace.

(** ** [round(x, ndigits)] *)

Module RoundFacts.

Import Binary64 Binary64Facts Handler.

Local Open Scope Q_scope.

Lemma round_half_even_nonneg (q : Q) : 0 <= q -> (0 <= round_half_even q)%Z.
Proof.
  intros H. rewrite <- (round_half_even_Z 0).
  apply round_half_even_mono. exact H.
Qed.



(** To six places a duration of up to [2^20] seconds moves by half a
    microsecond and the rounding of the result. *)
Lemma py_round_6_err (x : Q) :
  0 <= x <= inject_Z (2 ^ 20) ->
  Qabs (py_round x 6 - x) <= 501 # 1000000000.
Proof.
  intros [H0 H1]. unfold py_round. cbv zeta.
  change (inject_Z (10 ^ 6)) with (inject_Z 1000000).
  set (m := round_half_even (x * inject_Z 1000000)).
  pose proof (round_half_even_err (x * inject_Z 1000000)) as He. fold m in He.
  assert (Hm0 : (0 <= m)%Z).
  { apply round_half_even_nonneg. apply Qmult_le_0_compat; [exact H0|].
    change 0 with (inject_Z 0). rewrite <- Zle_Qle. lia. }
  set (y := inject_Z m / inject_Z 1000000).
  assert (Hy : y * 1000000 == inject_Z m).
  { unfold y. change (inject_Z 1000000) with 1000000. field. }
  change (inject_Z 1000000) with 1000000 in He.
  change (inject_Z (2 ^ 20)) with 1048576 in H1.
  apply Qabs_Qle_condition in He. destruct He as [He1 He2].
  clearbody y. clearbody m.
  assert (Hm0' : 0 <= inject_Z m)
    by (change 0 with (inject_Z 0); rewrite <- Zle_Qle; exact Hm0).
  generalize dependent (inject_Z m). intros im He1 He2 Hy Him.
  assert (Hyx : - (1 # 2000000) <= y - x <= 1 # 2000000) by (split; lra).
  assert (Hy0 : 0 <= y) by lra.
  destruct (Qlt_le_dec 0 y) as [Hpos|Hzero].
  - assert (Hlt : y < pow2 (20 + 1))
      by (change (pow2 (20 + 1)) with 2097152; lra).
    pose proof (round_err y 20 Hpos Hlt ltac:(lia)) as Hr.
    change (pow2 (20 - 53)) with (1 # 8589934592) in Hr.
    apply Qabs_Qle_condition in Hr. destruct Hr as [Hr1 Hr2].
    apply Qabs_Qle_condition. split; lra.
  - assert (Hy' : y == 0) by lra.
    rewrite (round_zero y Hy').
    apply Qabs_Qle_condition. split; lra.
Qed.

End RoundFacts.

(** ** [lower] and [strip] *)

Module StrFacts.

Import Str StrShape.

Lemma lower_ascii_idem (c : ascii) : lower_ascii (lower_ascii c) = lower_ascii c.
Proof.
  destruct c as [[] [] [] [] [] [] [] []]; vm_compute; reflexivity.
Qed.

Lemma is_space_lower_ascii (c : ascii) : is_space (lower_ascii c) = is_space c.
Proof.
  destruct c as [[] [] [] [] [] [] [] []]; vm_compute; reflexivity.
Qed.

Lemma lower_idem (s : string) : lower (lower s) = lower s.
Proof.
  induction s as [|c s IH]; [reflexivity|].
  cbn [lower]. rewrite lower_ascii_idem, IH. reflexivity.
Qed.

Lemma lower_lstrip (s : string) : lower (lstrip s) = lstrip (lower s).
Proof.
  induction s as [|c s IH]; [reflexivity|].
  cbn [lower lstrip]. rewrite is_space_lower_ascii.
  destruct (is_space c); [exact IH|reflexivity].
Qed.

Lemma lower_rstrip (s : string) : lower (rstrip s) = rstrip (lower s).
Proof.
  induction s as [|c s IH]; [reflexivity|].
  cbn [lower rstrip]. rewrite <- IH, is_space_lower_ascii.
  destruct (rstrip s); cbn [lower]; [|reflexivity].
  destruct (is_space c); reflexivity.
Qed.

Lemma lower_strip (s : string) : lower (strip s) = strip (lower s).
Proof. unfold strip. rewrite lower_rstrip, lower_lstrip. reflexivity. Qed.

Lemma lstrip_begins (s : string) : begins_unspaced (lstrip s).
Proof.
  induction s as [|c s IH]; [exact I|].
  cbn [lstrip]. destruct (is_space c) eqn:E; [exact IH|exact E].
Qed.

Lemma lstrip_fixed (s : string) : begins_unspaced s -> lstrip s = s.
Proof.
  destruct s as [|c s]; [reflexivity|].
  cbn [begins_unspaced lstrip]. intros ->. reflexivity.
Qed.

Lemma rstrip_begins (s : string) : begins_unspaced s -> begins_unspaced (rstrip s).
Proof.
  destruct s as [|c s]; [intros; exact I|].
  cbn [begins_unspaced rstrip]. intros E.
  destruct (rstrip s); [rewrite E|]; exact E.
Qed.

Lemma rstrip_idem (s : string) : rstrip (rstrip s) = rstrip s.
Proof.
  induction s as [|c s IH]; [reflexivity|].
  cbn [rstrip]. destruct (rstrip s) as [|d r] eqn:E.
  - destruct (is_space c) eqn:Ec; [reflexivity|].
    cbn [rstrip]. rewrite Ec. reflexivity.
  - change (rstrip (String c (String d r)))
      with (match rstrip (String d r) with
            | EmptyString =>
                if is_space c then EmptyString else String c EmptyString
            | r0 => String c r0
            end).
    rewrite IH. reflexivity.
Qed.

Lemma strip_idem (s : string) : strip (strip s) = strip s.
Proof.
  unfold strip.
  rewrite (lstrip_fixed (rstrip (lstrip s)))
    by (apply rstrip_begins, lstrip_begins).
  apply rstrip_idem.
Qed.

Lemma lower_ascii_below (c : ascii) :
  (nat_of_ascii c <? 128)%nat = true ->
  (nat_of_ascii (lower_ascii c) <? 128)%nat = true.
Proof.
  destruct c as [[] [] [] [] [] [] [] []]; vm_compute; intros H;
    first [reflexivity|discriminate H].
Qed.

Lemma isascii_lower (s : string) : isascii s = true -> isascii (lower s) = true.
Proof.
  induction s as [|c s IH]; [reflexivity|].
  cbn [isascii lower]. intros H. apply andb_true_iff in H.
  destruct H as [Hc Hs].
  rewrite (lower_ascii_below c Hc), (IH Hs). reflexivity.
Qed.

Lemma isascii_lstrip (s : string) : isascii s = true -> isascii (lstrip s) = true.
Proof.
  induction s as [|c s IH]; [reflexivity|].
  cbn [lstrip]. destruct (is_space c); [|intros H; exact H].
  cbn [isascii]. intros H. apply andb_true_iff in H. apply IH, H.
Qed.

Lemma isascii_rstrip (s : string) : isascii s = true -> isascii (rstrip s) = true.
Proof.
  induction s as [|c s IH]; [reflexivity|].
  cbn [isascii rstrip]. intros H. apply andb_true_iff in H.
  destruct H as [Hc Hs]. specialize (IH Hs).
  destruct (rstrip s) as [|d r].
  - destruct (is_space c); [reflexivity|].
    cbn [isascii]. rewrite Hc. reflexivity.
  - change (isascii (String c (String d r)))
      with ((nat_of_ascii c <? 128)%nat && isascii (String d r)).
    rewrite Hc, IH. reflexivity.
Qed.

Lemma isascii_strip (s : string) : isascii s = true -> isascii (strip s) = true.
Proof.
  intros H. unfold strip. apply isascii_rstrip, isascii_lstrip, H.
Qed.

Lemma normalize_lower (s : string) :
  Handler.normalize (lower s) = Handler.normalize s.
Proof. unfold Handler.normalize. rewrite lower_idem. reflexivity. Qed.

Lemma normalize_strip (s : string) :
  Handler.normalize (strip s) = Handler.normalize s.
Proof.
  unfold Handler.normalize. rewrite lower_strip. apply strip_idem.
Qed.

Lemma normalize_idem (s : string) :
  Handler.normalize (Handler.normalize s) = Handler.normalize s.
Proof.
  unfold Handler.normalize at 2.
  rewrite normalize_strip. apply normalize_lower.
Qed.

End StrFacts.

(** ** The record, the session and the queries *)

Module QueriesFacts.

Import Persistence Queries.

Local Open Scope string_scope.

Section Database.

Variable Database : Type.
Variable db_first : Database -> Z -> py (option (Z * saved_row)).
Variable db_all : Database -> py (list (Z * saved_row)).
Variable int_of_str : string -> option Z.
Variable str_of_exn : exn -> string.

(** What the constructor is given depends on the record alone. *)
Lemma new_analysis_data_only (s1 s2 : State Database) :
  data_obj s1 = data_obj s2 ->
  fst (new_analysis int_of_str s1) = fst (new_analysis int_of_str s2).
Proof.
  intros H. unfold new_analysis, bind, data_get, lift, ret. rewrite H.
  repeat match goal with
         | |- context [py_int ?f ?v] => destruct (py_int f v)
         end;
    reflexivity.
Qed.

(** The arguments of the constructor, from the record. *)
Lemma new_analysis_ok (s s' : State Database) (a : analysis) :
  new_analysis int_of_str s = (Ok a, s') ->
  algo a = dict_get (data_obj s) "algo" PyNone /\
  py_int int_of_str (dict_get (data_obj s) "items" (PyInt 0)) = Ok (items a) /\
  py_int int_of_str (dict_get (data_obj s) "steps" (PyInt 0)) = Ok (steps a) /\
  py_int int_of_str (dict_get (data_obj s) "start_time" (PyInt 0))
    = Ok (start_time a) /\
  py_int int_of_str (dict_get (data_obj s) "end_time" (PyInt 0))
    = Ok (end_time a) /\
  py_int int_of_str (dict_get (data_obj s) "total_time_ms" (PyInt 0))
    = Ok (total_time_ms a) /\
  time_complexity a = dict_get (data_obj s) "time_complexity" (PyStr "") /\
  path_to_graph a = dict_get (data_obj s) "path_to_graph" (PyStr "").
Proof.
  unfold new_analysis, bind, data_get, lift, ret.
  repeat match goal with
         | |- context [py_int ?f ?v] => destruct (py_int f v); [|discriminate]
         end.
  intros H. inversion H. cbn. repeat split; reflexivity.
Qed.

Lemma get_analysis_by_id_cases (analysis_id : Z) (s : State Database) :
  get_analysis_by_id db_first str_of_exn analysis_id s =
    (Ok match db_first (database s) analysis_id with
        | Ok (Some (id, row)) => found 200 (to_dict id row)
        | Ok None =>
            query_error 404
              (String.append "Analysis with ID "
                 (String.append (str_of_int analysis_id) " not found"))
        | Raise e =>
            query_error 500
              (String.append "Error retrieving analysis: " (str_of_exn e))
        end,
     mkState (database s) (mkSession None None false) (data_obj s)).
Proof.
  unfold get_analysis_by_id, bind, new_session, try_finally, try_except,
    query_first, session_close, ret.
  cbn [database sess data_obj].
  destruct (db_first (database s) analysis_id) as [[[id row]|]|e];
    reflexivity.
Qed.

Lemma get_all_analyses_cases (s : State Database) :
  get_all_analyses db_all str_of_exn s =
    (Ok match db_all (database s) with
        | Ok analyses =>
            listed 200 (len analyses)
              (map (fun r => to_dict (fst r) (snd r)) analyses)
        | Raise e =>
            query_error 500
              (String.append "Error retrieving analyses: " (str_of_exn e))
        end,
     mkState (database s) (mkSession None None false) (data_obj s)).
Proof.
  unfold get_all_analyses, bind, new_session, try_finally, try_except,
    query_all, session_close, ret.
  cbn [database sess data_obj].
  destruct (db_all (database s)) as [rows|e]; reflexivity.
Qed.

End Database.

End QueriesFacts.

(** ** The table of algorithms and the sample inputs *)

Module InputsFacts.

Import Harness Handler.

Local Open Scope string_scope.

(** The values of [ALGORITHMS] are the four functions of line 9. *)
Lemma lookup_ALGORITHMS (k : string) (f : algorithm) :
  lookup ALGORITHMS k = Some f ->
  In f [linear_search; bubble_sort; binary_search; nested_loops].
Proof.
  unfold ALGORITHMS. cbn [lookup].
  repeat match goal with
         | |- context [String.eqb k ?c] => destruct (String.eqb k c)
         end;
    intros H; inversion H; cbn; tauto.
Qed.

Lemma algorithm_eqb_eq (f g : algorithm) :
  algorithm_eqb f g = true -> f = g.
Proof.
  destruct f, g; try discriminate; try reflexivity.
  cbn. intros H. apply String.eqb_eq in H. congruence.
Qed.


Lemma sample_world_bounded (i : nat) :
  (0 <= clock sample_world i)%Q.
Proof.
  cbn [clock sample_world].
  assert (H : (inject_Z 0 <= inject_Z (Z.of_nat i))%Q)
    by (rewrite <- Zle_Qle; lia).
  change (inject_Z 0) with 0%Q in H.
  unfold Qdiv. apply Qmult_le_0_compat; [exact H|].
  apply Qinv_le_0_compat. unfold Qle. simpl. lia.
Qed.

Lemma steady_world_monotone (i j : nat) :
  (i <= j)%nat -> (clock steady_world i <= clock steady_world j)%Q.
Proof.
  intros H. cbn [clock steady_world].
  assert (H' : (inject_Z (Z.of_nat (Nat.min i 1000))
                <= inject_Z (Z.of_nat (Nat.min j 1000)))%Q)
    by (rewrite <- Zle_Qle; lia).
  unfold Qdiv. apply Qmult_le_compat_r; [exact H'|].
  apply Qinv_le_0_compat. unfold Qle. simpl. lia.
Qed.

Lemma steady_world_bounded (i : nat) :
  (0 <= clock steady_world i <= inject_Z (2 ^ 20))%Q.
Proof.
  cbn [clock steady_world].
  assert (H0 : (inject_Z 0 <= inject_Z (Z.of_nat (Nat.min i 1000)))%Q)
    by (rewrite <- Zle_Qle; lia).
  assert (H1 : (inject_Z (Z.of_nat (Nat.min i 1000)) <= inject_Z 1000)%Q)
    by (rewrite <- Zle_Qle; lia).
  revert H0 H1. generalize (inject_Z (Z.of_nat (Nat.min i 1000))).
  intros q H0 H1.
  change (inject_Z 0) with 0%Q in H0.
  change (inject_Z 1000) with 1000%Q in H1.
  change (inject_Z (2 ^ 20)) with 1048576%Q.
  split.
  - unfold Qdiv. apply Qmult_le_0_compat; [exact H0|].
    apply Qinv_le_0_compat. unfold Qle. simpl. lia.
  - apply Qle_shift_div_r; [reflexivity|]. lra.
Qed.

(** On the database in memory a query by the key gives the row the
    reload gives. *)
Lemma memory_first_select (db : memory_db) (k : Z) (row : Persistence.saved_row) :
  memory_select db k = Ok row -> memory_first db k = Ok (Some (k, row)).
Proof.
  unfold memory_select, memory_first.
  destruct (find (fun r => fst r =? k) db) as [r|] eqn:E; [|discriminate].
  apply find_some in E. destruct E as [_ E]. apply Z.eqb_eq in E.
  intros H. inversion H. rewrite E. reflexivity.
Qed.

End InputsFacts.

(** * The properties of the specification *)

Import Binary64 Binary64Facts BinarySearch BinarySearchFacts.
Import Harness HarnessFacts Handler HandlerFacts.

(** ** The sampler *)

(** C1.  For [max_n] in [100, 20000] and [steps] in [4, 30], the sizes
    that [measure_times] computes on line 34 and returns are [steps]
    many, non-decreasing, the first is 10 and the last is [max_n]. *)
Theorem sampler_sizes_shape (max_n steps : Z) :
  100 <= max_n <= 20000 -> 4 <= steps <= 30 ->
  exists sizes,
    Numpy.input_sizes max_n steps = Ok sizes /\
    (forall f w, exists times w',
        measure_times f max_n steps w = (Ok (sizes, times), w')) /\
    len sizes = steps /\
    Sorted Z.le sizes /\
    py_index sizes 0 = Ok 10 /\
    py_index sizes (-1) = Ok max_n.
Proof.
  intros Hmax Hsteps.
  destruct (NumpyFacts.sampler_sizes_spec max_n steps Hmax Hsteps)
    as [sizes [Hs [Hlen [Hnth Hlast]]]].
  assert (Hl : len sizes = steps) by (unfold len; lia).
  exists sizes. split; [exact Hs|]. split; [|split; [exact Hl|split; [|split]]].
  - intros f w.
    destruct (measure_times_spec f max_n steps w Hmax Hsteps)
      as [ms [w' [Hm [Hs' _]]]].
    rewrite Hs in Hs'. inversion Hs'; subst sizes.
    eauto.
  - apply StronglySorted_Sorted.
    apply (NumpyFacts.sampler_sizes_sorted max_n steps sizes Hmax Hsteps Hs).
  - apply (py_index_nth sizes 0); [lia|].
    rewrite (Hnth 0 ltac:(lia)).
    rewrite (NumpyFacts.sampler_size_0 max_n steps Hsteps). reflexivity.
  - replace (-1) with (steps - 1 - len sizes) by lia.
    apply (py_index_nth sizes (steps - 1)); [lia|exact Hlast].
Qed.

Lemma sampler_sizes_shape_witness :
  exists sizes,
    Numpy.input_sizes 1000 5 = Ok sizes /\
    (forall f w, exists times w',
        measure_times f 1000 5 w = (Ok (sizes, times), w')) /\
    len sizes = 5 /\
    Sorted Z.le sizes /\
    py_index sizes 0 = Ok 10 /\
    py_index sizes (-1) = Ok 1000.
Proof. apply (sampler_sizes_shape 1000 5); lia. Defined.

(** C2 as stated fails: for [max_n = 101] and [steps = 4] the size of
    index 2 is 70, and the interpolation [10 + 2 * 91 / 3 = 70.67]
    rounded to the nearest integer is 71. *)
Lemma sampler_not_nearest :
  Numpy.input_sizes 101 4 = Ok [10; 40; 70; 101] /\
  nearest_interpolation 101 4 2 = 71.
Proof. split; vm_compute; reflexivity. Qed.

(** C2, amended.  The size of index [i] is the interpolation
    [10 + i * (max_n - 10) / (steps - 1)] computed in binary64 and rounded
    down: it is the floor of the exact interpolation, or one less than it
    where the exact interpolation is an integer. *)
Theorem sampler_sizes_interpolate (max_n steps i : Z) :
  100 <= max_n <= 20000 -> 4 <= steps <= 30 -> 0 <= i < steps ->
  exists sizes v,
    Numpy.input_sizes max_n steps = Ok sizes /\
    nth_error sizes (Z.to_nat i) = Some v /\
    let exact := 10 + i * (max_n - 10) / (steps - 1) in
    v = exact \/
    (v = exact - 1 /\ (i * (max_n - 10)) mod (steps - 1) = 0).
Proof.
  intros Hmax Hsteps Hi.
  destruct (NumpyFacts.sampler_sizes_spec max_n steps Hmax Hsteps)
    as [sizes [Hs [Hlen [Hnth Hlast]]]].
  exists sizes.
  destruct (Z.eq_dec i (steps - 1)) as [->|Hne].
  - exists max_n. split; [exact Hs|]. split; [exact Hlast|].
    cbv zeta. left. rewrite Z.mul_comm, Z.div_mul by lia. ring.
  - exists (Qfloor (Numpy.sampler_entry max_n steps i)).
    split; [exact Hs|]. split; [apply Hnth; lia|].
    apply (NumpyFacts.sampler_size_interp max_n steps Hmax Hsteps i). lia.
Qed.

Lemma sampler_sizes_interpolate_witness :
  exists sizes v,
    Numpy.input_sizes 240 15 = Ok sizes /\
    nth_error sizes (Z.to_nat 7) = Some v /\
    let exact := 10 + 7 * (240 - 10) / (15 - 1) in
    v = exact \/
    (v = exact - 1 /\ (7 * (240 - 10)) mod (15 - 1) = 0).
Proof. apply (sampler_sizes_interpolate 240 15 7); lia. Defined.

(** The second case occurs: [10 + 7 * 230 / 14] is 125, and the size
    computed is 124. *)
Example sampler_one_below :
  Numpy.input_sizes 240 15 =
  Ok [10; 26; 42; 59; 75; 92; 108; 124; 141; 157; 174; 190; 207; 223; 240].
Proof. vm_compute. reflexivity. Qed.

(** On these inputs the entries computed with [Binary64.round] are the
    entries computed with the operations of [SpecFloat]. *)
Example sampler_entries_agree_with_SpecFloat :
  forallb (fun p => Binary64Spec.entries_agree (fst p) (snd p))
          [(100, 4); (101, 4); (240, 15); (1000, 5); (20000, 30)] = true.
Proof. vm_compute. reflexivity. Qed.

(** The run of section 8 of the specification: five sizes from 10 to
    1000. *)
Example sampler_end_to_end :
  Numpy.input_sizes 1000 5 = Ok [10; 257; 505; 752; 1000].
Proof. vm_compute. reflexivity. Qed.

(** ** The timer harness *)



(** C4.  Each pass of the loop leaves in the log its preparation, a
    reading of the clock, one invocation of the algorithm on the size, and
    a reading of the clock; the duration recorded is the second reading
    minus the first, and it is not negative when the second reading is not
    below the first. *)
Theorem measure_times_durations (f : algorithm) (max_n steps : Z) (w : World)
  (k : nat) :
  100 <= max_n <= 20000 -> 4 <= steps <= 30 -> (Z.of_nat k < steps) ->
  exists ms w' m,
    measure_times f max_n steps w
      = (Ok (map m_size ms, map m_duration ms), w') /\
    log w' = log w ++ flat_map m_events ms /\
    nth_error ms k = Some m /\
    m_events m =
      m_setup m ++
      [ev_perf_counter (m_start m); m_run m; ev_perf_counter (m_end m)] /\
    Forall is_setup_event (m_setup m) /\
    runs_algorithm f m /\
    m_start m = round (clock w (reads w + 2 * k)%nat) /\
    m_end m = round (clock w (reads w + 2 * k + 1)%nat) /\
    nth_error (map m_duration ms) k = Some (fsub (m_end m) (m_start m)) /\
    ((m_start m <= m_end m)%Q -> (0 <= fsub (m_end m) (m_start m))%Q).
Proof.
  intros Hmax Hsteps Hk.
  destruct (measure_times_spec f max_n steps w Hmax Hsteps)
    as [ms [w' [Hm [Hs [Hruns [Hsets [Hlog [_ [_ Hnth]]]]]]]]].
  destruct (NumpyFacts.sampler_sizes_spec max_n steps Hmax Hsteps)
    as [sizes [Hs' [Hlen _]]].
  rewrite Hs in Hs'. inversion Hs'; subst sizes. rewrite length_map in Hlen.
  destruct (nth_error ms k) as [m|] eqn:E.
  2:{ apply nth_error_None in E. lia. }
  exists ms, w', m.
  rewrite Forall_forall in Hruns, Hsets.
  pose proof (nth_error_In _ _ E) as Hin.
  destruct (Hnth k m E) as [Hst Hen].
  split; [exact Hm|]. split; [exact Hlog|].
  split; [exact E|]. split; [reflexivity|].
  split; [apply Hsets; exact Hin|]. split; [apply Hruns; exact Hin|].
  split; [exact Hst|]. split; [exact Hen|].
  split.
  - rewrite nth_error_map, E. reflexivity.
  - intros Hle. unfold fsub. apply round_nonneg. lra.
Qed.

Lemma measure_times_durations_witness :
  exists ms w' m,
    measure_times linear_search 100 4 sample_world
      = (Ok (map m_size ms, map m_duration ms), w') /\
    log w' = log sample_world ++ flat_map m_events ms /\
    nth_error ms 3 = Some m /\
    m_events m =
      m_setup m ++
      [ev_perf_counter (m_start m); m_run m; ev_perf_counter (m_end m)] /\
    Forall is_setup_event (m_setup m) /\
    runs_algorithm linear_search m /\
    m_start m = round (clock sample_world (reads sample_world + 2 * 3)%nat) /\
    m_end m = round (clock sample_world (reads sample_world + 2 * 3 + 1)%nat) /\
    nth_error (map m_duration ms) 3 = Some (fsub (m_end m) (m_start m)) /\
    ((m_start m <= m_end m)%Q -> (0 <= fsub (m_end m) (m_start m))%Q).
Proof.
  apply (measure_times_durations linear_search 100 4 sample_world 3); simpl; lia.
Defined.

(** The run of section 8 of the specification on [sample_world]: five
    durations of a quarter of a second each, one per size. *)
Example measure_times_end_to_end :
  fst (measure_times binary_search 1000 5 sample_world)
  = Ok ([10; 257; 505; 752; 1000],
        [(1 # 4)%Q; (1 # 4)%Q; (1 # 4)%Q; (1 # 4)%Q; (1 # 4)%Q]).
Proof. vm_compute. reflexivity. Qed.

(** ** [binary_search_work] *)

(** C5.  On a sorted list [binary_search_work] returns an index that
    holds the target when the target is in the list, and -1 when it is
    not; on [1, 3, 5, 7, 9] it returns 4 for 9 and -1 for 4; and on the
    list the harness prepares, sorted and with its last element as the
    target, it returns an index of the list that holds the target. *)
Theorem binary_search_work_correct (arr raw : list Z) (target : Z) :
  Sorted Z.le arr -> raw <> [] ->
  (In target arr ->
   exists i, binary_search_work arr target = Ok i /\
             0 <= i < len arr /\ py_index arr i = Ok target) /\
  (~ In target arr -> binary_search_work arr target = Ok (-1)) /\
  binary_search_work [1; 3; 5; 7; 9] 9 = Ok 4 /\
  binary_search_work [1; 3; 5; 7; 9] 4 = Ok (-1) /\
  (exists last_element i,
      py_index (sorted raw) (-1) = Ok last_element /\
      binary_search_work (sorted raw) last_element = Ok i /\
      0 <= i < len (sorted raw) /\
      py_index (sorted raw) i = Ok last_element).
Proof.
  intros Hsorted Hraw.
  assert (Hfound : forall a t,
    StronglySorted Z.le a -> In t a ->
    exists i, binary_search_work a t = Ok i /\
              0 <= i < len a /\ py_index a i = Ok t).
  { intros a t Hs Hin.
    destruct (binary_search_work_returns a t) as [i Hi].
    exists i. split; [exact Hi|].
    unfold binary_search_work in Hi.
    destruct (while_loop_sound a t 0 (len a - 1) i ltac:(lia) ltac:(lia) Hi)
      as [->|[Hb Hn]].
    - exfalso. revert Hin.
      apply (while_loop_complete a t Hs 0 (len a - 1)); try lia; [|exact Hi].
      intros j x Hj Hx.
      assert (nth_error a (Z.to_nat j) = None)
        by (apply nth_error_None; unfold len in *; lia).
      congruence.
    - split; [lia|]. apply (py_index_nth a i); [lia|exact Hn]. }
  split; [|split; [|split; [|split]]].
  - apply Hfound. apply Sorted_StronglySorted; [|exact Hsorted].
    intros x y z. apply Z.le_trans.
  - intros Hnot.
    destruct (binary_search_work_returns arr target) as [i Hi].
    unfold binary_search_work in Hi.
    destruct (while_loop_sound arr target 0 (len arr - 1) i
                ltac:(lia) ltac:(lia) Hi) as [->|[_ Hn]].
    + exact Hi.
    + exfalso. apply Hnot. eapply nth_error_In. exact Hn.
  - reflexivity.
  - reflexivity.
  - assert (Hne : sorted raw <> []).
    { intros E. apply Hraw. apply Permutation_nil.
      rewrite <- E. apply Permutation_sym, sorted_perm. }
    pose proof (py_index_last (sorted raw) 0 Hne) as Hlast.
    exists (last (sorted raw) 0).
    destruct (Hfound (sorted raw) (last (sorted raw) 0) (sorted_sorted raw))
      as [i [Hi [Hb Hx]]].
    { destruct (exists_last Hne) as [l [x E]]. rewrite E, last_last.
      apply in_or_app. right. left. reflexivity. }
    exists i. repeat split; try assumption; lia.
Qed.

Lemma binary_search_work_correct_witness :
  (In 7 [2; 3; 7; 7; 8] ->
   exists i, binary_search_work [2; 3; 7; 7; 8] 7 = Ok i /\
             0 <= i < len [2; 3; 7; 7; 8] /\
             py_index [2; 3; 7; 7; 8] i = Ok 7) /\
  (~ In 7 [2; 3; 7; 7; 8] -> binary_search_work [2; 3; 7; 7; 8] 7 = Ok (-1)) /\
  binary_search_work [1; 3; 5; 7; 9] 9 = Ok 4 /\
  binary_search_work [1; 3; 5; 7; 9] 4 = Ok (-1) /\
  (exists last_element i,
      py_index (sorted [5; 1; 4]) (-1) = Ok last_element /\
      binary_search_work (sorted [5; 1; 4]) last_element = Ok i /\
      0 <= i < len (sorted [5; 1; 4]) /\
      py_index (sorted [5; 1; 4]) i = Ok last_element).
Proof.
  apply (binary_search_work_correct [2; 3; 7; 7; 8] [5; 1; 4] 7).
  - repeat constructor; lia.
  - discriminate.
Defined.

(** C9.  In every state the loop of [binary_search_work] reaches, the
    index [mid] of the body lies inside the list, the body raises no
    [IndexError], and the call returns. *)
Theorem binary_search_work_in_bounds (arr : list Z) (target left right : Z) :
  reachable arr target left right -> left <= right ->
  0 <= midpoint left right < len arr /\
  (exists x, py_index arr (midpoint left right) = Ok x) /\
  (forall e, loop_body arr target left right <> Raised e) /\
  (exists i, binary_search_work arr target = Ok i).
Proof.
  intros Hreach Hle.
  destruct (reachable_bounds arr target left right Hreach) as [Hl Hr].
  pose proof (midpoint_between left right Hle) as Hm.
  destruct (@py_index_in_bounds Z arr (midpoint left right) ltac:(lia))
    as [x [Hx _]].
  split; [lia|]. split; [eauto|]. split.
  - intros e. unfold loop_body. rewrite Hx.
    destruct (x =? target); [discriminate|].
    destruct (x <? target); discriminate.
  - apply binary_search_work_returns.
Qed.

Lemma binary_search_work_in_bounds_witness :
  0 <= midpoint 3 4 < len [1; 3; 5; 7; 9] /\
  (exists x, py_index [1; 3; 5; 7; 9] (midpoint 3 4) = Ok x) /\
  (forall e, loop_body [1; 3; 5; 7; 9] 9 3 4 <> Raised e) /\
  (exists i, binary_search_work [1; 3; 5; 7; 9] 9 = Ok i).
Proof.
  apply (binary_search_work_in_bounds [1; 3; 5; 7; 9] 9 3 4).
  - apply (reach_next [1; 3; 5; 7; 9] 9 0 4 3 4).
    + apply (reach_init [1; 3; 5; 7; 9] 9).
    + lia.
    + reflexivity.
  - lia.
Defined.

(** C10.  A pass of the loop that goes round again makes [right - left]
    smaller, and never less than -1, so that no run of the loop goes on
    for ever: the transition between loop states is well founded. *)
Theorem while_loop_terminates (arr : list Z) (target left right l' r' : Z) :
  left <= right ->
  loop_body arr target left right = Continue l' r' ->
  -1 <= r' - l' < right - left /\
  well_founded (fun s' s => loop_step arr target s s').
Proof.
  intros Hle Hb. split.
  - apply (loop_body_decreases arr target left right l' r' Hle Hb).
  - apply (well_founded_lt_compat _
             (fun s => Z.to_nat (snd s - fst s + 1))).
    intros [l1 r1] [l0 r0] [H1 H2]. cbn [fst snd] in *.
    pose proof (loop_body_decreases arr target l0 r0 l1 r1 H1 H2). lia.
Qed.

Lemma while_loop_terminates_witness :
  -1 <= 4 - 3 < 4 - 0 /\
  well_founded (fun s' s => loop_step [1; 3; 5; 7; 9] 9 s s').
Proof.
  apply (while_loop_terminates [1; 3; 5; 7; 9] 9 0 4 3 4).
  - lia.
  - reflexivity.
Defined.

(** ** The request handler *)

(** Line 85 on the identifier of section 8 of the specification. *)
Example normalize_quicksort :
  normalize "  QuickSort  "%string = "quicksort"%string /\
  lookup ALGORITHMS (normalize "  QuickSort  "%string) = None /\
  lookup ALGORITHMS (normalize " Binary "%string) = Some binary_search.
Proof. repeat split. Qed.

(** C6.  Whatever integers the request gives for [n] and [steps], a
    request for a supported algorithm is answered with a success whose
    context holds [n] brought into [100, 20000] and [steps] brought into
    [4, 30], the values the sizes are computed from; 50 becomes 100,
    999999 becomes 20000, 1 becomes 4 and 100 becomes 30. *)
Theorem analyze_clamps (algo : option string) (n steps : Z) (w : World)
  (func : algorithm) :
  lookup ALGORITHMS (normalize (get algo "linear"%string)) = Some func ->
  (exists ctx input_sizes times_seconds graph_base64 w',
      analyze (mkRequest algo (Some n) (Some steps)) w
        = (Ok (http_success ctx input_sizes times_seconds graph_base64), w') /\
      ctx_max_n ctx = clamp_n n /\
      ctx_steps ctx = clamp_steps steps /\
      Numpy.input_sizes (clamp_n n) (clamp_steps steps) = Ok input_sizes) /\
  clamp_n n = (if n <? 100 then 100 else if 20000 <? n then 20000 else n) /\
  clamp_steps steps
    = (if steps <? 4 then 4 else if 30 <? steps then 30 else steps) /\
  100 <= clamp_n n <= 20000 /\
  4 <= clamp_steps steps <= 30 /\
  clamp_n 50 = 100 /\ clamp_n 999999 = 20000 /\
  clamp_steps 1 = 4 /\ clamp_steps 100 = 30.
Proof.
  intros Hf. split.
  - destruct (analyze_known (mkRequest algo (Some n) (Some steps)) w func Hf)
      as [sizes [times [total [w' [Ha [Hs _]]]]]].
    cbn [arg_algo arg_n arg_steps get] in Ha, Hs.
    eexists _, _, _, _, _. split; [exact Ha|].
    split; [reflexivity|]. split; [reflexivity|exact Hs].
  - unfold clamp_n, clamp_steps.
    destruct (Z.ltb_spec n 100); destruct (Z.ltb_spec 20000 n);
      destruct (Z.ltb_spec steps 4); destruct (Z.ltb_spec 30 steps);
      repeat split; try reflexivity; lia.
Qed.

Lemma analyze_clamps_witness :
  (exists ctx input_sizes times_seconds graph_base64 w',
      analyze (mkRequest (Some " Binary "%string) (Some 50) (Some 100))
              sample_world
        = (Ok (http_success ctx input_sizes times_seconds graph_base64), w') /\
      ctx_max_n ctx = clamp_n 50 /\
      ctx_steps ctx = clamp_steps 100 /\
      Numpy.input_sizes (clamp_n 50) (clamp_steps 100) = Ok input_sizes) /\
  clamp_n 50 = (if 50 <? 100 then 100 else if 20000 <? 50 then 20000 else 50) /\
  clamp_steps 100
    = (if 100 <? 4 then 4 else if 30 <? 100 then 30 else 100) /\
  100 <= clamp_n 50 <= 20000 /\
  4 <= clamp_steps 100 <= 30 /\
  clamp_n 50 = 100 /\ clamp_n 999999 = 20000 /\
  clamp_steps 1 = 4 /\ clamp_steps 100 = 30.
Proof.
  apply (analyze_clamps (Some " Binary "%string) 50 100 sample_world
           binary_search).
  reflexivity.
Defined.



(** ** The persistence call *)

(** C8.  Whatever the record holds and whatever the database does with
    it, [save_analysis_result] returns, and the caller's record is as it
    was.  It returns a success, status 201, exactly when the object built
    from the record was inserted and the row was loaded again: the
    identifier returned is the one the database gave to the inserted
    row, positive when the database numbers its rows from 1, and the data
    returned is that row.  It returns an error, status 500, with the text
    of the exception when the record could not be converted, when the
    insertion failed, or when the reload failed; the database is rolled
    back then.  [rollback] and [close] are taken to return. *)
Theorem save_analysis_result_isolated
  (Database : Type)
  (db_insert : Database -> Persistence.analysis -> py (Z * Database))
  (db_select : Database -> Z -> py Persistence.saved_row)
  (db_rollback : Database -> Database)
  (int_of_str : string -> option Z)
  (str_of_exn : exn -> string)
  (s : Persistence.State Database) :
  (forall db a id db', db_insert db a = Ok (id, db') -> 0 < id) ->
  exists r s',
    Persistence.save_analysis_result db_insert db_select db_rollback
      int_of_str str_of_exn s = (Ok r, s') /\
    Persistence.data_obj s' = Persistence.data_obj s /\
    match r with
    | Persistence.success status_code id message data =>
        status_code = 201 /\ 0 < id /\
        message = String.append
                    "Algorithm analysis saved successfully with ID: "
                    (Persistence.str_of_int id) /\
        exists a row,
          fst (Persistence.new_analysis int_of_str s) = Ok a /\
          db_insert (Persistence.database s) a
            = Ok (id, Persistence.database s') /\
          db_select (Persistence.database s') id = Ok row /\
          data = Persistence.to_dict id row
    | Persistence.error status_code message =>
        status_code = 500 /\
        exists e,
          message = String.append "Failed to save analysis: "
                      (str_of_exn e) /\
          ((fst (Persistence.new_analysis int_of_str s) = Raise e /\
            Persistence.database s' = db_rollback (Persistence.database s)) \/
           (exists a,
              fst (Persistence.new_analysis int_of_str s) = Ok a /\
              db_insert (Persistence.database s) a = Raise e /\
              Persistence.database s' = db_rollback (Persistence.database s)) \/
           (exists a id db',
              fst (Persistence.new_analysis int_of_str s) = Ok a /\
              db_insert (Persistence.database s) a = Ok (id, db') /\
              db_select db' id = Raise e /\
              Persistence.database s' = db_rollback db'))
    end.
Proof.
  intros Hpos.
  pose proof (PersistenceFacts.save_analysis_result_cases
                Database db_insert db_select db_rollback int_of_str str_of_exn s) as H.
  cbv zeta in H.
  pose proof (QueriesFacts.new_analysis_data_only Database int_of_str
                (Persistence.mkState (Persistence.database s)
                   (Persistence.mkSession None None true)
                   (Persistence.data_obj s)) s eq_refl) as Hd.
  destruct (Persistence.new_analysis int_of_str
              (Persistence.mkState (Persistence.database s)
                 (Persistence.mkSession None None true)
                 (Persistence.data_obj s))) as [[a|e] s1];
    cbn [fst] in Hd; symmetry in Hd.
  - destruct (db_insert (Persistence.database s) a) as [[id db']|e] eqn:Hi.
    + destruct (db_select db' id) as [row|e] eqn:Hsel.
      * eexists _, _. split; [exact H|]. split; [reflexivity|].
        split; [reflexivity|]. split; [apply (Hpos _ _ _ _ Hi)|].
        split; [reflexivity|].
        exists a, row. cbn [Persistence.database].
        split; [exact Hd|]. split; [exact Hi|]. split; [exact Hsel|].
        reflexivity.
      * eexists _, _. split; [exact H|]. split; [reflexivity|].
        split; [reflexivity|]. exists e. split; [reflexivity|].
        right. right. exists a, id, db'. cbn [Persistence.database].
        split; [exact Hd|]. split; [exact Hi|]. split; [exact Hsel|].
        reflexivity.
    + eexists _, _. split; [exact H|]. split; [reflexivity|].
      split; [reflexivity|]. exists e. split; [reflexivity|].
      right. left. exists a. cbn [Persistence.database].
      split; [exact Hd|]. split; [exact Hi|reflexivity].
  - eexists _, _. split; [exact H|]. split; [reflexivity|].
    split; [reflexivity|]. exists e. split; [reflexivity|].
    left. cbn [Persistence.database]. split; [exact Hd|reflexivity].
Qed.

Lemma save_analysis_result_isolated_witness :
  exists r s',
    Persistence.save_analysis_result memory_insert memory_select
      (fun db => db) (fun _ => None) exn_name sample_state = (Ok r, s') /\
    Persistence.data_obj s' = Persistence.data_obj sample_state /\
    match r with
    | Persistence.success status_code id message data =>
        status_code = 201 /\ 0 < id /\
        message = String.append
                    "Algorithm analysis saved successfully with ID: "
                    (Persistence.str_of_int id) /\
        exists a row,
          fst (Persistence.new_analysis (fun _ => None) sample_state) = Ok a /\
          memory_insert (Persistence.database sample_state) a
            = Ok (id, Persistence.database s') /\
          memory_select (Persistence.database s') id = Ok row /\
          data = Persistence.to_dict id row
    | Persistence.error status_code message =>
        status_code = 500 /\
        exists e,
          message = String.append "Failed to save analysis: "
                      (exn_name e) /\
          ((fst (Persistence.new_analysis (fun _ => None) sample_state)
              = Raise e /\
            Persistence.database s'
              = (fun db => db) (Persistence.database sample_state)) \/
           (exists a,
              fst (Persistence.new_analysis (fun _ => None) sample_state)
                = Ok a /\
              memory_insert (Persistence.database sample_state) a = Raise e /\
              Persistence.database s'
                = (fun db => db) (Persistence.database sample_state)) \/
           (exists a id db',
              fst (Persistence.new_analysis (fun _ => None) sample_state)
                = Ok a /\
              memory_insert (Persistence.database sample_state) a
                = Ok (id, db') /\
              memory_select db' id = Raise e /\
              Persistence.database s' = (fun db => db) db'))
    end.
Proof.
  apply (save_analysis_result_isolated memory_db memory_insert memory_select
           (fun db => db) (fun _ => None) exn_name sample_state).
  intros db a id db' H. unfold memory_insert in H. inversion H. lia.
Defined.

(** The record of lines 223-232 is saved as row 1. *)
Example save_sample_succeeds :
  exists row s',
    Persistence.save_analysis_result memory_insert memory_select
      (fun db => db) (fun _ => None) exn_name sample_state
    = (Ok (Persistence.success 201 1
             "Algorithm analysis saved successfully with ID: 1"%string row), s').
Proof. eexists _, _. vm_compute. reflexivity. Qed.

(** With the server refusing, the caller gets the error and keeps its
    record. *)
Example save_sample_offline :
  exists s',
    Persistence.save_analysis_result offline_insert memory_select
      (fun db => db) (fun _ => None) exn_name sample_state
    = (Ok (Persistence.error 500
             "Failed to save analysis: DatabaseError"%string), s')
    /\ Persistence.data_obj s' = sample_data.
Proof. eexists. split; vm_compute; reflexivity. Qed.

(** A record whose [items] is not a number is refused before anything is
    sent to the database. *)
Example save_bad_items :
  fst (Persistence.save_analysis_result memory_insert memory_select
         (fun db => db) (fun _ => None) exn_name
         (Persistence.mkState [] (Persistence.mkSession None None false)
            [("items", Persistence.PyStr "many")]%string))
  = Ok (Persistence.error 500 "Failed to save analysis: ValueError"%string).
Proof. vm_compute. reflexivity. Qed.

(** [int] of [None], of an infinity, of a NaN and of 2.75. *)
Example py_int_values :
  Persistence.py_int (fun _ => None) Persistence.PyNone = Raise TypeError /\
  Persistence.py_int (fun _ => None) (Persistence.PyInf false)
    = Raise OverflowError /\
  Persistence.py_int (fun _ => None) Persistence.PyNaN = Raise ValueError /\
  Persistence.py_int (fun _ => None) (Persistence.PyFloat (11 # 4)) = Ok 2 /\
  Persistence.py_int (fun _ => None) (Persistence.PyFloat (- 11 # 4)) = Ok (-2).
Proof. repeat split. Qed.

(** * Further properties of the programs *)

Import BinarySearchPasses BinarySearchPassesFacts Effects HarnessEffects.
Import HandlerTrace.

(** ** [binary_search_work] on any list *)

(** X1.  On any list, sorted or not, [binary_search_work] returns -1 or
    an index of the list that holds the target, and it returns -1 when
    the target is not in the list. *)
Theorem binary_search_work_any_list (arr : list Z) (target : Z) :
  exists i,
    binary_search_work arr target = Ok i /\
    (i = -1 \/ (0 <= i < len arr /\ py_index arr i = Ok target)) /\
    (~ In target arr -> i = -1).
Proof.
  destruct (binary_search_work_returns arr target) as [i Hi].
  exists i. split; [exact Hi|].
  unfold binary_search_work in Hi.
  destruct (while_loop_sound arr target 0 (len arr - 1) i
              ltac:(lia) ltac:(lia) Hi) as [->|[Hb Hn]].
  - split; [left; reflexivity|intros _; reflexivity].
  - split.
    + right. split; [lia|]. apply (py_index_nth arr i); [lia|exact Hn].
    + intros Hnot. exfalso. apply Hnot. eapply nth_error_In. exact Hn.
Qed.

(** X2.  After [k] passes of the loop that went round again, with the
    loop about to run once more, [2^k] is at most the length of the
    list: the body runs at most [log2 (len arr) + 1] times. *)
Theorem binary_search_work_logarithmic (arr : list Z) (target : Z) (k : nat)
  (left right : Z) :
  reachable_after arr target k left right -> left <= right ->
  2 ^ Z.of_nat k <= len arr /\ Z.of_nat k <= Z.log2 (len arr).
Proof.
  intros Hr Hle.
  pose proof (reachable_after_width _ _ _ _ _ Hr) as Hw.
  assert (Hp : 0 < 2 ^ Z.of_nat k) by (apply Z.pow_pos_nonneg; lia).
  assert (H2 : 2 ^ Z.of_nat k <= len arr) by nia.
  split; [exact H2|].
  rewrite <- (Z.log2_pow2 (Z.of_nat k)) at 1 by lia.
  apply Z.log2_le_mono. exact H2.
Qed.

Lemma binary_search_work_logarithmic_witness :
  2 ^ Z.of_nat 2 <= len [1; 3; 5; 7; 9] /\
  Z.of_nat 2 <= Z.log2 (len [1; 3; 5; 7; 9]).
Proof.
  apply (binary_search_work_logarithmic [1; 3; 5; 7; 9] 9 2 4 4).
  - apply (after_next [1; 3; 5; 7; 9] 9 1 3 4 4 4).
    + apply (after_next [1; 3; 5; 7; 9] 9 0 0 4 3 4).
      * apply (after_init [1; 3; 5; 7; 9] 9).
      * lia.
      * reflexivity.
    + lia.
    + reflexivity.
  - lia.
Defined.

(** ** The sizes of line 34 *)

(** X3.  For [max_n] in [100, 20000] and [steps] in [4, 30] the sizes
    of line 34 grow by at least 3 from each one to the next: no size
    occurs twice, and all lie between 10 and [max_n]. *)
Theorem sampler_sizes_distinct (max_n steps : Z) :
  100 <= max_n <= 20000 -> 4 <= steps <= 30 ->
  exists sizes,
    Numpy.input_sizes max_n steps = Ok sizes /\
    (forall (i j : nat) (x y : Z),
        (i < j)%nat ->
        nth_error sizes i = Some x -> nth_error sizes j = Some y ->
        x + 3 <= y) /\
    NoDup sizes /\
    Forall (fun n => 10 <= n <= max_n) sizes.
Proof.
  intros Hmax Hsteps.
  destruct (NumpyFacts.sampler_sizes_spec max_n steps Hmax Hsteps)
    as [sizes [Hs _]].
  assert (Hgap : forall (i j : nat) (x y : Z),
             (i < j)%nat ->
             nth_error sizes i = Some x -> nth_error sizes j = Some y ->
             x + 3 <= y).
  { intros i j x y.
    apply (NumpyGaps.sampler_sizes_gap max_n steps sizes i j x y Hmax Hsteps Hs). }
  exists sizes. split; [exact Hs|]. split; [exact Hgap|]. split.
  - apply NoDup_nth_error. intros i j Hi Hij.
    destruct (nth_error sizes i) as [x|] eqn:Hx.
    2:{ apply nth_error_None in Hx. lia. }
    symmetry in Hij.
    destruct (Nat.lt_trichotomy i j) as [Hlt|[Heq|Hgt]]; [|exact Heq|].
    + pose proof (Hgap i j x x Hlt Hx Hij). lia.
    + pose proof (Hgap j i x x Hgt Hij Hx). lia.
  - pose proof (NumpyFacts.sampler_sizes_ge_10 max_n steps sizes
                  Hmax Hsteps Hs) as Hge.
    pose proof (NumpyGaps.sampler_sizes_le_max max_n steps sizes
                  Hmax Hsteps Hs) as Hle.
    rewrite Forall_forall in *. intros n Hn.
    split; [apply Hge|apply Hle]; exact Hn.
Qed.

Lemma sampler_sizes_distinct_witness :
  exists sizes,
    Numpy.input_sizes 100 30 = Ok sizes /\
    (forall (i j : nat) (x y : Z),
        (i < j)%nat ->
        nth_error sizes i = Some x -> nth_error sizes j = Some y ->
        x + 3 <= y) /\
    NoDup sizes /\
    Forall (fun n => 10 <= n <= 100) sizes.
Proof. apply (sampler_sizes_distinct 100 30); lia. Defined.

(** ** [measure_times] outside the arguments [analyze] passes *)

(** X4.  With a negative number of steps [measure_times] raises the
    [ValueError] of [numpy.linspace], whatever the algorithm and
    [max_n]: no clock is read and nothing is run. *)
Theorem measure_times_negative_steps (f : algorithm) (max_n num_steps : Z)
  (w : World) :
  num_steps < 0 ->
  measure_times f max_n num_steps w = (Raise ValueError, w).
Proof.
  intros H.
  unfold measure_times, bind, lift, Numpy.input_sizes, Numpy.linspace_int,
    Numpy.linspace_float.
  destruct (Z.ltb_spec num_steps 0); [reflexivity|lia].
Qed.

Lemma measure_times_negative_steps_witness :
  measure_times bubble_sort 1000 (-1) sample_world
  = (Raise ValueError, sample_world).
Proof.
  apply (measure_times_negative_steps bubble_sort 1000 (-1) sample_world). lia.
Defined.

(** X5.  For a [max_n] that binary64 holds exactly: with no steps
    [measure_times] returns two empty lists and leaves the clock unread;
    with one step the only size is 10, whatever [max_n] is, and one
    duration is returned. *)
Theorem measure_times_few_steps (f : algorithm) (max_n : Z) (w : World) :
  - 2 ^ 53 <= max_n <= 2 ^ 53 ->
  measure_times f max_n 0 w = (Ok ([], []), w) /\
  Numpy.input_sizes max_n 1 = Ok [10] /\
  exists t w',
    measure_times f max_n 1 w = (Ok ([10], [t]), w') /\
    reads w' = S (S (reads w)).
Proof.
  intros _.
  assert (H1 : Numpy.input_sizes max_n 1 = Ok [10]).
  { unfold Numpy.input_sizes, Numpy.linspace_int, Numpy.linspace_float.
    cbn [Z.ltb Z.compare Z.sub Z.add Z.opp Z.pos_sub Numpy.arange Z.to_nat
         Pos.to_nat Pos.iter_op Nat.add seq map].
    reflexivity. }
  split; [reflexivity|]. split; [exact H1|].
  destruct (measure_one_effects f 10 w ltac:(lia))
    as [t [w' [Hm [_ [Hr _]]]]].
  exists t, w'. split; [|exact Hr].
  unfold measure_times, bind at 1, lift. rewrite H1.
  unfold bind at 1. cbn [for_sizes]. unfold bind at 1. rewrite Hm.
  reflexivity.
Qed.

Lemma measure_times_few_steps_witness :
  measure_times linear_search 5 0 sample_world = (Ok ([], []), sample_world) /\
  Numpy.input_sizes 5 1 = Ok [10] /\
  exists t w',
    measure_times linear_search 5 1 sample_world = (Ok ([10], [t]), w') /\
    reads w' = S (S (reads sample_world)).
Proof.
  apply (measure_times_few_steps linear_search 5 sample_world). lia.
Defined.

(** X6.  For the binary search a pass of the loop at a size of 0 raises
    the [IndexError] of [arr[-1]] on line 42, and at a negative size the
    [ValueError] of [randint] on line 41; either way before the clock is
    read or the search is run. *)
Theorem measure_one_binary_search_no_data (n : Z) (w : World) :
  n <= 0 ->
  exists w' setup,
    measure_one binary_search n w
      = (Raise (if n =? 0 then IndexError else ValueError), w') /\
    reads w' = reads w /\
    log w' = log w ++ setup /\
    Forall is_setup_event setup.
Proof.
  intros Hn. destruct (Z.eqb_spec n 0) as [->|Hne].
  - eexists _, [ev_randint 0 100000 0]. split; [reflexivity|].
    split; [reflexivity|]. split; [reflexivity|].
    repeat constructor.
  - exists w, []. split.
    + unfold measure_one, prepare, bind, randint. cbn [algorithm_eqb].
      destruct (Z.ltb_spec n 0); [reflexivity|lia].
    + split; [reflexivity|]. split; [rewrite app_nil_r; reflexivity|].
      constructor.
Qed.

Lemma measure_one_binary_search_no_data_witness :
  exists w' setup,
    measure_one binary_search 0 sample_world
      = (Raise (if 0 =? 0 then IndexError else ValueError), w') /\
    reads w' = reads sample_world /\
    log w' = log sample_world ++ setup /\
    Forall is_setup_event setup.
Proof.
  apply (measure_one_binary_search_no_data 0 sample_world). lia.
Defined.

(** X7.  For the binary search at a size [n >= 1], what is timed is one
    search of a list of [n] numbers of [0 .. 99999] in non-decreasing
    order, for its greatest element; the search returns an index of the
    list that holds it, and the numbers were drawn before the first
    reading of the clock. *)
Theorem measure_one_binary_search_data (n : Z) (w : World) :
  1 <= n ->
  exists arr target i t w',
    measure_one binary_search n w = (Ok t, w') /\
    log w' =
      log w ++ [ev_randint 0 100000 n;
                ev_perf_counter (round (clock w (reads w)));
                ev_binary_search_work arr target;
                ev_perf_counter (round (clock w (S (reads w))))] /\
    len arr = n /\
    Sorted Z.le arr /\
    Forall (fun x => 0 <= x < 100000) arr /\
    In target arr /\
    Forall (fun x => x <= target) arr /\
    binary_search_work arr target = Ok i /\
    0 <= i < n /\
    py_index arr i = Ok target.
Proof.
  intros Hn.
  destruct (randint_returns 0 100000 n w ltac:(lia) ltac:(lia))
    as [raw [Hraw [Hlen Hrange]]].
  set (arr := sorted raw).
  pose proof (sorted_perm raw) as Hperm. fold arr in Hperm.
  pose proof (sorted_sorted raw) as Hsorted. fold arr in Hsorted.
  assert (Harr : length arr = Z.to_nat n)
    by (rewrite <- (Permutation_length Hperm); exact Hlen).
  assert (Hne : arr <> [])
    by (intros E; rewrite E in Harr; simpl in Harr; lia).
  pose proof (py_index_last arr 0 Hne) as Hlast.
  assert (Hin : In (last arr 0) arr).
  { destruct (exists_last Hne) as [l [x E]]. rewrite E, last_last.
    apply in_or_app. right. left. reflexivity. }
  destruct (binary_search_work_finds arr (last arr 0) Hsorted Hin)
    as [i [Hi [Hb Hx]]].
  exists arr, (last arr 0), i. eexists _, _. split.
  { unfold measure_one, prepare, bind. cbn [algorithm_eqb].
    rewrite Hraw. fold arr. unfold lift. rewrite Hlast.
    unfold ret, perf_counter, call_binary_search_work. cbn [clock reads emit].
    rewrite Hi. reflexivity. }
  cbn [log emit clock reads].
  split; [rewrite <- !app_assoc; reflexivity|].
  split; [unfold len; lia|].
  split; [apply StronglySorted_Sorted; exact Hsorted|].
  split; [apply (Permutation_Forall Hperm); exact Hrange|].
  split; [exact Hin|].
  split.
  { apply Forall_forall. intros x Hxin.
    destruct (In_nth_error _ _ Hxin) as [j Hj].
    assert (Hjl : (j < length arr)%nat) by (apply nth_error_Some; congruence).
    assert (Hl : nth_error arr (length arr - 1) = Some (last arr 0)).
    { destruct (exists_last Hne) as [l [y E]]. rewrite E, last_last.
      rewrite length_app. cbn [length].
      replace (length l + 1 - 1)%nat with (length l) by lia.
      rewrite nth_error_app2 by lia. rewrite Nat.sub_diag. reflexivity. }
    apply (StronglySorted_nth arr Hsorted j (length arr - 1)%nat);
      [lia|exact Hj|exact Hl]. }
  split; [exact Hi|]. split; [unfold len in Hb; lia|].
  apply (py_index_nth arr i); [exact Hb|exact Hx].
Qed.

Lemma measure_one_binary_search_data_witness :
  exists arr target i t w',
    measure_one binary_search 10 sample_world = (Ok t, w') /\
    log w' =
      log sample_world
      ++ [ev_randint 0 100000 10;
          ev_perf_counter (round (clock sample_world (reads sample_world)));
          ev_binary_search_work arr target;
          ev_perf_counter
            (round (clock sample_world (S (reads sample_world))))] /\
    len arr = 10 /\
    Sorted Z.le arr /\
    Forall (fun x => 0 <= x < 100000) arr /\
    In target arr /\
    Forall (fun x => x <= target) arr /\
    binary_search_work arr target = Ok i /\
    0 <= i < 10 /\
    py_index arr i = Ok target.
Proof. apply (measure_one_binary_search_data 10 sample_world). lia. Defined.

(** X8.  For the arguments [analyze] passes, [measure_times] reads the
    clock twice for each step and nothing else of it; it draws no random
    number unless the algorithm is the binary search, for which it draws
    as many as the sizes add up to. *)
Theorem measure_times_effects (f : algorithm) (max_n steps : Z) (w : World) :
  100 <= max_n <= 20000 -> 4 <= steps <= 30 ->
  exists sizes times w',
    measure_times f max_n steps w = (Ok (sizes, times), w') /\
    clock w' = clock w /\
    rng w' = rng w /\
    reads w' = (reads w + 2 * Z.to_nat steps)%nat /\
    (f <> binary_search -> draws w' = draws w) /\
    (f = binary_search ->
     Z.of_nat (draws w') = Z.of_nat (draws w) + fold_right Z.add 0 sizes).
Proof.
  intros Hmax Hsteps.
  destruct (NumpyFacts.sampler_sizes_spec max_n steps Hmax Hsteps)
    as [sizes [Hs [Hlen _]]].
  pose proof (NumpyFacts.sampler_sizes_ge_10 max_n steps sizes
                Hmax Hsteps Hs) as Hge.
  assert (Hpos : Forall (fun n => 1 <= n) sizes)
    by (eapply Forall_impl; [|exact Hge]; cbv beta; intros; lia).
  destruct (for_sizes_effects f sizes Hpos [] w)
    as [times [w' [Hf [Hc [Hr [Hg Hd]]]]]].
  exists sizes, times, w'. split.
  { unfold measure_times, bind, lift. rewrite Hs, Hf. reflexivity. }
  split; [exact Hc|]. split; [exact Hg|].
  split; [rewrite Hr, Hlen; reflexivity|]. split.
  - intros Hne. rewrite Hd.
    assert (E : list_sum (map (drawn f) sizes) = O).
    { clear - Hne. induction sizes as [|n sizes IH]; [reflexivity|].
      cbn [map list_sum fold_right] in *. unfold list_sum in IH. rewrite IH.
      unfold drawn. destruct (algorithm_eqb f binary_search) eqn:E;
        [|reflexivity].
      exfalso. apply Hne. destruct f; try discriminate. reflexivity. }
    rewrite E. lia.
  - intros ->. rewrite Hd.
    assert (E : Z.of_nat (list_sum (map (drawn binary_search) sizes))
                = fold_right Z.add 0 sizes).
    { clear - Hpos. induction Hpos as [|n sizes Hn _ IH]; [reflexivity|].
      unfold list_sum in *. cbn [map fold_right].
      rewrite Nat2Z.inj_add, IH. unfold drawn. cbn [algorithm_eqb]. lia. }
    lia.
Qed.

Lemma measure_times_effects_witness :
  exists sizes times w',
    measure_times binary_search 100 4 sample_world = (Ok (sizes, times), w') /\
    clock w' = clock sample_world /\
    rng w' = rng sample_world /\
    reads w' = (reads sample_world + 2 * Z.to_nat 4)%nat /\
    (binary_search <> binary_search -> draws w' = draws sample_world) /\
    (binary_search = binary_search ->
     Z.of_nat (draws w')
     = Z.of_nat (draws sample_world) + fold_right Z.add 0 sizes).
Proof.
  apply (measure_times_effects binary_search 100 4 sample_world); lia.
Defined.

(** ** [analyze], from the request to the response *)

(** X9.  With the calls of the imported functions and the drawing of
    the plot taken to return, [analyze] answers every request whose
    algorithm is an ASCII string, or absent: with the error 400 when the
    algorithm, or [linear] when none is given, is no key of [ALGORITHMS]
    once in lower case and stripped, and otherwise with a success whose
    context names that key and the limits applied to [n], or 1000, and to
    [steps], or 10, with as many sizes and as many times as the steps. *)
Theorem analyze_answers (req : request) (w : World) :
  Str.isascii (get (arg_algo req) "linear"%string) = true ->
  exists r w',
    analyze req w = (Ok r, w') /\
    match lookup ALGORITHMS (normalize (get (arg_algo req) "linear"%string)) with
    | None =>
        r = http_error 400 unknown_algorithm_message /\
        reads w' = S (reads w)
    | Some _ =>
        exists ctx input_sizes times_seconds graph_base64,
          r = http_success ctx input_sizes times_seconds graph_base64 /\
          ctx_algorithm ctx = normalize (get (arg_algo req) "linear"%string) /\
          ctx_max_n ctx = clamp_n (get (arg_n req) 1000) /\
          ctx_steps ctx = clamp_steps (get (arg_steps req) 10) /\
          len input_sizes = ctx_steps ctx /\
          len times_seconds = ctx_steps ctx /\
          g_xs graph_base64 = input_sizes /\
          Z.of_nat (reads w') = Z.of_nat (reads w) + 2 * ctx_steps ctx + 2
    end.
Proof.
  intros _.
  destruct (lookup ALGORITHMS (normalize (get (arg_algo req) "linear"%string)))
    as [func|] eqn:Hl.
  - destruct (analyze_trace req w func Hl)
      as [ms [w' [Ha [Hs [_ [_ [_ [_ [Hr _]]]]]]]]].
    destruct (NumpyFacts.sampler_sizes_spec _ _
                (clamp_n_range (get (arg_n req) 1000))
                (clamp_steps_range (get (arg_steps req) 10)))
      as [sizes [Hs' [Hlen _]]].
    rewrite Hs in Hs'. inversion Hs' as [Hsz]. rewrite <- Hsz in Hlen.
    rewrite length_map in Hlen.
    pose proof (clamp_steps_range (get (arg_steps req) 10)) as Hrange.
    eexists _, w'. split; [exact Ha|].
    eexists _, _, _, _. split; [reflexivity|].
    cbn [ctx_algorithm ctx_max_n ctx_steps g_xs].
    repeat (split; [first [reflexivity
                          |unfold len; rewrite ?length_map; lia]|]).
    lia.
  - eexists _, _. split; [apply (analyze_unknown req w Hl)|].
    split; reflexivity.
Qed.

Lemma analyze_answers_witness :
  exists r w',
    analyze (mkRequest None (Some 50) None) sample_world = (Ok r, w') /\
    match lookup ALGORITHMS
            (normalize (get (arg_algo (mkRequest None (Some 50) None))
                          "linear"%string)) with
    | None =>
        r = http_error 400 unknown_algorithm_message /\
        reads w' = S (reads sample_world)
    | Some _ =>
        exists ctx input_sizes times_seconds graph_base64,
          r = http_success ctx input_sizes times_seconds graph_base64 /\
          ctx_algorithm ctx
            = normalize (get (arg_algo (mkRequest None (Some 50) None))
                           "linear"%string) /\
          ctx_max_n ctx
            = clamp_n (get (arg_n (mkRequest None (Some 50) None)) 1000) /\
          ctx_steps ctx
            = clamp_steps (get (arg_steps (mkRequest None (Some 50) None)) 10) /\
          len input_sizes = ctx_steps ctx /\
          len times_seconds = ctx_steps ctx /\
          g_xs graph_base64 = input_sizes /\
          Z.of_nat (reads w')
            = Z.of_nat (reads sample_world) + 2 * ctx_steps ctx + 2
    end.
Proof.
  apply (analyze_answers (mkRequest None (Some 50) None) sample_world).
  reflexivity.
Defined.

(** X10.  The limits of lines 90 and 91 bound the work of a request:
    between the two readings of the clock of lines 82 and 120 the log
    holds the measurements and the drawing of the plot, at most 30
    measurements, each of one run of one of the four functions of line 9
    at a size between 10 and 20000. *)
Theorem analyze_bounded_work (req : request) (w : World) (func : algorithm) :
  lookup ALGORITHMS (normalize (get (arg_algo req) "linear"%string)) = Some func ->
  exists r w' ms t0 t1,
    analyze req w = (Ok r, w') /\
    log w' =
      log w ++ [ev_perf_counter t0] ++ flat_map m_events ms
            ++ [ev_savefig (map m_size ms) (map m_duration ms);
                ev_perf_counter t1] /\
    (4 <= length ms <= 30)%nat /\
    Forall (fun m =>
              10 <= m_size m <= 20000 /\
              runs_algorithm func m /\
              Forall is_setup_event (m_setup m)) ms /\
    In func [linear_search; bubble_sort; binary_search; nested_loops].
Proof.
  intros Hl.
  destruct (analyze_trace req w func Hl)
    as [ms [w' [Ha [Hs [Hruns [Hsets [Hlog _]]]]]]].
  pose proof (clamp_n_range (get (arg_n req) 1000)) as Hn.
  pose proof (clamp_steps_range (get (arg_steps req) 10)) as Hst.
  destruct (NumpyFacts.sampler_sizes_spec _ _ Hn Hst)
    as [sizes [Hs' [Hlen _]]].
  rewrite Hs in Hs'. inversion Hs' as [Hsz]. rewrite <- Hsz in Hlen.
  rewrite length_map in Hlen.
  pose proof (NumpyFacts.sampler_sizes_ge_10 _ _ _ Hn Hst Hs) as Hge.
  pose proof (NumpyGaps.sampler_sizes_le_max _ _ _ Hn Hst Hs) as Hle.
  eexists _, w', ms, _, _. split; [exact Ha|].
  split; [exact Hlog|]. split; [lia|]. split.
  - rewrite Forall_forall in *. intros m Hm.
    assert (Hin : In (m_size m) (map m_size ms)) by (apply in_map; exact Hm).
    specialize (Hge _ Hin). specialize (Hle _ Hin). cbv beta in Hge, Hle.
    split; [lia|]. split; [apply Hruns|apply Hsets]; exact Hm.
  - apply (InputsFacts.lookup_ALGORITHMS _ _ Hl).
Qed.

Lemma analyze_bounded_work_witness :
  exists r w' ms t0 t1,
    analyze (mkRequest (Some "nested"%string) (Some 1000000) (Some 1000))
            sample_world = (Ok r, w') /\
    log w' =
      log sample_world ++ [ev_perf_counter t0] ++ flat_map m_events ms
            ++ [ev_savefig (map m_size ms) (map m_duration ms);
                ev_perf_counter t1] /\
    (4 <= length ms <= 30)%nat /\
    Forall (fun m =>
              10 <= m_size m <= 20000 /\
              runs_algorithm nested_loops m /\
              Forall is_setup_event (m_setup m)) ms /\
    In nested_loops [linear_search; bubble_sort; binary_search; nested_loops].
Proof.
  apply (analyze_bounded_work
           (mkRequest (Some "nested"%string) (Some 1000000) (Some 1000))
           sample_world nested_loops).
  reflexivity.
Defined.



(** X12.  With a clock that never goes back and reads at most [2^20]
    seconds, each time of the response is the duration plotted at the
    same index, to within 0.501 microseconds. *)
Theorem analyze_times_rounded (req : request) (w : World) (func : algorithm) :
  lookup ALGORITHMS (normalize (get (arg_algo req) "linear"%string)) = Some func ->
  (forall i j : nat, (i <= j)%nat -> (clock w i <= clock w j)%Q) ->
  (forall i : nat, (0 <= clock w i <= inject_Z (2 ^ 20))%Q) ->
  exists ctx input_sizes times_seconds graph_base64 w',
    analyze req w
      = (Ok (http_success ctx input_sizes times_seconds graph_base64), w') /\
    length times_seconds = length (g_ys graph_base64) /\
    forall (k : nat) (t y : Q),
      nth_error times_seconds k = Some t ->
      nth_error (g_ys graph_base64) k = Some y ->
      (Qabs (t - y) <= 501 # 1000000000)%Q.
Proof.
  intros Hl Hclock Hbound.
  assert (Hr : forall i : nat,
            (0 <= round (clock w i) <= inject_Z (2 ^ 20))%Q).
  { intros i. destruct (Hbound i) as [H0 H1]. split.
    - apply round_nonneg. exact H0.
    - rewrite <- (round_int (2 ^ 20)) by lia. apply round_mono. exact H1. }
  assert (Hsub : forall i j : nat, (i <= j)%nat ->
            (0 <= fsub (round (clock w j)) (round (clock w i))
             <= inject_Z (2 ^ 20))%Q).
  { intros i j Hij. unfold fsub.
    pose proof (round_mono _ _ (Hclock i j Hij)) as Hm.
    destruct (Hr i) as [Hi0 Hi1]. destruct (Hr j) as [Hj0 Hj1]. split.
    - apply round_nonneg. lra.
    - rewrite <- (round_int (2 ^ 20)) by lia. apply round_mono. lra. }
  destruct (analyze_trace req w func Hl)
    as [ms [w' [Ha [_ [_ [_ [_ [_ [_ [_ [_ Hnth]]]]]]]]]]].
  eexists _, _, _, _, w'. split; [exact Ha|].
  cbn [g_ys]. split; [rewrite !length_map; reflexivity|].
  intros k t y Ht Hy.
  rewrite nth_error_map in Ht. rewrite Hy in Ht. cbn in Ht.
  inversion Ht; subst t.
  rewrite nth_error_map in Hy.
  destruct (nth_error ms k) as [m|] eqn:Hk; [|discriminate].
  inversion Hy; subst y.
  destruct (Hnth k m Hk) as [H1 H2].
  apply RoundFacts.py_round_6_err.
  unfold m_duration. rewrite H1, H2. apply Hsub. lia.
Qed.

Lemma analyze_times_rounded_witness :
  exists ctx input_sizes times_seconds graph_base64 w',
    analyze (mkRequest (Some "linear"%string) (Some 200) (Some 5)) steady_world
      = (Ok (http_success ctx input_sizes times_seconds graph_base64), w') /\
    length times_seconds = length (g_ys graph_base64) /\
    forall (k : nat) (t y : Q),
      nth_error times_seconds k = Some t ->
      nth_error (g_ys graph_base64) k = Some y ->
      (Qabs (t - y) <= 501 # 1000000000)%Q.
Proof.
  apply (analyze_times_rounded
           (mkRequest (Some "linear"%string) (Some 200) (Some 5)) steady_world
           linear_search).
  - reflexivity.
  - exact InputsFacts.steady_world_monotone.
  - exact InputsFacts.steady_world_bounded.
Defined.

(** X13.  Two names of one function are interchangeable: requests that
    differ only in which key of the function they give are answered with
    the same sizes, times, plotted points and execution time, and leave
    the same log; the responses differ in the name they repeat. *)
Theorem analyze_aliases (a b : string) (n steps : option Z) (w : World)
  (func : algorithm) :
  lookup ALGORITHMS (normalize a) = Some func ->
  lookup ALGORITHMS (normalize b) = Some func ->
  exists total input_sizes times_seconds ys w',
    analyze (mkRequest (Some a) n steps) w =
      (Ok (http_success
             (mkContext (normalize a) (clamp_n (get n 1000))
                (clamp_steps (get steps 10)) total)
             input_sizes times_seconds
             (mkGraph (normalize a) input_sizes ys)), w') /\
    analyze (mkRequest (Some b) n steps) w =
      (Ok (http_success
             (mkContext (normalize b) (clamp_n (get n 1000))
                (clamp_steps (get steps 10)) total)
             input_sizes times_seconds
             (mkGraph (normalize b) input_sizes ys)), w').
Proof.
  intros Ha Hb.
  set (w1 := emit (ev_perf_counter (round (clock w (reads w))))
               (mkWorld (clock w) (S (reads w)) (rng w) (draws w) (log w))).
  destruct (measure_times_spec func (clamp_n (get n 1000))
              (clamp_steps (get steps 10)) w1
              (clamp_n_range _) (clamp_steps_range _))
    as [ms [w2 [Hm _]]].
  eexists _, _, _, _, _. split.
  - unfold analyze, bind at 1, perf_counter. fold w1.
    cbn [arg_algo arg_n arg_steps get]. rewrite Ha.
    unfold bind at 1. rewrite Hm. reflexivity.
  - unfold analyze, bind at 1, perf_counter. fold w1.
    cbn [arg_algo arg_n arg_steps get]. rewrite Hb.
    unfold bind at 1. rewrite Hm. reflexivity.
Qed.

Lemma analyze_aliases_witness :
  exists total input_sizes times_seconds ys w',
    analyze (mkRequest (Some "bubble"%string) (Some 500) None) sample_world =
      (Ok (http_success
             (mkContext (normalize "bubble"%string) (clamp_n (get (Some 500) 1000))
                (clamp_steps (get None 10)) total)
             input_sizes times_seconds
             (mkGraph (normalize "bubble"%string) input_sizes ys)), w') /\
    analyze (mkRequest (Some " BubbleSort "%string) (Some 500) None)
            sample_world =
      (Ok (http_success
             (mkContext (normalize " BubbleSort "%string)
                (clamp_n (get (Some 500) 1000))
                (clamp_steps (get None 10)) total)
             input_sizes times_seconds
             (mkGraph (normalize " BubbleSort "%string) input_sizes ys)), w').
Proof.
  apply (analyze_aliases "bubble"%string " BubbleSort "%string (Some 500) None
           sample_world bubble_sort); reflexivity.
Defined.

(** X14.  For an algorithm's name that is an ASCII string, [analyze]
    does not tell the letters A-Z from a-z, nor see the ASCII white space
    around the name: the request with the name in lower case, the one
    with it stripped, and the one with the name the response repeats are
    answered as the request itself. *)
Theorem analyze_ignores_case_and_space (s : string) (n steps : option Z)
  (w : World) :
  Str.isascii s = true ->
  analyze (mkRequest (Some (Str.lower s)) n steps) w
    = analyze (mkRequest (Some s) n steps) w /\
  analyze (mkRequest (Some (Str.strip s)) n steps) w
    = analyze (mkRequest (Some s) n steps) w /\
  analyze (mkRequest (Some (normalize s)) n steps) w
    = analyze (mkRequest (Some s) n steps) w /\
  Str.isascii (Str.lower s) = true /\
  Str.isascii (Str.strip s) = true /\
  Str.isascii (normalize s) = true.
Proof.
  intros Hs.
  unfold analyze. cbn [arg_algo arg_n arg_steps get].
  rewrite StrFacts.normalize_lower, StrFacts.normalize_strip,
    StrFacts.normalize_idem.
  repeat (split; [reflexivity|]).
  pose proof (StrFacts.isascii_lower s Hs) as Hl.
  split; [exact Hl|]. split.
  - apply StrFacts.isascii_strip. exact Hs.
  - unfold normalize. apply StrFacts.isascii_strip. exact Hl.
Qed.

Lemma analyze_ignores_case_and_space_witness :
  analyze (mkRequest (Some (Str.lower "  BuBBle "%string)) (Some 300) None)
          sample_world
    = analyze (mkRequest (Some "  BuBBle "%string) (Some 300) None)
              sample_world /\
  analyze (mkRequest (Some (Str.strip "  BuBBle "%string)) (Some 300) None)
          sample_world
    = analyze (mkRequest (Some "  BuBBle "%string) (Some 300) None)
              sample_world /\
  analyze (mkRequest (Some (normalize "  BuBBle "%string)) (Some 300) None)
          sample_world
    = analyze (mkRequest (Some "  BuBBle "%string) (Some 300) None)
              sample_world /\
  Str.isascii (Str.lower "  BuBBle "%string) = true /\
  Str.isascii (Str.strip "  BuBBle "%string) = true /\
  Str.isascii (normalize "  BuBBle "%string) = true.
Proof.
  apply (analyze_ignores_case_and_space "  BuBBle "%string (Some 300) None
           sample_world).
  reflexivity.
Defined.

(** ** The session of [save_analysis_result] *)

(** X15.  However [save_analysis_result] ends, the session of line 93
    is closed when it returns, whatever session was there before. *)
Theorem save_analysis_result_closes
  (Database : Type)
  (db_insert : Database -> Persistence.analysis -> py (Z * Database))
  (db_select : Database -> Z -> py Persistence.saved_row)
  (db_rollback : Database -> Database)
  (int_of_str : string -> option Z)
  (str_of_exn : exn -> string)
  (s : Persistence.State Database) :
  Persistence.sess
    (snd (Persistence.save_analysis_result db_insert db_select db_rollback
            int_of_str str_of_exn s))
  = Persistence.mkSession None None false.
Proof.
  pose proof (PersistenceFacts.save_analysis_result_cases
                Database db_insert db_select db_rollback int_of_str
                str_of_exn s) as H.
  cbv zeta in H.
  destruct (Persistence.new_analysis int_of_str _) as [[a|e] s1].
  - destruct (db_insert (Persistence.database s) a) as [[id db']|e].
    + destruct (db_select db' id) as [row|e]; rewrite H; reflexivity.
    + rewrite H. reflexivity.
  - rewrite H. reflexivity.
Qed.

(** X16.  Whatever exception the building of the object of lines
    96-105 raises, a [TypeError], [ValueError] or [OverflowError] of
    [int] on a value of the record, the answer is the error 500 that
    carries its text; the database is rolled back and is not asked to
    insert anything: the answer is the same whatever an insertion would
    do. *)
Theorem save_analysis_result_bad_record
  (Database : Type)
  (db_insert : Database -> Persistence.analysis -> py (Z * Database))
  (db_select : Database -> Z -> py Persistence.saved_row)
  (db_rollback : Database -> Database)
  (int_of_str : string -> option Z)
  (str_of_exn : exn -> string)
  (s : Persistence.State Database) (e : exn) :
  fst (Persistence.new_analysis int_of_str s) = Raise e ->
  Persistence.save_analysis_result db_insert db_select db_rollback
    int_of_str str_of_exn s
  = (Ok (Persistence.error 500
           (String.append "Failed to save analysis: " (str_of_exn e))),
     Persistence.mkState (db_rollback (Persistence.database s))
       (Persistence.mkSession None None false) (Persistence.data_obj s)).
Proof.
  intros He.
  pose proof (PersistenceFacts.save_analysis_result_cases
                Database db_insert db_select db_rollback int_of_str
                str_of_exn s) as H.
  cbv zeta in H.
  rewrite <- (QueriesFacts.new_analysis_data_only Database int_of_str
                (Persistence.mkState (Persistence.database s)
                   (Persistence.mkSession None None true)
                   (Persistence.data_obj s)) s eq_refl) in He.
  destruct (Persistence.new_analysis int_of_str _) as [[a|e'] s1];
    cbn [fst] in He; [discriminate|].
  inversion He; subst e'. exact H.
Qed.

Lemma save_analysis_result_bad_record_witness :
  Persistence.save_analysis_result memory_insert memory_select
    (fun db => db) (fun _ => None) exn_name
    (Persistence.mkState [] (Persistence.mkSession None None false)
       [("items"%string, Persistence.PyInf false)])
  = (Ok (Persistence.error 500
           (String.append "Failed to save analysis: "
              (exn_name OverflowError))),
     Persistence.mkState []
       (Persistence.mkSession None None false)
       [("items"%string, Persistence.PyInf false)]).
Proof.
  apply (save_analysis_result_bad_record memory_db memory_insert memory_select
           (fun db => db) (fun _ => None) exn_name
           (Persistence.mkState [] (Persistence.mkSession None None false)
              [("items"%string, Persistence.PyInf false)])
           OverflowError).
  reflexivity.
Defined.

(** X17.  What an answer of [save_analysis_result] says of the
    database.  A success: the object built from the record, with the
    defaults of lines 97-104 for the keys the record lacks, was inserted
    under the identifier returned, and the data returned is the row as
    reloaded, with that identifier.  An error: either nothing was
    inserted and the database is the one before, rolled back; or the
    insertion went through and the reload of the row failed, and the
    database is the one after the insertion, rolled back. *)
Theorem save_analysis_result_outcomes
  (Database : Type)
  (db_insert : Database -> Persistence.analysis -> py (Z * Database))
  (db_select : Database -> Z -> py Persistence.saved_row)
  (db_rollback : Database -> Database)
  (int_of_str : string -> option Z)
  (str_of_exn : exn -> string)
  (s : Persistence.State Database) :
  match Persistence.save_analysis_result db_insert db_select db_rollback
          int_of_str str_of_exn s with
  | (Ok (Persistence.success _ id _ data), s') =>
      exists a row,
        db_insert (Persistence.database s) a = Ok (id, Persistence.database s') /\
        db_select (Persistence.database s') id = Ok row /\
        data = Persistence.to_dict id row /\
        Handler.lookup data "id"%string = Some (Persistence.PyInt id) /\
        Persistence.algo a
          = Persistence.dict_get (Persistence.data_obj s) "algo"%string
              Persistence.PyNone /\
        Persistence.py_int int_of_str
          (Persistence.dict_get (Persistence.data_obj s) "items"%string
             (Persistence.PyInt 0)) = Ok (Persistence.items a) /\
        Persistence.py_int int_of_str
          (Persistence.dict_get (Persistence.data_obj s) "steps"%string
             (Persistence.PyInt 0)) = Ok (Persistence.steps a) /\
        Persistence.py_int int_of_str
          (Persistence.dict_get (Persistence.data_obj s) "start_time"%string
             (Persistence.PyInt 0)) = Ok (Persistence.start_time a) /\
        Persistence.py_int int_of_str
          (Persistence.dict_get (Persistence.data_obj s) "end_time"%string
             (Persistence.PyInt 0)) = Ok (Persistence.end_time a) /\
        Persistence.py_int int_of_str
          (Persistence.dict_get (Persistence.data_obj s) "total_time_ms"%string
             (Persistence.PyInt 0)) = Ok (Persistence.total_time_ms a) /\
        Persistence.time_complexity a
          = Persistence.dict_get (Persistence.data_obj s)
              "time_complexity"%string (Persistence.PyStr ""%string) /\
        Persistence.path_to_graph a
          = Persistence.dict_get (Persistence.data_obj s)
              "path_to_graph"%string (Persistence.PyStr ""%string)
  | (Ok (Persistence.error _ _), s') =>
      Persistence.database s' = db_rollback (Persistence.database s) \/
      exists a id db' e,
        db_insert (Persistence.database s) a = Ok (id, db') /\
        db_select db' id = Raise e /\
        Persistence.database s' = db_rollback db'
  | (Raise _, _) => False
  end.
Proof.
  pose proof (PersistenceFacts.save_analysis_result_cases
                Database db_insert db_select db_rollback int_of_str
                str_of_exn s) as H.
  cbv zeta in H.
  destruct (Persistence.new_analysis int_of_str _) as [[a|e] s1] eqn:Ha.
  - destruct (db_insert (Persistence.database s) a) as [[id db']|e] eqn:Hi.
    + destruct (db_select db' id) as [row|e] eqn:Hsel; rewrite H.
      * exists a, row. cbn [Persistence.database].
        split; [exact Hi|]. split; [exact Hsel|]. split; [reflexivity|].
        split; [reflexivity|].
        apply (QueriesFacts.new_analysis_ok Database int_of_str _ _ _ Ha).
      * right. exists a, id, db', e. cbn [Persistence.database].
        split; [exact Hi|]. split; [exact Hsel|reflexivity].
    + rewrite H. left. reflexivity.
  - rewrite H. left. reflexivity.
Qed.

(** ** The queries *)

(** X18.  [get_analysis_by_id] raises nothing and leaves the session
    closed: it answers 200 with the row the database gives for the
    identifier, under the row's own identifier; 404, naming the
    identifier asked for, when the database has no such row; and 500
    with the text of the exception when the query fails. *)
Theorem get_analysis_by_id_answers
  (Database : Type)
  (db_first : Database -> Z -> py (option (Z * Persistence.saved_row)))
  (str_of_exn : exn -> string)
  (analysis_id : Z) (s : Persistence.State Database) :
  exists r,
    Queries.get_analysis_by_id db_first str_of_exn analysis_id s
    = (Ok r,
       Persistence.mkState (Persistence.database s)
         (Persistence.mkSession None None false) (Persistence.data_obj s)) /\
    match r with
    | Queries.found status_code data =>
        status_code = 200 /\
        exists id row,
          db_first (Persistence.database s) analysis_id = Ok (Some (id, row)) /\
          data = Persistence.to_dict id row /\
          Handler.lookup data "id"%string = Some (Persistence.PyInt id)
    | Queries.query_error status_code message =>
        (status_code = 404 /\
         db_first (Persistence.database s) analysis_id = Ok None /\
         message = String.append "Analysis with ID "
                     (String.append (Persistence.str_of_int analysis_id)
                        " not found")) \/
        (status_code = 500 /\
         exists e,
           db_first (Persistence.database s) analysis_id = Raise e /\
           message = String.append "Error retrieving analysis: "
                       (str_of_exn e))
    | Queries.listed _ _ _ => False
    end.
Proof.
  eexists. split.
  - apply QueriesFacts.get_analysis_by_id_cases.
  - destruct (db_first (Persistence.database s) analysis_id)
      as [[[id row]|]|e].
    + split; [reflexivity|]. exists id, row. repeat split.
    + left. repeat split.
    + right. split; [reflexivity|]. exists e. split; reflexivity.
Qed.

(** X19.  [get_all_analyses] raises nothing and leaves the session
    closed: it answers 200 with one dictionary for each row the database
    gives, in the order the database gives them, and their number as the
    count; and 500 with the text of the exception when the query
    fails. *)
Theorem get_all_analyses_answers
  (Database : Type)
  (db_all : Database -> py (list (Z * Persistence.saved_row)))
  (str_of_exn : exn -> string)
  (s : Persistence.State Database) :
  exists r,
    Queries.get_all_analyses db_all str_of_exn s
    = (Ok r,
       Persistence.mkState (Persistence.database s)
         (Persistence.mkSession None None false) (Persistence.data_obj s)) /\
    match r with
    | Queries.listed status_code count data =>
        status_code = 200 /\
        count = len data /\
        exists rows,
          db_all (Persistence.database s) = Ok rows /\
          length data = length rows /\
          forall (k : nat) (id : Z) (row : Persistence.saved_row),
            nth_error rows k = Some (id, row) ->
            nth_error data k = Some (Persistence.to_dict id row)
    | Queries.query_error status_code message =>
        status_code = 500 /\
        exists e,
          db_all (Persistence.database s) = Raise e /\
          message = String.append "Error retrieving analyses: "
                      (str_of_exn e)
    | Queries.found _ _ => False
    end.
Proof.
  eexists. split.
  - apply QueriesFacts.get_all_analyses_cases.
  - destruct (db_all (Persistence.database s)) as [rows|e].
    + split; [reflexivity|]. split.
      { unfold len. rewrite length_map. reflexivity. }
      exists rows. split; [reflexivity|]. split; [apply length_map|].
      intros k id row Hk. rewrite nth_error_map, Hk. reflexivity.
    + split; [reflexivity|]. exists e. split; reflexivity.
Qed.

(** X20.  Lines 234-242: on a database whose query by identifier gives
    the row a reload by that identifier gives, asking for the identifier
    a successful [save_analysis_result] returned is answered 200 with the
    data the save returned, and changes nothing. *)
Theorem save_then_get
  (Database : Type)
  (db_insert : Database -> Persistence.analysis -> py (Z * Database))
  (db_select : Database -> Z -> py Persistence.saved_row)
  (db_rollback : Database -> Database)
  (db_first : Database -> Z -> py (option (Z * Persistence.saved_row)))
  (int_of_str : string -> option Z)
  (str_of_exn : exn -> string)
  (s : Persistence.State Database) :
  (forall db k row, db_select db k = Ok row ->
                    db_first db k = Ok (Some (k, row))) ->
  match Persistence.save_analysis_result db_insert db_select db_rollback
          int_of_str str_of_exn s with
  | (Ok (Persistence.success _ id _ data), s') =>
      Queries.get_analysis_by_id db_first str_of_exn id s'
      = (Ok (Queries.found 200 data), s')
  | _ => True
  end.
Proof.
  intros Hagree.
  pose proof (PersistenceFacts.save_analysis_result_cases
                Database db_insert db_select db_rollback int_of_str
                str_of_exn s) as H.
  cbv zeta in H.
  destruct (Persistence.new_analysis int_of_str _) as [[a|e] s1].
  - destruct (db_insert (Persistence.database s) a) as [[id db']|e].
    + destruct (db_select db' id) as [row|e] eqn:Hsel; rewrite H;
        [|exact I].
      rewrite QueriesFacts.get_analysis_by_id_cases.
      cbn [Persistence.database Persistence.data_obj].
      rewrite (Hagree db' id row Hsel). reflexivity.
    + rewrite H. exact I.
  - rewrite H. exact I.
Qed.

Lemma save_then_get_witness :
  match Persistence.save_analysis_result memory_insert memory_select
          (fun db => db) (fun _ => None) exn_name sample_state with
  | (Ok (Persistence.success _ id _ data), s') =>
      Queries.get_analysis_by_id memory_first exn_name id s'
      = (Ok (Queries.found 200 data), s')
  | _ => True
  end.
Proof.
  apply (save_then_get memory_db memory_insert memory_select (fun db => db)
           memory_first (fun _ => None) exn_name sample_state).
  exact InputsFacts.memory_first_select.
Defined.

(** The record of lines 223-232 is saved as row 1 and found again under
    that identifier; no row is found under another. *)
Example save_then_get_sample :
  let s' := snd (Persistence.save_analysis_result memory_insert memory_select
                   (fun db => db) (fun _ => None) exn_name sample_state) in
  (exists data,
     fst (Queries.get_analysis_by_id memory_first exn_name 1 s')
     = Ok (Queries.found 200 data) /\
     Handler.lookup data "algo"%string
     = Some (Persistence.PyStr "Bubble Sort"%string)) /\
  fst (Queries.get_analysis_by_id memory_first exn_name 2 s')
  = Ok (Queries.query_error 404 "Analysis with ID 2 not found"%string) /\
  (exists data,
     fst (Queries.get_all_analyses memory_all exn_name s')
     = Ok (Queries.listed 200 1 [data])).
Proof.
  cbv zeta. split; [|split].
  - eexists. split; vm_compute; reflexivity.
  - vm_compute. reflexivity.
  - eexists. vm_compute. reflexivity.
Qed.
